(** * DTrackSDK compatibility facades: DTrack, DTrack2 and DTracklib

    A shallow embedding of the three legacy wrapper classes of the DTrackSDK
    (Compatibility/DTrack/DTrack.cpp, the DTrack2 wrapper and
    Compatibility/DTrackLib/DTracklib.cpp) and the verification of their
    frame-copy, accessor and command-forwarding behaviour.

    Conventions of the embedding:
    - a C++ [int] is a [Z] (no arithmetic is performed on the values modelled
      here, apart from loop counters bounded by a vector size, so no
      wrap-around occurs); [unsigned long] is a [Z] reduced modulo [2^64];
    - [double] and [float] are IEEE-754 values ([spec_float]); the cast
      [(float)x] is rounding to binary32 (round to nearest, ties to even);
    - [std::vector<T>] is a [list T]; a fixed-size member array [T a[N]] is a
      [list T] holding [N] elements, read by index inside [N];
    - an operation that may throw, dereference a null pointer or read outside
      a vector returns an [outcome]. *)

From Stdlib Require Import ZArith String List Lia.
From Stdlib Require Import Floats.SpecFloat.
From Stdlib Require Import DecimalString.
From Stdlib Require HexadecimalString.
From stdpp Require Import base list.

Local Open Scope string_scope.
Local Open Scope Z_scope.

(** ** IEEE-754 values *)

Definition double : Type := spec_float.
Definition float : Type := spec_float.

(** [(float)x] for a [double] x. *)
Definition to_float (x : double) : float :=
  match x with
  | S754_finite s m e => binary_round 24 128 s m e
  | _ => x
  end.

(** Conversion of an [int] constant to [float] (as in [quality = -1]). *)
Definition float_of_int (z : Z) : float := binary_normalize 24 128 z 0 false.

(** The all-bits-zero pattern written by [memset(.., 0, ..)]. *)
Definition float_zero : float := S754_zero false.
Definition double_zero : double := S754_zero false.

(** The number of bits of [unsigned long] (LP64). *)
Definition ulong_bits : Z := 64.

(** [(unsigned long)x] for an [int] x. *)
Definition to_ulong (x : Z) : Z := x mod 2 ^ ulong_bits.

(** ** Faulting computations *)

Inductive fault : Type :=
| NullDereference      (* a NULL pointer returned by the SDK is dereferenced *)
| OutOfRange           (* std::vector::at throws std::out_of_range *)
| LengthError          (* std::vector::resize with a negative int throws *)
| OutOfBoundsRead.     (* std::vector::operator[] outside the vector *)

Inductive outcome (A : Type) : Type :=
| Done (a : A)
| Fault (f : fault).
Arguments Done {A} a.
Arguments Fault {A} f.

#[global] Instance outcome_ret : MRet outcome := fun A a => Done a.
#[global] Instance outcome_bind : MBind outcome := fun A B k m =>
  match m with
  | Done a => k a
  | Fault f => Fault f
  end.

(** [*p] for a pointer obtained from the SDK. *)
Definition deref {A} (p : option A) : outcome A :=
  match p with
  | Some a => Done a
  | None => Fault NullDereference
  end.

(** ** std::vector *)

Section Vector.
Context {A : Type}.

(** [v.resize(n)] with an [int] argument; new elements are value-initialised. *)
Definition vector_resize (zero : A) (n : Z) (v : list A) : outcome (list A) :=
  if n <? 0 then Fault LengthError
  else Done (resize (Z.to_nat n) zero v).

(** [v.at(i)] with an [int] index. *)
Definition vector_at (v : list A) (i : Z) : outcome A :=
  if i <? 0 then Fault OutOfRange
  else match v !! Z.to_nat i with
       | Some a => Done a
       | None => Fault OutOfRange
       end.

(** [v[i]] with an [int] index. *)
Definition vector_index (v : list A) (i : Z) : outcome A :=
  if i <? 0 then Fault OutOfBoundsRead
  else match v !! Z.to_nat i with
       | Some a => Done a
       | None => Fault OutOfBoundsRead
       end.

(** [v.at(i) = a], after [v.at(i)] was obtained. *)
Definition vector_store (v : list A) (i : Z) (a : A) : list A :=
  <[Z.to_nat i := a]> v.
End Vector.

(** ** Loops *)

Section Loops.
Context {S : Type}.

Fixpoint for_from (k : nat) (i : Z) (body : Z -> S -> outcome S) (s : S)
  : outcome S :=
  match k with
  | O => Done s
  | Datatypes.S k' => s' ← body i s; for_from k' (i + 1) body s'
  end.

(** [for (int i = 0; i < n; i++) body] *)
Definition for_int (n : Z) (body : Z -> S -> outcome S) (s : S) : outcome S :=
  for_from (Z.to_nat n) 0 body s.
End Loops.

(** [for (int j = 0; j < n; j++) dst[j] = f(src[j]);] on member arrays of
    at least [n] elements ([zero] is never read inside the array). *)
Definition array_copy {A B} (n : Z) (f : A -> B) (zero : A) (src : list A)
  : list B :=
  map (fun j => f (nth j src zero)) (seq 0 (Z.to_nat n)).

(** One iteration of a copy loop of [receive]:
    [const A *src = sdk->getX(i); B *dst = &act_x.at(i); dst->.. = src->..;]
    where [conv] stands for the field assignments, which write every field
    of [*dst]. *)
Definition copy_elem {A B} (getX : Z -> option A) (conv : A -> B)
    (i : Z) (act_x : list B) : outcome (list B) :=
  src ← deref (getX i);
  _ ← vector_at act_x i;
  Done (vector_store act_x i (conv src)).

(** ** The unified SDK object behind the facades *)

Module SDK.

(** Modelled from the spec: the record types of include/DTrackDataTypes.hpp
    (the header is not among the sources). Each entity record carries an
    integer id, a quality scalar, a 3-component location and a 3x3 rotation
    matrix stored as 9 scalars; flysticks add button and joystick arrays,
    hands add handedness, a finger count and per-finger records. The
    fields are the ones the facades read. *)
Record DTrack_Body_Type_d := {
  b_id : Z;
  b_quality : double;
  b_loc : list double;
  b_rot : list double
}.

Record DTrack_FlyStick_Type_d := {
  f_id : Z;
  f_quality : double;
  f_num_button : Z;
  f_button : list Z;
  f_num_joystick : Z;
  f_joystick : list double;
  f_loc : list double;
  f_rot : list double
}.

Record DTrack_MeaTool_Type_d := {
  t_id : Z;
  t_quality : double;
  t_num_button : Z;
  t_button : list Z;
  t_loc : list double;
  t_rot : list double
}.

Record DTrack_Finger_Type_d := {
  fg_loc : list double;
  fg_rot : list double;
  fg_radiustip : double;
  fg_lengthphalanx : list double;
  fg_anglephalanx : list double
}.

Record DTrack_Hand_Type_d := {
  h_id : Z;
  h_quality : double;
  h_lr : Z;
  h_nfinger : Z;
  h_loc : list double;
  h_rot : list double;
  h_finger : list DTrack_Finger_Type_d
}.

Record DTrack_Marker_Type_d := {
  m_id : Z;
  m_quality : double;
  m_loc : list double
}.

Definition zero_finger : DTrack_Finger_Type_d :=
  {| fg_loc := []; fg_rot := []; fg_radiustip := double_zero;
     fg_lengthphalanx := []; fg_anglephalanx := [] |}.

(** DTrackSDK::Errors *)
Inductive Errors : Type := ERR_NONE | ERR_TIMEOUT | ERR_NET | ERR_PARSE.

Definition Errors_eqb (a b : Errors) : bool :=
  match a, b with
  | ERR_NONE, ERR_NONE | ERR_TIMEOUT, ERR_TIMEOUT
  | ERR_NET, ERR_NET | ERR_PARSE, ERR_PARSE => true
  | _, _ => false
  end.

(** Modelled from the spec: the state of a DTrackSDK object (class
    DTrackSDK of include/DTrackSDK.hpp, not among the sources): the current
    frame as one ordered sequence per entity type, the sticky last-error
    registers of the data and the command channel, and the last
    device-side error code with its description. *)
Record DTrackSDK := {
  localDataPortValid : bool;
  commandInterfaceValid : bool;
  lastDataError : Errors;
  lastServerError : Errors;
  lastDTrackError : Z;
  lastDTrackErrorDescription : string;
  frameCounter : Z;
  timeStamp : double;
  act_body : list DTrack_Body_Type_d;
  act_flystick : list DTrack_FlyStick_Type_d;
  act_meatool : list DTrack_MeaTool_Type_d;
  act_hand : list DTrack_Hand_Type_d;
  act_marker : list DTrack_Marker_Type_d
}.

Definition isLocalDataPortValid (s : DTrackSDK) : bool := localDataPortValid s.
Definition isCommandInterfaceValid (s : DTrackSDK) : bool := commandInterfaceValid s.
Definition getLastDataError (s : DTrackSDK) : Errors := lastDataError s.
Definition getLastServerError (s : DTrackSDK) : Errors := lastServerError s.
Definition getLastDTrackError (s : DTrackSDK) : Z := lastDTrackError s.
Definition getLastDTrackErrorDescription (s : DTrackSDK) : string :=
  lastDTrackErrorDescription s.
Definition getFrameCounter (s : DTrackSDK) : Z := frameCounter s.
Definition getTimeStamp (s : DTrackSDK) : double := timeStamp s.

(** Modelled from the spec: the count getters and the element getters of
    the SDK. Count fields and sequence lengths are consistent, and an
    element getter hands out a pointer to the i-th element, NULL outside
    the sequence. *)
Definition get_elem {A} (l : list A) (i : Z) : option A :=
  if (0 <=? i) && (i <? Z.of_nat (length l)) then l !! Z.to_nat i else None.

Definition getNumBody (s : DTrackSDK) : Z := Z.of_nat (length (act_body s)).
Definition getBody (s : DTrackSDK) (i : Z) := get_elem (act_body s) i.
Definition getNumFlyStick (s : DTrackSDK) : Z := Z.of_nat (length (act_flystick s)).
Definition getFlyStick (s : DTrackSDK) (i : Z) := get_elem (act_flystick s) i.
Definition getNumMeaTool (s : DTrackSDK) : Z := Z.of_nat (length (act_meatool s)).
Definition getMeaTool (s : DTrackSDK) (i : Z) := get_elem (act_meatool s) i.
Definition getNumHand (s : DTrackSDK) : Z := Z.of_nat (length (act_hand s)).
Definition getHand (s : DTrackSDK) (i : Z) := get_elem (act_hand s) i.
Definition getNumMarker (s : DTrackSDK) : Z := Z.of_nat (length (act_marker s)).
Definition getMarker (s : DTrackSDK) (i : Z) := get_elem (act_marker s) i.

(** The operations of the SDK that talk to the network. Their results
    depend on the transport and on the remote controller, which are
    outside the program; a facade is verified for every behaviour of them.
    - [receive]: DTrackSDK::receive(), one datagram received and parsed;
    - [sendCommand]: DTrackSDK::sendCommand(cmd), fire and forget;
    - [sendDTrack2Command]: DTrackSDK::sendDTrack2Command(cmd, NULL), the
      synchronous command exchange, with its int result. *)
Class Transport := {
  receive : DTrackSDK -> bool * DTrackSDK;
  sendCommand : string -> DTrackSDK -> bool * DTrackSDK;
  sendDTrack2Command : string -> DTrackSDK -> Z * DTrackSDK
}.

End SDK.

(** ** class DTrack (Compatibility/DTrack) *)

Module DTrack.

Record dtrack_body_type := {
  b_id : Z;
  b_quality : float;
  b_loc : list float;
  b_rot : list float
}.

Definition DTRACK_FLYSTICK_MAX_BUTTON : Z := 16.
Definition DTRACK_FLYSTICK_MAX_JOYSTICK : Z := 8.

Record dtrack_flystick_type := {
  f_id : Z;
  f_quality : float;
  f_num_button : Z;
  f_button : list Z;
  f_num_joystick : Z;
  f_joystick : list float;
  f_loc : list float;
  f_rot : list float
}.

Definition DTRACK_MEATOOL_MAX_BUTTON : Z := 1.

Record dtrack_meatool_type := {
  t_id : Z;
  t_quality : float;
  t_num_button : Z;
  t_button : list Z;
  t_loc : list float;
  t_rot : list float
}.

Definition DTRACK_HAND_MAX_FINGER : Z := 5.

Record dtrack_finger_type := {
  fg_loc : list float;
  fg_rot : list float;
  fg_radiustip : float;
  fg_lengthphalanx : list float;
  fg_anglephalanx : list float
}.

Record dtrack_hand_type := {
  h_id : Z;
  h_quality : float;
  h_lr : Z;
  h_nfinger : Z;
  h_loc : list float;
  h_rot : list float;
  h_finger : list dtrack_finger_type
}.

Record dtrack_marker_type := {
  m_id : Z;
  m_quality : float;
  m_loc : list float
}.

(** The records after [memset(&dummy, 0, sizeof ..)]; also the
    value-initialised elements appended by [resize]. *)
Definition zero_body : dtrack_body_type :=
  {| b_id := 0; b_quality := float_zero;
     b_loc := replicate 3 float_zero; b_rot := replicate 9 float_zero |}.

Definition zero_flystick : dtrack_flystick_type :=
  {| f_id := 0; f_quality := float_zero; f_num_button := 0;
     f_button := replicate (Z.to_nat DTRACK_FLYSTICK_MAX_BUTTON) 0;
     f_num_joystick := 0;
     f_joystick := replicate (Z.to_nat DTRACK_FLYSTICK_MAX_JOYSTICK) float_zero;
     f_loc := replicate 3 float_zero; f_rot := replicate 9 float_zero |}.

Definition zero_meatool : dtrack_meatool_type :=
  {| t_id := 0; t_quality := float_zero; t_num_button := 0;
     t_button := replicate (Z.to_nat DTRACK_MEATOOL_MAX_BUTTON) 0;
     t_loc := replicate 3 float_zero; t_rot := replicate 9 float_zero |}.

Definition zero_finger : dtrack_finger_type :=
  {| fg_loc := replicate 3 float_zero; fg_rot := replicate 9 float_zero;
     fg_radiustip := float_zero;
     fg_lengthphalanx := replicate 3 float_zero;
     fg_anglephalanx := replicate 2 float_zero |}.

Definition zero_hand : dtrack_hand_type :=
  {| h_id := 0; h_quality := float_zero; h_lr := 0; h_nfinger := 0;
     h_loc := replicate 3 float_zero; h_rot := replicate 9 float_zero;
     h_finger := replicate (Z.to_nat DTRACK_HAND_MAX_FINGER) zero_finger |}.

Definition zero_marker : dtrack_marker_type :=
  {| m_id := 0; m_quality := float_zero; m_loc := replicate 3 float_zero |}.

Record DTrack := {
  sdk : SDK.DTrackSDK;
  remoteCameras : bool;
  remoteTracking : bool;
  remoteSending : bool;
  act_num_body : Z;
  act_body : list dtrack_body_type;
  act_num_flystick : Z;
  act_flystick : list dtrack_flystick_type;
  act_num_meatool : Z;
  act_meatool : list dtrack_meatool_type;
  act_num_marker : Z;
  act_marker : list dtrack_marker_type;
  act_num_hand : Z;
  act_hand : list dtrack_hand_type
}.

Definition set_sdk (d : DTrack) (s : SDK.DTrackSDK) : DTrack :=
  {| sdk := s;
     remoteCameras := remoteCameras d; remoteTracking := remoteTracking d;
     remoteSending := remoteSending d;
     act_num_body := act_num_body d; act_body := act_body d;
     act_num_flystick := act_num_flystick d; act_flystick := act_flystick d;
     act_num_meatool := act_num_meatool d; act_meatool := act_meatool d;
     act_num_marker := act_num_marker d; act_marker := act_marker d;
     act_num_hand := act_num_hand d; act_hand := act_hand d |}.

(** DTrack::DTrack, where [sdk0] is the object built by
    [new DTrackSDK(..)]. The constructor does not initialise the five count
    fields: [n_body] .. [n_hand] are their indeterminate values. *)
Definition new (sdk0 : SDK.DTrackSDK)
    (n_body n_flystick n_meatool n_marker n_hand : Z) : DTrack :=
  {| sdk := sdk0;
     remoteCameras := false; remoteTracking := true; remoteSending := true;
     act_num_body := n_body; act_body := [];
     act_num_flystick := n_flystick; act_flystick := [];
     act_num_meatool := n_meatool; act_meatool := [];
     act_num_marker := n_marker; act_marker := [];
     act_num_hand := n_hand; act_hand := [] |}.

(** The field assignments of the five copy loops of [receive]. *)
Definition copy_body (dtbt : SDK.DTrack_Body_Type_d) : dtrack_body_type :=
  {| b_id := SDK.b_id dtbt;
     b_quality := to_float (SDK.b_quality dtbt);
     b_loc := array_copy 3 to_float double_zero (SDK.b_loc dtbt);
     b_rot := array_copy 9 to_float double_zero (SDK.b_rot dtbt) |}.

Definition copy_flystick (dtfst : SDK.DTrack_FlyStick_Type_d)
  : dtrack_flystick_type :=
  {| f_id := SDK.f_id dtfst;
     f_quality := to_float (SDK.f_quality dtfst);
     f_num_button := SDK.f_num_button dtfst;
     f_button := array_copy DTRACK_FLYSTICK_MAX_BUTTON id 0 (SDK.f_button dtfst);
     f_num_joystick := SDK.f_num_joystick dtfst;
     f_joystick := array_copy DTRACK_FLYSTICK_MAX_JOYSTICK to_float double_zero
                     (SDK.f_joystick dtfst);
     f_loc := array_copy 3 to_float double_zero (SDK.f_loc dtfst);
     f_rot := array_copy 9 to_float double_zero (SDK.f_rot dtfst) |}.

Definition copy_meatool (dtmtt : SDK.DTrack_MeaTool_Type_d)
  : dtrack_meatool_type :=
  {| t_id := SDK.t_id dtmtt;
     t_quality := to_float (SDK.t_quality dtmtt);
     t_num_button := SDK.t_num_button dtmtt;
     t_button := array_copy DTRACK_MEATOOL_MAX_BUTTON id 0 (SDK.t_button dtmtt);
     t_loc := array_copy 3 to_float double_zero (SDK.t_loc dtmtt);
     t_rot := array_copy 9 to_float double_zero (SDK.t_rot dtmtt) |}.

Definition copy_finger (fk : SDK.DTrack_Finger_Type_d) : dtrack_finger_type :=
  {| fg_loc := array_copy 3 to_float double_zero (SDK.fg_loc fk);
     fg_rot := array_copy 9 to_float double_zero (SDK.fg_rot fk);
     fg_radiustip := to_float (SDK.fg_radiustip fk);
     fg_lengthphalanx :=
       array_copy 3 to_float double_zero (SDK.fg_lengthphalanx fk);
     fg_anglephalanx :=
       array_copy 2 to_float double_zero (SDK.fg_anglephalanx fk) |}.

Definition copy_hand (dtht : SDK.DTrack_Hand_Type_d) : dtrack_hand_type :=
  {| h_id := SDK.h_id dtht;
     h_quality := to_float (SDK.h_quality dtht);
     h_lr := SDK.h_lr dtht;
     h_nfinger := SDK.h_nfinger dtht;
     h_loc := array_copy 3 to_float double_zero (SDK.h_loc dtht);
     h_rot := array_copy 9 to_float double_zero (SDK.h_rot dtht);
     h_finger := array_copy DTRACK_HAND_MAX_FINGER copy_finger SDK.zero_finger
                   (SDK.h_finger dtht) |}.

Definition copy_marker (dtmt : SDK.DTrack_Marker_Type_d) : dtrack_marker_type :=
  {| m_id := SDK.m_id dtmt;
     m_quality := to_float (SDK.m_quality dtmt);
     m_loc := array_copy 3 to_float double_zero (SDK.m_loc dtmt) |}.

Section WithTransport.
Context `{SDK.Transport}.

Definition valid (d : DTrack) : bool := SDK.isLocalDataPortValid (sdk d).

(** DTrack::receive *)
Definition receive (d : DTrack) : outcome (bool * DTrack) :=
  let '(ok, sdk') := SDK.receive (sdk d) in
  if negb ok then Done (false, set_sdk d sdk')
  else
    (* copy body data *)
    let num_body := SDK.getNumBody sdk' in
    body ← vector_resize zero_body num_body (act_body d);
    body ← for_int num_body (copy_elem (SDK.getBody sdk') copy_body) body;
    (* copy flystick data *)
    let num_flystick := SDK.getNumFlyStick sdk' in
    flystick ← vector_resize zero_flystick num_flystick (act_flystick d);
    flystick ← for_int num_flystick
                 (copy_elem (SDK.getFlyStick sdk') copy_flystick) flystick;
    (* copy measurement tool data *)
    let num_meatool := SDK.getNumMeaTool sdk' in
    meatool ← vector_resize zero_meatool num_meatool (act_meatool d);
    meatool ← for_int num_meatool
                (copy_elem (SDK.getMeaTool sdk') copy_meatool) meatool;
    (* copy hand data *)
    let num_hand := SDK.getNumHand sdk' in
    hand ← vector_resize zero_hand num_hand (act_hand d);
    hand ← for_int num_hand (copy_elem (SDK.getHand sdk') copy_hand) hand;
    (* copy marker data *)
    let num_marker := SDK.getNumMarker sdk' in
    marker ← vector_resize zero_marker num_marker (act_marker d);
    marker ← for_int num_marker
               (copy_elem (SDK.getMarker sdk') copy_marker) marker;
    Done (true,
          {| sdk := sdk';
             remoteCameras := remoteCameras d;
             remoteTracking := remoteTracking d;
             remoteSending := remoteSending d;
             act_num_body := num_body; act_body := body;
             act_num_flystick := num_flystick; act_flystick := flystick;
             act_num_meatool := num_meatool; act_meatool := meatool;
             act_num_marker := num_marker; act_marker := marker;
             act_num_hand := num_hand; act_hand := hand |}).
End WithTransport.

Definition get_num_body (d : DTrack) : Z := act_num_body d.

(** DTrack::get_body *)
Definition get_body (d : DTrack) (id : Z) : outcome dtrack_body_type :=
  if id <? act_num_body d then vector_index (act_body d) id
  else Done {| b_id := id; b_quality := float_of_int (-1);
               b_loc := b_loc zero_body; b_rot := b_rot zero_body |}.

Definition get_num_flystick (d : DTrack) : Z := act_num_flystick d.

(** DTrack::get_flystick *)
Definition get_flystick (d : DTrack) (id : Z) : outcome dtrack_flystick_type :=
  if id <? act_num_flystick d then vector_index (act_flystick d) id
  else Done {| f_id := id; f_quality := float_of_int (-1);
               f_num_button := f_num_button zero_flystick;
               f_button := f_button zero_flystick;
               f_num_joystick := f_num_joystick zero_flystick;
               f_joystick := f_joystick zero_flystick;
               f_loc := f_loc zero_flystick; f_rot := f_rot zero_flystick |}.

Definition get_num_meatool (d : DTrack) : Z := act_num_meatool d.

(** DTrack::get_meatool *)
Definition get_meatool (d : DTrack) (id : Z) : outcome dtrack_meatool_type :=
  if id <? act_num_meatool d then vector_index (act_meatool d) id
  else Done {| t_id := id; t_quality := float_of_int (-1);
               t_num_button := t_num_button zero_meatool;
               t_button := t_button zero_meatool;
               t_loc := t_loc zero_meatool; t_rot := t_rot zero_meatool |}.

Definition get_num_hand (d : DTrack) : Z := act_num_hand d.

(** DTrack::get_hand *)
Definition get_hand (d : DTrack) (id : Z) : outcome dtrack_hand_type :=
  if id <? act_num_hand d then vector_index (act_hand d) id
  else Done {| h_id := id; h_quality := float_of_int (-1);
               h_lr := h_lr zero_hand; h_nfinger := h_nfinger zero_hand;
               h_loc := h_loc zero_hand; h_rot := h_rot zero_hand;
               h_finger := h_finger zero_hand |}.

Definition get_num_marker (d : DTrack) : Z := act_num_marker d.

(** DTrack::get_marker *)
Definition get_marker (d : DTrack) (index : Z) : outcome dtrack_marker_type :=
  if (0 <=? index) && (index <? act_num_marker d)
  then vector_index (act_marker d) index
  else Done {| m_id := 0; m_quality := float_of_int (-1);
               m_loc := m_loc zero_marker |}.

(** DTrack::get_framecounter and DTrack::get_timestamp read the SDK. *)
Definition get_framecounter (d : DTrack) : Z := SDK.getFrameCounter (sdk d).
Definition get_timestamp (d : DTrack) : double := SDK.getTimeStamp (sdk d).

(** DTrack::timeout, DTrack::udperror, DTrack::parseerror *)
Definition timeout (d : DTrack) : bool :=
  SDK.Errors_eqb (SDK.getLastDataError (sdk d)) SDK.ERR_TIMEOUT.
Definition udperror (d : DTrack) : bool :=
  SDK.Errors_eqb (SDK.getLastDataError (sdk d)) SDK.ERR_NET.
Definition parseerror (d : DTrack) : bool :=
  SDK.Errors_eqb (SDK.getLastDataError (sdk d)) SDK.ERR_PARSE.

(** Assignments to the three status flags. *)
Definition set_remoteCameras (d : DTrack) (onoff : bool) : DTrack :=
  {| sdk := sdk d;
     remoteCameras := onoff; remoteTracking := remoteTracking d;
     remoteSending := remoteSending d;
     act_num_body := act_num_body d; act_body := act_body d;
     act_num_flystick := act_num_flystick d; act_flystick := act_flystick d;
     act_num_meatool := act_num_meatool d; act_meatool := act_meatool d;
     act_num_marker := act_num_marker d; act_marker := act_marker d;
     act_num_hand := act_num_hand d; act_hand := act_hand d |}.

Definition set_remoteTracking (d : DTrack) (onoff : bool) : DTrack :=
  {| sdk := sdk d;
     remoteCameras := remoteCameras d; remoteTracking := onoff;
     remoteSending := remoteSending d;
     act_num_body := act_num_body d; act_body := act_body d;
     act_num_flystick := act_num_flystick d; act_flystick := act_flystick d;
     act_num_meatool := act_num_meatool d; act_meatool := act_meatool d;
     act_num_marker := act_num_marker d; act_marker := act_marker d;
     act_num_hand := act_num_hand d; act_hand := act_hand d |}.

Definition set_remoteSending (d : DTrack) (onoff : bool) : DTrack :=
  {| sdk := sdk d;
     remoteCameras := remoteCameras d; remoteTracking := remoteTracking d;
     remoteSending := onoff;
     act_num_body := act_num_body d; act_body := act_body d;
     act_num_flystick := act_num_flystick d; act_flystick := act_flystick d;
     act_num_meatool := act_num_meatool d; act_meatool := act_meatool d;
     act_num_marker := act_num_marker d; act_marker := act_marker d;
     act_num_hand := act_num_hand d; act_hand := act_hand d |}.

Section RemoteCommands.
Context `{SDK.Transport}.

(** [sdk->sendCommand(cmd)] as a statement and as the returned value. *)
Definition send_dropping_result (cmd : string) (d : DTrack) : DTrack :=
  set_sdk d (snd (SDK.sendCommand cmd (sdk d))).

Definition send_returning_result (cmd : string) (d : DTrack) : bool * DTrack :=
  let '(res, sdk') := SDK.sendCommand cmd (sdk d) in (res, set_sdk d sdk').

(** DTrack::cmd_cameras *)
Definition cmd_cameras (onoff : bool) (d : DTrack) : bool * DTrack :=
  if negb (valid d) then (false, d)
  else
    let d := set_remoteCameras d onoff in
    if remoteCameras d then
      (* switch cameras on *)
      if remoteTracking d then
        let d := send_dropping_result "dtrack 10 3" d in
        if remoteSending d then send_returning_result "dtrack 31" d
        else (true, d)
      else
        let d := send_dropping_result "dtrack 10 1" d in
        (true, d)
    else
      (* switch cameras off *)
      let d := if remoteSending d then send_dropping_result "dtrack 32" d
               else d in
      send_returning_result "dtrack 10 0" d.

(** DTrack::cmd_tracking; the delay after "dtrack 10 3" (usleep, Sleep)
    does not act on the object. *)
Definition cmd_tracking (onoff : bool) (d : DTrack) : bool * DTrack :=
  if negb (valid d) then (false, d)
  else
    let d := set_remoteTracking d onoff in
    if remoteCameras d then
      if remoteTracking d then send_returning_result "dtrack 10 3" d
      else send_returning_result "dtrack 10 1" d
    else (true, d).

(** DTrack::cmd_sending_data *)
Definition cmd_sending_data (onoff : bool) (d : DTrack) : bool * DTrack :=
  if negb (valid d) then (false, d)
  else
    let d := set_remoteSending d onoff in
    if negb (remoteCameras d) then (false, d)
    else
      (* cameras are on, so send command *)
      if remoteSending d then send_returning_result "dtrack 31" d
      else send_returning_result "dtrack 32" d.

(** DTrack::cmd_sending_fixed_data *)
Definition cmd_sending_fixed_data (frames : Z) (d : DTrack) : bool * DTrack :=
  if negb (valid d) then (false, d)
  else
    if remoteCameras d then
      (* cameras are on, so send command *)
      let cmd := "dtrack 33 " ++ NilZero.string_of_int (Z.to_int frames) in
      send_returning_result cmd d
    else (true, d).
End RemoteCommands.

End DTrack.

(** ** class DTrack2 (the DTrack2 wrapper) *)

Module DTrack2.

Record dtrack2_body_type := {
  b_id : Z;
  b_quality : float;
  b_loc : list float;
  b_rot : list float
}.

Definition DTRACK2_FLYSTICK_MAX_BUTTON : Z := 16.
Definition DTRACK2_FLYSTICK_MAX_JOYSTICK : Z := 8.

Record dtrack2_flystick_type := {
  f_id : Z;
  f_quality : float;
  f_num_button : Z;
  f_button : list Z;
  f_num_joystick : Z;
  f_joystick : list float;
  f_loc : list float;
  f_rot : list float
}.

Definition DTRACK2_MEATOOL_MAX_BUTTON : Z := 1.

Record dtrack2_meatool_type := {
  t_id : Z;
  t_quality : float;
  t_num_button : Z;
  t_button : list Z;
  t_loc : list float;
  t_rot : list float
}.

Definition DTRACK2_HAND_MAX_FINGER : Z := 5.

Record dtrack2_finger_type := {
  fg_loc : list float;
  fg_rot : list float;
  fg_radiustip : float;
  fg_lengthphalanx : list float;
  fg_anglephalanx : list float
}.

Record dtrack2_hand_type := {
  h_id : Z;
  h_quality : float;
  h_lr : Z;
  h_nfinger : Z;
  h_loc : list float;
  h_rot : list float;
  h_finger : list dtrack2_finger_type
}.

Record dtrack2_marker_type := {
  m_id : Z;
  m_quality : float;
  m_loc : list float
}.

(** The records after [memset(&dummy, 0, sizeof ..)]; also the
    value-initialised elements appended by [resize]. *)
Definition zero_body : dtrack2_body_type :=
  {| b_id := 0; b_quality := float_zero;
     b_loc := replicate 3 float_zero; b_rot := replicate 9 float_zero |}.

Definition zero_flystick : dtrack2_flystick_type :=
  {| f_id := 0; f_quality := float_zero; f_num_button := 0;
     f_button := replicate (Z.to_nat DTRACK2_FLYSTICK_MAX_BUTTON) 0;
     f_num_joystick := 0;
     f_joystick := replicate (Z.to_nat DTRACK2_FLYSTICK_MAX_JOYSTICK) float_zero;
     f_loc := replicate 3 float_zero; f_rot := replicate 9 float_zero |}.

Definition zero_meatool : dtrack2_meatool_type :=
  {| t_id := 0; t_quality := float_zero; t_num_button := 0;
     t_button := replicate (Z.to_nat DTRACK2_MEATOOL_MAX_BUTTON) 0;
     t_loc := replicate 3 float_zero; t_rot := replicate 9 float_zero |}.

Definition zero_finger : dtrack2_finger_type :=
  {| fg_loc := replicate 3 float_zero; fg_rot := replicate 9 float_zero;
     fg_radiustip := float_zero;
     fg_lengthphalanx := replicate 3 float_zero;
     fg_anglephalanx := replicate 2 float_zero |}.

Definition zero_hand : dtrack2_hand_type :=
  {| h_id := 0; h_quality := float_zero; h_lr := 0; h_nfinger := 0;
     h_loc := replicate 3 float_zero; h_rot := replicate 9 float_zero;
     h_finger := replicate (Z.to_nat DTRACK2_HAND_MAX_FINGER) zero_finger |}.

Definition zero_marker : dtrack2_marker_type :=
  {| m_id := 0; m_quality := float_zero; m_loc := replicate 3 float_zero |}.

Record DTrack2 := {
  sdk : SDK.DTrackSDK;
  act_num_body : Z;
  act_body : list dtrack2_body_type;
  act_num_flystick : Z;
  act_flystick : list dtrack2_flystick_type;
  act_num_meatool : Z;
  act_meatool : list dtrack2_meatool_type;
  act_num_marker : Z;
  act_marker : list dtrack2_marker_type;
  act_num_hand : Z;
  act_hand : list dtrack2_hand_type
}.

Definition set_sdk (d : DTrack2) (s : SDK.DTrackSDK) : DTrack2 :=
  {| sdk := s;
     act_num_body := act_num_body d; act_body := act_body d;
     act_num_flystick := act_num_flystick d; act_flystick := act_flystick d;
     act_num_meatool := act_num_meatool d; act_meatool := act_meatool d;
     act_num_marker := act_num_marker d; act_marker := act_marker d;
     act_num_hand := act_num_hand d; act_hand := act_hand d |}.

(** DTrack2::DTrack2, where [sdk0] is the object built by
    [new DTrackSDK(..)]. The constructor does not initialise the five count
    fields: [n_body] .. [n_hand] are their indeterminate values. *)
Definition new (sdk0 : SDK.DTrackSDK)
    (n_body n_flystick n_meatool n_marker n_hand : Z) : DTrack2 :=
  {| sdk := sdk0;
     act_num_body := n_body; act_body := [];
     act_num_flystick := n_flystick; act_flystick := [];
     act_num_meatool := n_meatool; act_meatool := [];
     act_num_marker := n_marker; act_marker := [];
     act_num_hand := n_hand; act_hand := [] |}.

(** The field assignments of the five copy loops of [receive]. *)
Definition copy_body (dtbt : SDK.DTrack_Body_Type_d) : dtrack2_body_type :=
  {| b_id := SDK.b_id dtbt;
     b_quality := to_float (SDK.b_quality dtbt);
     b_loc := array_copy 3 to_float double_zero (SDK.b_loc dtbt);
     b_rot := array_copy 9 to_float double_zero (SDK.b_rot dtbt) |}.

Definition copy_flystick (dtfst : SDK.DTrack_FlyStick_Type_d)
  : dtrack2_flystick_type :=
  {| f_id := SDK.f_id dtfst;
     f_quality := to_float (SDK.f_quality dtfst);
     f_num_button := SDK.f_num_button dtfst;
     f_button := array_copy DTRACK2_FLYSTICK_MAX_BUTTON id 0 (SDK.f_button dtfst);
     f_num_joystick := SDK.f_num_joystick dtfst;
     f_joystick := array_copy DTRACK2_FLYSTICK_MAX_JOYSTICK to_float double_zero
                     (SDK.f_joystick dtfst);
     f_loc := array_copy 3 to_float double_zero (SDK.f_loc dtfst);
     f_rot := array_copy 9 to_float double_zero (SDK.f_rot dtfst) |}.

Definition copy_meatool (dtmtt : SDK.DTrack_MeaTool_Type_d)
  : dtrack2_meatool_type :=
  {| t_id := SDK.t_id dtmtt;
     t_quality := to_float (SDK.t_quality dtmtt);
     t_num_button := SDK.t_num_button dtmtt;
     t_button := array_copy DTRACK2_MEATOOL_MAX_BUTTON id 0 (SDK.t_button dtmtt);
     t_loc := array_copy 3 to_float double_zero (SDK.t_loc dtmtt);
     t_rot := array_copy 9 to_float double_zero (SDK.t_rot dtmtt) |}.

Definition copy_finger (fk : SDK.DTrack_Finger_Type_d) : dtrack2_finger_type :=
  {| fg_loc := array_copy 3 to_float double_zero (SDK.fg_loc fk);
     fg_rot := array_copy 9 to_float double_zero (SDK.fg_rot fk);
     fg_radiustip := to_float (SDK.fg_radiustip fk);
     fg_lengthphalanx :=
       array_copy 3 to_float double_zero (SDK.fg_lengthphalanx fk);
     fg_anglephalanx :=
       array_copy 2 to_float double_zero (SDK.fg_anglephalanx fk) |}.

Definition copy_hand (dtht : SDK.DTrack_Hand_Type_d) : dtrack2_hand_type :=
  {| h_id := SDK.h_id dtht;
     h_quality := to_float (SDK.h_quality dtht);
     h_lr := SDK.h_lr dtht;
     h_nfinger := SDK.h_nfinger dtht;
     h_loc := array_copy 3 to_float double_zero (SDK.h_loc dtht);
     h_rot := array_copy 9 to_float double_zero (SDK.h_rot dtht);
     h_finger := array_copy DTRACK2_HAND_MAX_FINGER copy_finger SDK.zero_finger
                   (SDK.h_finger dtht) |}.

Definition copy_marker (dtmt : SDK.DTrack_Marker_Type_d) : dtrack2_marker_type :=
  {| m_id := SDK.m_id dtmt;
     m_quality := to_float (SDK.m_quality dtmt);
     m_loc := array_copy 3 to_float double_zero (SDK.m_loc dtmt) |}.

Section WithTransport.
Context `{SDK.Transport}.

Definition valid (d : DTrack2) : bool := SDK.isLocalDataPortValid (sdk d).

(** DTrack2::receive *)
Definition receive (d : DTrack2) : outcome (bool * DTrack2) :=
  if negb (SDK.isLocalDataPortValid (sdk d)) then Done (false, d)
  else
  let '(ok, sdk') := SDK.receive (sdk d) in
  if negb ok then Done (false, set_sdk d sdk')
  else
    (* copy body data *)
    let num_body := SDK.getNumBody sdk' in
    body ← vector_resize zero_body num_body (act_body d);
    body ← for_int num_body (copy_elem (SDK.getBody sdk') copy_body) body;
    (* copy flystick data *)
    let num_flystick := SDK.getNumFlyStick sdk' in
    flystick ← vector_resize zero_flystick num_flystick (act_flystick d);
    flystick ← for_int num_flystick
                 (copy_elem (SDK.getFlyStick sdk') copy_flystick) flystick;
    (* copy measurement tool data *)
    let num_meatool := SDK.getNumMeaTool sdk' in
    meatool ← vector_resize zero_meatool num_meatool (act_meatool d);
    meatool ← for_int num_meatool
                (copy_elem (SDK.getMeaTool sdk') copy_meatool) meatool;
    (* copy hand data *)
    let num_hand := SDK.getNumHand sdk' in
    hand ← vector_resize zero_hand num_hand (act_hand d);
    hand ← for_int num_hand (copy_elem (SDK.getHand sdk') copy_hand) hand;
    (* copy marker data *)
    let num_marker := SDK.getNumMarker sdk' in
    marker ← vector_resize zero_marker num_marker (act_marker d);
    marker ← for_int num_marker
               (copy_elem (SDK.getMarker sdk') copy_marker) marker;
    Done (true,
          {| sdk := sdk';
             act_num_body := num_body; act_body := body;
             act_num_flystick := num_flystick; act_flystick := flystick;
             act_num_meatool := num_meatool; act_meatool := meatool;
             act_num_marker := num_marker; act_marker := marker;
             act_num_hand := num_hand; act_hand := hand |}).

(** DTrack2::send_command *)
Definition send_command (command : string) (d : DTrack2) : bool * DTrack2 :=
  let '(r, sdk') := SDK.sendDTrack2Command ("dtrack2 " ++ command) (sdk d) in
  (1 =? r, set_sdk d sdk').

(** DTrack2::set_parameter(parameter) *)
Definition set_parameter1 (parameter : string) (d : DTrack2)
  : bool * DTrack2 :=
  send_command ("set " ++ parameter) d.

(** DTrack2::set_parameter(category, name, value) *)
Definition set_parameter (category name value : string) (d : DTrack2)
  : bool * DTrack2 :=
  set_parameter1 ((((category ++ " ") ++ name) ++ " ") ++ value) d.
End WithTransport.

(** DTrack2::get_lasterror(int& errorcode): the result and the new content
    of [errorcode]. *)
Definition get_lasterror (d : DTrack2) (errorcode : Z) : bool * Z :=
  let errorcode := SDK.getLastDTrackError (sdk d) in
  (negb (0 =? errorcode), errorcode).

(** DTrack2::get_lasterror(std::string& errorstring): the result and the
    new content of [errorstring]. *)
Definition get_lasterror_string (d : DTrack2) (errorstring : string)
  : bool * string :=
  if 0 =? SDK.getLastDTrackError (sdk d) then (false, errorstring)
  else
    let errorstring := SDK.getLastDTrackErrorDescription (sdk d) in
    (true, errorstring).

Definition get_num_body (d : DTrack2) : Z := act_num_body d.

(** DTrack2::get_body *)
Definition get_body (d : DTrack2) (id : Z) : outcome dtrack2_body_type :=
  if id <? act_num_body d then vector_index (act_body d) id
  else Done {| b_id := id; b_quality := float_of_int (-1);
               b_loc := b_loc zero_body; b_rot := b_rot zero_body |}.

Definition get_num_flystick (d : DTrack2) : Z := act_num_flystick d.

(** DTrack2::get_flystick *)
Definition get_flystick (d : DTrack2) (id : Z) : outcome dtrack2_flystick_type :=
  if id <? act_num_flystick d then vector_index (act_flystick d) id
  else Done {| f_id := id; f_quality := float_of_int (-1);
               f_num_button := f_num_button zero_flystick;
               f_button := f_button zero_flystick;
               f_num_joystick := f_num_joystick zero_flystick;
               f_joystick := f_joystick zero_flystick;
               f_loc := f_loc zero_flystick; f_rot := f_rot zero_flystick |}.

Definition get_num_meatool (d : DTrack2) : Z := act_num_meatool d.

(** DTrack2::get_meatool *)
Definition get_meatool (d : DTrack2) (id : Z) : outcome dtrack2_meatool_type :=
  if id <? act_num_meatool d then vector_index (act_meatool d) id
  else Done {| t_id := id; t_quality := float_of_int (-1);
               t_num_button := t_num_button zero_meatool;
               t_button := t_button zero_meatool;
               t_loc := t_loc zero_meatool; t_rot := t_rot zero_meatool |}.

Definition get_num_hand (d : DTrack2) : Z := act_num_hand d.

(** DTrack2::get_hand *)
Definition get_hand (d : DTrack2) (id : Z) : outcome dtrack2_hand_type :=
  if id <? act_num_hand d then vector_index (act_hand d) id
  else Done {| h_id := id; h_quality := float_of_int (-1);
               h_lr := h_lr zero_hand; h_nfinger := h_nfinger zero_hand;
               h_loc := h_loc zero_hand; h_rot := h_rot zero_hand;
               h_finger := h_finger zero_hand |}.

Definition get_num_marker (d : DTrack2) : Z := act_num_marker d.

(** DTrack2::get_marker *)
Definition get_marker (d : DTrack2) (index : Z) : outcome dtrack2_marker_type :=
  if (0 <=? index) && (index <? act_num_marker d)
  then vector_index (act_marker d) index
  else Done {| m_id := 0; m_quality := float_of_int (-1);
               m_loc := m_loc zero_marker |}.

(** DTrack2::get_framecounter and DTrack2::get_timestamp read the SDK. *)
Definition get_framecounter (d : DTrack2) : Z := SDK.getFrameCounter (sdk d).
Definition get_timestamp (d : DTrack2) : double := SDK.getTimeStamp (sdk d).

(** DTrack2::data_timeout, data_neterror, data_parseerror *)
Definition data_timeout (d : DTrack2) : bool :=
  SDK.Errors_eqb (SDK.getLastDataError (sdk d)) SDK.ERR_TIMEOUT.
Definition data_neterror (d : DTrack2) : bool :=
  SDK.Errors_eqb (SDK.getLastDataError (sdk d)) SDK.ERR_NET.
Definition data_parseerror (d : DTrack2) : bool :=
  SDK.Errors_eqb (SDK.getLastDataError (sdk d)) SDK.ERR_PARSE.

(** DTrack2::server_noconnection, server_timeout, server_neterror,
    server_parseerror *)
Definition server_noconnection (d : DTrack2) : bool :=
  negb (SDK.isCommandInterfaceValid (sdk d)).
Definition server_timeout (d : DTrack2) : bool :=
  SDK.Errors_eqb (SDK.getLastServerError (sdk d)) SDK.ERR_TIMEOUT.
Definition server_neterror (d : DTrack2) : bool :=
  SDK.Errors_eqb (SDK.getLastServerError (sdk d)) SDK.ERR_NET.
Definition server_parseerror (d : DTrack2) : bool :=
  SDK.Errors_eqb (SDK.getLastServerError (sdk d)) SDK.ERR_PARSE.

End DTrack2.

(** ** class DTracklib (Compatibility/DTrackLib) *)

Module DTracklib.

Record dtracklib_marker_type := {
  m_id : Z;
  m_quality : float;
  m_loc : list float
}.

Record dtracklib_body_type := {
  b_id : Z;              (* unsigned long *)
  b_quality : float;
  b_loc : list float;
  b_ang : list float;
  b_rot : list float
}.

Definition DTRACKLIB_HAND_MAX_FINGER : Z := 5.

Record dtracklib_finger_type := {
  fg_loc : list float;
  fg_rot : list float;
  fg_radiustip : float;
  fg_lengthphalanx : list float;
  fg_anglephalanx : list float
}.

Record dtracklib_glove_type := {
  h_id : Z;
  h_quality : float;
  h_lr : Z;
  h_nfinger : Z;
  h_loc : list float;
  h_rot : list float;
  h_finger : list dtracklib_finger_type
}.

Definition DTRACKLIB_FLYSTICK_MAX_BUTTON : Z := 16.

Record dtracklib_flystick_type := {
  f_id : Z;              (* unsigned long *)
  f_quality : float;
  f_bt : Z;              (* unsigned long *)
  f_loc : list float;
  f_ang : list float;
  f_rot : list float
}.

Record dtracklib_meatool_type := {
  t_id : Z;              (* unsigned long *)
  t_quality : float;
  t_bt : Z;              (* unsigned long *)
  t_loc : list float;
  t_rot : list float
}.

Definition DTRACKLIB_CMD_CAMERAS_OFF : Z := 0x1000.
Definition DTRACKLIB_CMD_CAMERAS_ON : Z := 0x1001.
Definition DTRACKLIB_CMD_CAMERAS_AND_CALC_ON : Z := 0x1003.
Definition DTRACKLIB_CMD_SEND_DATA : Z := 0x3100.
Definition DTRACKLIB_CMD_STOP_DATA : Z := 0x3200.
Definition DTRACKLIB_CMD_SEND_N_DATA : Z := 0x3300.

(** The records after [memset(&dummy, 0, sizeof ..)]; also the
    value-initialised elements appended by [resize]. *)
Definition zero_marker : dtracklib_marker_type :=
  {| m_id := 0; m_quality := float_zero; m_loc := replicate 3 float_zero |}.

Definition zero_body : dtracklib_body_type :=
  {| b_id := 0; b_quality := float_zero; b_loc := replicate 3 float_zero;
     b_ang := replicate 3 float_zero; b_rot := replicate 9 float_zero |}.

Definition zero_finger : dtracklib_finger_type :=
  {| fg_loc := replicate 3 float_zero; fg_rot := replicate 9 float_zero;
     fg_radiustip := float_zero;
     fg_lengthphalanx := replicate 3 float_zero;
     fg_anglephalanx := replicate 2 float_zero |}.

Definition zero_glove : dtracklib_glove_type :=
  {| h_id := 0; h_quality := float_zero; h_lr := 0; h_nfinger := 0;
     h_loc := replicate 3 float_zero; h_rot := replicate 9 float_zero;
     h_finger := replicate (Z.to_nat DTRACKLIB_HAND_MAX_FINGER) zero_finger |}.

Definition zero_flystick : dtracklib_flystick_type :=
  {| f_id := 0; f_quality := float_zero; f_bt := 0;
     f_loc := replicate 3 float_zero; f_ang := replicate 3 float_zero;
     f_rot := replicate 9 float_zero |}.

Definition zero_meatool : dtracklib_meatool_type :=
  {| t_id := 0; t_quality := float_zero; t_bt := 0;
     t_loc := replicate 3 float_zero; t_rot := replicate 9 float_zero |}.

Record DTracklib := {
  sdk : SDK.DTrackSDK;
  act_nbodycal : Z;
  act_nbody : Z;
  act_body : list dtracklib_body_type;
  act_nflystick : Z;
  act_flystick : list dtracklib_flystick_type;
  act_nmeatool : Z;
  act_meatool : list dtracklib_meatool_type;
  act_nmarker : Z;
  act_marker : list dtracklib_marker_type;
  act_nglove : Z;
  act_glove : list dtracklib_glove_type
}.

Definition set_sdk (d : DTracklib) (s : SDK.DTrackSDK) : DTracklib :=
  {| sdk := s;
     act_nbodycal := act_nbodycal d;
     act_nbody := act_nbody d; act_body := act_body d;
     act_nflystick := act_nflystick d; act_flystick := act_flystick d;
     act_nmeatool := act_nmeatool d; act_meatool := act_meatool d;
     act_nmarker := act_nmarker d; act_marker := act_marker d;
     act_nglove := act_nglove d; act_glove := act_glove d |}.

(** DTracklib::DTracklib, where [sdk0] is the object built by
    [new DTrackSDK(..)]. *)
Definition new (sdk0 : SDK.DTrackSDK) : DTracklib :=
  {| sdk := sdk0;
     act_nbodycal := -1;
     act_nbody := 0; act_body := [];
     act_nflystick := 0; act_flystick := [];
     act_nmeatool := 0; act_meatool := [];
     act_nmarker := 0; act_marker := [];
     act_nglove := 0; act_glove := [] |}.

(** [bt = 0; for (j = 0; j < min(num_button, 16); j++)
      if (button[j] == 1) bt |= (button[j] << j);] *)
Definition pressed_buttons (num_button : Z) (button : list Z) : Z :=
  fold_left
    (fun bt j =>
       if nth j button 0 =? 1
       then Z.lor bt (to_ulong (Z.shiftl (nth j button 0) (Z.of_nat j)))
       else bt)
    (seq 0 (Z.to_nat (Z.min num_button DTRACKLIB_FLYSTICK_MAX_BUTTON)))
    0.

(** The field assignments of the five copy loops of [receive]. *)
Definition copy_body (dtbt : SDK.DTrack_Body_Type_d) : dtracklib_body_type :=
  {| b_id := to_ulong (SDK.b_id dtbt);
     b_quality := to_float (SDK.b_quality dtbt);
     b_loc := array_copy 3 to_float double_zero (SDK.b_loc dtbt);
     b_ang := replicate 3 (float_of_int 0);
     b_rot := array_copy 9 to_float double_zero (SDK.b_rot dtbt) |}.

Definition copy_flystick (dtfst : SDK.DTrack_FlyStick_Type_d)
  : dtracklib_flystick_type :=
  {| f_id := to_ulong (SDK.f_id dtfst);
     f_quality := to_float (SDK.f_quality dtfst);
     f_bt := pressed_buttons (SDK.f_num_button dtfst) (SDK.f_button dtfst);
     f_loc := array_copy 3 to_float double_zero (SDK.f_loc dtfst);
     f_ang := replicate 3 (float_of_int 0);
     f_rot := array_copy 9 to_float double_zero (SDK.f_rot dtfst) |}.

Definition copy_meatool (dtmtt : SDK.DTrack_MeaTool_Type_d)
  : dtracklib_meatool_type :=
  {| t_id := to_ulong (SDK.t_id dtmtt);
     t_quality := to_float (SDK.t_quality dtmtt);
     t_bt := pressed_buttons (SDK.t_num_button dtmtt) (SDK.t_button dtmtt);
     t_loc := array_copy 3 to_float double_zero (SDK.t_loc dtmtt);
     t_rot := array_copy 9 to_float double_zero (SDK.t_rot dtmtt) |}.

Definition copy_finger (fk : SDK.DTrack_Finger_Type_d)
  : dtracklib_finger_type :=
  {| fg_loc := array_copy 3 to_float double_zero (SDK.fg_loc fk);
     fg_rot := array_copy 9 to_float double_zero (SDK.fg_rot fk);
     fg_radiustip := to_float (SDK.fg_radiustip fk);
     fg_lengthphalanx :=
       array_copy 3 to_float double_zero (SDK.fg_lengthphalanx fk);
     fg_anglephalanx :=
       array_copy 2 to_float double_zero (SDK.fg_anglephalanx fk) |}.

Definition copy_glove (dtht : SDK.DTrack_Hand_Type_d) : dtracklib_glove_type :=
  {| h_id := SDK.h_id dtht;
     h_quality := to_float (SDK.h_quality dtht);
     h_lr := SDK.h_lr dtht;
     h_nfinger := SDK.h_nfinger dtht;
     h_loc := array_copy 3 to_float double_zero (SDK.h_loc dtht);
     h_rot := array_copy 9 to_float double_zero (SDK.h_rot dtht);
     h_finger := array_copy DTRACKLIB_HAND_MAX_FINGER copy_finger
                   SDK.zero_finger (SDK.h_finger dtht) |}.

Definition copy_marker (dtmt : SDK.DTrack_Marker_Type_d)
  : dtracklib_marker_type :=
  {| m_id := SDK.m_id dtmt;
     m_quality := to_float (SDK.m_quality dtmt);
     m_loc := array_copy 3 to_float double_zero (SDK.m_loc dtmt) |}.

Section WithTransport.
Context `{SDK.Transport}.

Definition valid (d : DTracklib) : bool := SDK.isLocalDataPortValid (sdk d).

(** DTracklib::receive *)
Definition receive (d : DTracklib) : outcome (bool * DTracklib) :=
  let '(ok, sdk') := SDK.receive (sdk d) in
  if negb ok then Done (false, set_sdk d sdk')
  else
    (* copy body data *)
    let nbody := SDK.getNumBody sdk' in
    body ← vector_resize zero_body nbody (act_body d);
    body ← for_int nbody (copy_elem (SDK.getBody sdk') copy_body) body;
    (* copy flystick data *)
    let nflystick := SDK.getNumFlyStick sdk' in
    flystick ← vector_resize zero_flystick nflystick (act_flystick d);
    flystick ← for_int nflystick
                 (copy_elem (SDK.getFlyStick sdk') copy_flystick) flystick;
    (* copy measurement tool data *)
    let nmeatool := SDK.getNumMeaTool sdk' in
    meatool ← vector_resize zero_meatool nmeatool (act_meatool d);
    meatool ← for_int nmeatool
                (copy_elem (SDK.getMeaTool sdk') copy_meatool) meatool;
    (* copy hand data *)
    let nglove := SDK.getNumHand sdk' in
    glove ← vector_resize zero_glove nglove (act_glove d);
    glove ← for_int nglove (copy_elem (SDK.getHand sdk') copy_glove) glove;
    (* copy marker data *)
    let nmarker := SDK.getNumMarker sdk' in
    marker ← vector_resize zero_marker nmarker (act_marker d);
    marker ← for_int nmarker
               (copy_elem (SDK.getMarker sdk') copy_marker) marker;
    Done (true,
          {| sdk := sdk';
             act_nbodycal := act_nbodycal d;
             act_nbody := nbody; act_body := body;
             act_nflystick := nflystick; act_flystick := flystick;
             act_nmeatool := nmeatool; act_meatool := meatool;
             act_nmarker := nmarker; act_marker := marker;
             act_nglove := nglove; act_glove := glove |}).

(** The text streamed into [c] by the switch of [send]; [None] is the
    [default] label. *)
Definition command_text (cmd : Z) (val : Z) : option string :=
  let c := "dtrack " in
  if cmd =? DTRACKLIB_CMD_CAMERAS_OFF then Some (c ++ "10 0")
  else if cmd =? DTRACKLIB_CMD_CAMERAS_ON then Some (c ++ "10 1")
  else if cmd =? DTRACKLIB_CMD_CAMERAS_AND_CALC_ON then Some (c ++ "10 3")
  else if cmd =? DTRACKLIB_CMD_SEND_DATA then Some (c ++ "31")
  else if cmd =? DTRACKLIB_CMD_STOP_DATA then Some (c ++ "32")
  else if cmd =? DTRACKLIB_CMD_SEND_N_DATA
       then Some ((c ++ "33 ") ++ NilZero.string_of_int (Z.to_int val))
  else None.

(** DTracklib::send, for an [unsigned short] cmd and an [int] val. *)
Definition send (cmd : Z) (val : Z) (d : DTracklib) : bool * DTracklib :=
  if negb (SDK.isLocalDataPortValid (sdk d)) then (false, d)
  else
    match command_text cmd val with
    | None => (false, d)
    | Some c =>
        let '(_, sdk') := SDK.sendCommand c (sdk d) in
        (true, set_sdk d sdk')
    end.
End WithTransport.

Definition get_nbodycal (d : DTracklib) : Z := act_nbodycal d.

Definition get_nbody (d : DTracklib) : Z := act_nbody d.

(** DTracklib::get_body *)
Definition get_body (d : DTracklib) (id : Z) : outcome dtracklib_body_type :=
  if (id <? 0) || (id >=? act_nbody d) then Done zero_body
  else vector_index (act_body d) id.

Definition get_nflystick (d : DTracklib) : Z := act_nflystick d.

(** DTracklib::get_flystick *)
Definition get_flystick (d : DTracklib) (id : Z)
  : outcome dtracklib_flystick_type :=
  if (id <? 0) || (id >=? act_nflystick d) then Done zero_flystick
  else vector_index (act_flystick d) id.

Definition get_nmeatool (d : DTracklib) : Z := act_nmeatool d.

(** DTracklib::get_meatool *)
Definition get_meatool (d : DTracklib) (id : Z)
  : outcome dtracklib_meatool_type :=
  if (id <? 0) || (id >=? act_nmeatool d) then Done zero_meatool
  else vector_index (act_meatool d) id.

Definition get_nglove (d : DTracklib) : Z := act_nglove d.

(** DTracklib::get_glove *)
Definition get_glove (d : DTracklib) (id : Z) : outcome dtracklib_glove_type :=
  if (id <? 0) || (id >=? act_nglove d) then Done zero_glove
  else vector_index (act_glove d) id.

Definition get_nmarker (d : DTracklib) : Z := act_nmarker d.

(** DTracklib::get_marker *)
Definition get_marker (d : DTracklib) (index : Z)
  : outcome dtracklib_marker_type :=
  if (index <? 0) || (index >=? act_nmarker d) then Done zero_marker
  else vector_index (act_marker d) index.

(** DTracklib::get_framenr and DTracklib::get_timestamp read the SDK. *)
Definition get_framenr (d : DTracklib) : Z :=
  to_ulong (SDK.getFrameCounter (sdk d)).
Definition get_timestamp (d : DTracklib) : double := SDK.getTimeStamp (sdk d).

(** DTracklib::timeout, DTracklib::udperror, DTracklib::parseerror *)
Definition timeout (d : DTracklib) : bool :=
  SDK.Errors_eqb (SDK.getLastDataError (sdk d)) SDK.ERR_TIMEOUT.
Definition udperror (d : DTracklib) : bool :=
  SDK.Errors_eqb (SDK.getLastDataError (sdk d)) SDK.ERR_NET.
Definition parseerror (d : DTracklib) : bool :=
  SDK.Errors_eqb (SDK.getLastDataError (sdk d)) SDK.ERR_PARSE.

End DTracklib.

(** ** Properties of the stored frame *)

(** The stored frame of two facade objects is the same: every count field
    and every entity collection. *)
Definition DTrack_same_frame (d d' : DTrack.DTrack) : Prop :=
  DTrack.act_num_body d' = DTrack.act_num_body d
  /\ DTrack.act_body d' = DTrack.act_body d
  /\ DTrack.act_num_flystick d' = DTrack.act_num_flystick d
  /\ DTrack.act_flystick d' = DTrack.act_flystick d
  /\ DTrack.act_num_meatool d' = DTrack.act_num_meatool d
  /\ DTrack.act_meatool d' = DTrack.act_meatool d
  /\ DTrack.act_num_hand d' = DTrack.act_num_hand d
  /\ DTrack.act_hand d' = DTrack.act_hand d
  /\ DTrack.act_num_marker d' = DTrack.act_num_marker d
  /\ DTrack.act_marker d' = DTrack.act_marker d.

Definition DTrack2_same_frame (d d' : DTrack2.DTrack2) : Prop :=
  DTrack2.act_num_body d' = DTrack2.act_num_body d
  /\ DTrack2.act_body d' = DTrack2.act_body d
  /\ DTrack2.act_num_flystick d' = DTrack2.act_num_flystick d
  /\ DTrack2.act_flystick d' = DTrack2.act_flystick d
  /\ DTrack2.act_num_meatool d' = DTrack2.act_num_meatool d
  /\ DTrack2.act_meatool d' = DTrack2.act_meatool d
  /\ DTrack2.act_num_hand d' = DTrack2.act_num_hand d
  /\ DTrack2.act_hand d' = DTrack2.act_hand d
  /\ DTrack2.act_num_marker d' = DTrack2.act_num_marker d
  /\ DTrack2.act_marker d' = DTrack2.act_marker d.

Definition DTracklib_same_frame (d d' : DTracklib.DTracklib) : Prop :=
  DTracklib.act_nbody d' = DTracklib.act_nbody d
  /\ DTracklib.act_body d' = DTracklib.act_body d
  /\ DTracklib.act_nflystick d' = DTracklib.act_nflystick d
  /\ DTracklib.act_flystick d' = DTracklib.act_flystick d
  /\ DTracklib.act_nmeatool d' = DTracklib.act_nmeatool d
  /\ DTracklib.act_meatool d' = DTracklib.act_meatool d
  /\ DTracklib.act_nglove d' = DTracklib.act_nglove d
  /\ DTracklib.act_glove d' = DTracklib.act_glove d
  /\ DTracklib.act_nmarker d' = DTracklib.act_nmarker d
  /\ DTracklib.act_marker d' = DTracklib.act_marker d.

(** Every count field is the length of its collection, as [receive]
    leaves them. *)
Definition DTrack_consistent (d : DTrack.DTrack) : Prop :=
  DTrack.act_num_body d = Z.of_nat (length (DTrack.act_body d))
  /\ DTrack.act_num_flystick d = Z.of_nat (length (DTrack.act_flystick d))
  /\ DTrack.act_num_meatool d = Z.of_nat (length (DTrack.act_meatool d))
  /\ DTrack.act_num_hand d = Z.of_nat (length (DTrack.act_hand d))
  /\ DTrack.act_num_marker d = Z.of_nat (length (DTrack.act_marker d)).

Definition DTrack2_consistent (d : DTrack2.DTrack2) : Prop :=
  DTrack2.act_num_body d = Z.of_nat (length (DTrack2.act_body d))
  /\ DTrack2.act_num_flystick d = Z.of_nat (length (DTrack2.act_flystick d))
  /\ DTrack2.act_num_meatool d = Z.of_nat (length (DTrack2.act_meatool d))
  /\ DTrack2.act_num_hand d = Z.of_nat (length (DTrack2.act_hand d))
  /\ DTrack2.act_num_marker d = Z.of_nat (length (DTrack2.act_marker d)).

Definition DTracklib_consistent (d : DTracklib.DTracklib) : Prop :=
  DTracklib.act_nbody d = Z.of_nat (length (DTracklib.act_body d))
  /\ DTracklib.act_nflystick d = Z.of_nat (length (DTracklib.act_flystick d))
  /\ DTracklib.act_nmeatool d = Z.of_nat (length (DTracklib.act_meatool d))
  /\ DTracklib.act_nglove d = Z.of_nat (length (DTracklib.act_glove d))
  /\ DTracklib.act_nmarker d = Z.of_nat (length (DTracklib.act_marker d)).

(** An accessor call [get i] hands out the [i]-th element of the stored
    collection [v]. *)
Definition returns_ith {A} (get : Z -> outcome A) (v : list A) (i : Z) : Prop :=
  exists r, v !! Z.to_nat i = Some r /\ get i = Done r.

(** The components [0 .. n-1] of the float array [dst] are those of the
    double array [src], converted. *)
Definition floats_of (n : Z) (dst : list float) (src : list double) : Prop :=
  forall j : nat, (Z.of_nat j < n) ->
    nth j dst float_zero = to_float (nth j src double_zero).

Definition ints_of (n : Z) (dst src : list Z) : Prop :=
  forall j : nat, (Z.of_nat j < n) -> nth j dst 0 = nth j src 0.

(** A stored record carries the data of an SDK record. *)
Definition body_carries (r : DTrack.dtrack_body_type)
    (s : SDK.DTrack_Body_Type_d) : Prop :=
  DTrack.b_id r = SDK.b_id s
  /\ DTrack.b_quality r = to_float (SDK.b_quality s)
  /\ floats_of 3 (DTrack.b_loc r) (SDK.b_loc s)
  /\ floats_of 9 (DTrack.b_rot r) (SDK.b_rot s).

Definition flystick_carries (r : DTrack.dtrack_flystick_type)
    (s : SDK.DTrack_FlyStick_Type_d) : Prop :=
  DTrack.f_id r = SDK.f_id s
  /\ DTrack.f_quality r = to_float (SDK.f_quality s)
  /\ DTrack.f_num_button r = SDK.f_num_button s
  /\ ints_of 16 (DTrack.f_button r) (SDK.f_button s)
  /\ DTrack.f_num_joystick r = SDK.f_num_joystick s
  /\ floats_of 8 (DTrack.f_joystick r) (SDK.f_joystick s)
  /\ floats_of 3 (DTrack.f_loc r) (SDK.f_loc s)
  /\ floats_of 9 (DTrack.f_rot r) (SDK.f_rot s).

Definition meatool_carries (r : DTrack.dtrack_meatool_type)
    (s : SDK.DTrack_MeaTool_Type_d) : Prop :=
  DTrack.t_id r = SDK.t_id s
  /\ DTrack.t_quality r = to_float (SDK.t_quality s)
  /\ DTrack.t_num_button r = SDK.t_num_button s
  /\ ints_of 1 (DTrack.t_button r) (SDK.t_button s)
  /\ floats_of 3 (DTrack.t_loc r) (SDK.t_loc s)
  /\ floats_of 9 (DTrack.t_rot r) (SDK.t_rot s).

Definition finger_carries (r : DTrack.dtrack_finger_type)
    (s : SDK.DTrack_Finger_Type_d) : Prop :=
  floats_of 3 (DTrack.fg_loc r) (SDK.fg_loc s)
  /\ floats_of 9 (DTrack.fg_rot r) (SDK.fg_rot s)
  /\ DTrack.fg_radiustip r = to_float (SDK.fg_radiustip s)
  /\ floats_of 3 (DTrack.fg_lengthphalanx r) (SDK.fg_lengthphalanx s)
  /\ floats_of 2 (DTrack.fg_anglephalanx r) (SDK.fg_anglephalanx s).

Definition hand_carries (r : DTrack.dtrack_hand_type)
    (s : SDK.DTrack_Hand_Type_d) : Prop :=
  DTrack.h_id r = SDK.h_id s
  /\ DTrack.h_quality r = to_float (SDK.h_quality s)
  /\ DTrack.h_lr r = SDK.h_lr s
  /\ DTrack.h_nfinger r = SDK.h_nfinger s
  /\ floats_of 3 (DTrack.h_loc r) (SDK.h_loc s)
  /\ floats_of 9 (DTrack.h_rot r) (SDK.h_rot s)
  /\ forall k : nat, (Z.of_nat k < 5) ->
       finger_carries (nth k (DTrack.h_finger r) DTrack.zero_finger)
                      (nth k (SDK.h_finger s) SDK.zero_finger).

Definition marker_carries (r : DTrack.dtrack_marker_type)
    (s : SDK.DTrack_Marker_Type_d) : Prop :=
  DTrack.m_id r = SDK.m_id s
  /\ DTrack.m_quality r = to_float (SDK.m_quality s)
  /\ floats_of 3 (DTrack.m_loc r) (SDK.m_loc s).

(** The stored collection [v] has exactly [n] entries, the [i]-th of which
    carries the data of the [i]-th SDK record, in the original order. *)
Definition collection_carries {R S} (carries : R -> S -> Prop)
    (n : Z) (v : list R) (getX : Z -> option S) : Prop :=
  Z.of_nat (length v) = n
  /\ forall i : Z, 0 <= i < n ->
       exists r s, v !! Z.to_nat i = Some r /\ getX i = Some s /\ carries r s.

(** The same for the records of DTrack2. *)
Definition DTrack2_body_carries (r : DTrack2.dtrack2_body_type)
    (s : SDK.DTrack_Body_Type_d) : Prop :=
  DTrack2.b_id r = SDK.b_id s
  /\ DTrack2.b_quality r = to_float (SDK.b_quality s)
  /\ floats_of 3 (DTrack2.b_loc r) (SDK.b_loc s)
  /\ floats_of 9 (DTrack2.b_rot r) (SDK.b_rot s).

Definition DTrack2_flystick_carries (r : DTrack2.dtrack2_flystick_type)
    (s : SDK.DTrack_FlyStick_Type_d) : Prop :=
  DTrack2.f_id r = SDK.f_id s
  /\ DTrack2.f_quality r = to_float (SDK.f_quality s)
  /\ DTrack2.f_num_button r = SDK.f_num_button s
  /\ ints_of 16 (DTrack2.f_button r) (SDK.f_button s)
  /\ DTrack2.f_num_joystick r = SDK.f_num_joystick s
  /\ floats_of 8 (DTrack2.f_joystick r) (SDK.f_joystick s)
  /\ floats_of 3 (DTrack2.f_loc r) (SDK.f_loc s)
  /\ floats_of 9 (DTrack2.f_rot r) (SDK.f_rot s).

Definition DTrack2_meatool_carries (r : DTrack2.dtrack2_meatool_type)
    (s : SDK.DTrack_MeaTool_Type_d) : Prop :=
  DTrack2.t_id r = SDK.t_id s
  /\ DTrack2.t_quality r = to_float (SDK.t_quality s)
  /\ DTrack2.t_num_button r = SDK.t_num_button s
  /\ ints_of 1 (DTrack2.t_button r) (SDK.t_button s)
  /\ floats_of 3 (DTrack2.t_loc r) (SDK.t_loc s)
  /\ floats_of 9 (DTrack2.t_rot r) (SDK.t_rot s).

Definition DTrack2_finger_carries (r : DTrack2.dtrack2_finger_type)
    (s : SDK.DTrack_Finger_Type_d) : Prop :=
  floats_of 3 (DTrack2.fg_loc r) (SDK.fg_loc s)
  /\ floats_of 9 (DTrack2.fg_rot r) (SDK.fg_rot s)
  /\ DTrack2.fg_radiustip r = to_float (SDK.fg_radiustip s)
  /\ floats_of 3 (DTrack2.fg_lengthphalanx r) (SDK.fg_lengthphalanx s)
  /\ floats_of 2 (DTrack2.fg_anglephalanx r) (SDK.fg_anglephalanx s).

Definition DTrack2_hand_carries (r : DTrack2.dtrack2_hand_type)
    (s : SDK.DTrack_Hand_Type_d) : Prop :=
  DTrack2.h_id r = SDK.h_id s
  /\ DTrack2.h_quality r = to_float (SDK.h_quality s)
  /\ DTrack2.h_lr r = SDK.h_lr s
  /\ DTrack2.h_nfinger r = SDK.h_nfinger s
  /\ floats_of 3 (DTrack2.h_loc r) (SDK.h_loc s)
  /\ floats_of 9 (DTrack2.h_rot r) (SDK.h_rot s)
  /\ forall k : nat, (Z.of_nat k < 5) ->
       DTrack2_finger_carries
         (nth k (DTrack2.h_finger r) DTrack2.zero_finger)
         (nth k (SDK.h_finger s) SDK.zero_finger).

Definition DTrack2_marker_carries (r : DTrack2.dtrack2_marker_type)
    (s : SDK.DTrack_Marker_Type_d) : Prop :=
  DTrack2.m_id r = SDK.m_id s
  /\ DTrack2.m_quality r = to_float (SDK.m_quality s)
  /\ floats_of 3 (DTrack2.m_loc r) (SDK.m_loc s).

(** The records of DTracklib: the id of a body, a flystick or a
    measurement tool is the SDK's id taken as an unsigned long of 64 bits,
    the angles (not delivered by the SDK) are three zeros, and the buttons
    are coded in one word, bit j for button j, over the first
    min(num_button, 16) buttons. *)
Definition buttons_coded (bt : Z) (num_button : Z) (button : list Z) : Prop :=
  forall j : Z, 0 <= j ->
    Z.testbit bt j
    = (j <? Z.min num_button 16) && (nth (Z.to_nat j) button 0 =? 1).

Definition DTracklib_body_carries (r : DTracklib.dtracklib_body_type)
    (s : SDK.DTrack_Body_Type_d) : Prop :=
  DTracklib.b_id r = SDK.b_id s mod 2 ^ 64
  /\ DTracklib.b_quality r = to_float (SDK.b_quality s)
  /\ floats_of 3 (DTracklib.b_loc r) (SDK.b_loc s)
  /\ DTracklib.b_ang r = replicate 3 (S754_zero false)
  /\ floats_of 9 (DTracklib.b_rot r) (SDK.b_rot s).

Definition DTracklib_flystick_carries (r : DTracklib.dtracklib_flystick_type)
    (s : SDK.DTrack_FlyStick_Type_d) : Prop :=
  DTracklib.f_id r = SDK.f_id s mod 2 ^ 64
  /\ DTracklib.f_quality r = to_float (SDK.f_quality s)
  /\ buttons_coded (DTracklib.f_bt r) (SDK.f_num_button s) (SDK.f_button s)
  /\ floats_of 3 (DTracklib.f_loc r) (SDK.f_loc s)
  /\ DTracklib.f_ang r = replicate 3 (S754_zero false)
  /\ floats_of 9 (DTracklib.f_rot r) (SDK.f_rot s).

Definition DTracklib_meatool_carries (r : DTracklib.dtracklib_meatool_type)
    (s : SDK.DTrack_MeaTool_Type_d) : Prop :=
  DTracklib.t_id r = SDK.t_id s mod 2 ^ 64
  /\ DTracklib.t_quality r = to_float (SDK.t_quality s)
  /\ buttons_coded (DTracklib.t_bt r) (SDK.t_num_button s) (SDK.t_button s)
  /\ floats_of 3 (DTracklib.t_loc r) (SDK.t_loc s)
  /\ floats_of 9 (DTracklib.t_rot r) (SDK.t_rot s).

Definition DTracklib_finger_carries (r : DTracklib.dtracklib_finger_type)
    (s : SDK.DTrack_Finger_Type_d) : Prop :=
  floats_of 3 (DTracklib.fg_loc r) (SDK.fg_loc s)
  /\ floats_of 9 (DTracklib.fg_rot r) (SDK.fg_rot s)
  /\ DTracklib.fg_radiustip r = to_float (SDK.fg_radiustip s)
  /\ floats_of 3 (DTracklib.fg_lengthphalanx r) (SDK.fg_lengthphalanx s)
  /\ floats_of 2 (DTracklib.fg_anglephalanx r) (SDK.fg_anglephalanx s).

Definition DTracklib_glove_carries (r : DTracklib.dtracklib_glove_type)
    (s : SDK.DTrack_Hand_Type_d) : Prop :=
  DTracklib.h_id r = SDK.h_id s
  /\ DTracklib.h_quality r = to_float (SDK.h_quality s)
  /\ DTracklib.h_lr r = SDK.h_lr s
  /\ DTracklib.h_nfinger r = SDK.h_nfinger s
  /\ floats_of 3 (DTracklib.h_loc r) (SDK.h_loc s)
  /\ floats_of 9 (DTracklib.h_rot r) (SDK.h_rot s)
  /\ forall k : nat, (Z.of_nat k < 5) ->
       DTracklib_finger_carries
         (nth k (DTracklib.h_finger r) DTracklib.zero_finger)
         (nth k (SDK.h_finger s) SDK.zero_finger).

Definition DTracklib_marker_carries (r : DTracklib.dtracklib_marker_type)
    (s : SDK.DTrack_Marker_Type_d) : Prop :=
  DTracklib.m_id r = SDK.m_id s
  /\ DTracklib.m_quality r = to_float (SDK.m_quality s)
  /\ floats_of 3 (DTracklib.m_loc r) (SDK.m_loc s).

(** An accessor call [get i] hands out a record that carries the data of
    the [i]-th SDK record. *)
Definition returns_carrying {R S} (carries : R -> S -> Prop)
    (get : Z -> outcome R) (getX : Z -> option S) (i : Z) : Prop :=
  exists r s, getX i = Some s /\ get i = Done r /\ carries r s.





Definition hand_counts_fit (r : DTrack.dtrack_hand_type) : Prop :=
  DTrack.h_nfinger r <= DTrack.DTRACK_HAND_MAX_FINGER
  /\ Z.of_nat (length (DTrack.h_finger r)) = DTrack.DTRACK_HAND_MAX_FINGER.

(** The states a DTracklib object can be in: built by the constructor and
    driven by [receive] and [send], under any behaviour of the network at
    each call (the accessors do not change the object). *)
Inductive DTracklib_reachable : DTracklib.DTracklib -> Prop :=
| reach_new (sdk0 : SDK.DTrackSDK) :
    DTracklib_reachable (DTracklib.new sdk0)
| reach_receive (T : SDK.Transport) d b d' :
    DTracklib_reachable d ->
    DTracklib.receive d = Done (b, d') ->
    DTracklib_reachable d'
| reach_send (T : SDK.Transport) d cmd val b d' :
    DTracklib_reachable d ->
    DTracklib.send cmd val d = (b, d') ->
    DTracklib_reachable d'.

(** The six command codes [send] knows. *)
Definition recognized_command (cmd : Z) : Prop :=
  cmd = DTracklib.DTRACKLIB_CMD_CAMERAS_OFF
  \/ cmd = DTracklib.DTRACKLIB_CMD_CAMERAS_ON
  \/ cmd = DTracklib.DTRACKLIB_CMD_CAMERAS_AND_CALC_ON
  \/ cmd = DTracklib.DTRACKLIB_CMD_SEND_DATA
  \/ cmd = DTracklib.DTRACKLIB_CMD_STOP_DATA
  \/ cmd = DTracklib.DTRACKLIB_CMD_SEND_N_DATA.

(** An accessor call handed out a default record: quality -1 and the
    given id. *)
Definition dummy_with {R} (id_of : R -> Z) (quality_of : R -> float)
    (id : Z) (o : outcome R) : Prop :=
  exists r, o = Done r /\ quality_of r = float_of_int (-1) /\ id_of r = id.

(** The SDK object after the UDP commands [cmds] were handed to
    sendCommand one after the other, in this order. *)
Definition send_all `{SDK.Transport} (cmds : list string)
    (s : SDK.DTrackSDK) : SDK.DTrackSDK :=
  fold_left (fun s cmd => snd (SDK.sendCommand cmd s)) cmds s.

(** The three status flags of a DTrack object. *)
Definition DTrack_flags (d : DTrack.DTrack) : bool * bool * bool :=
  (DTrack.remoteCameras d, DTrack.remoteTracking d, DTrack.remoteSending d).

(** ** The example programs of the facades *)

Module Examples.

(** A double quote character. *)
Definition dquote : string := String (Ascii.ascii_of_nat 34) EmptyString.

(** [cout << .. << endl]: the console is the list of the lines printed. *)
Definition print (line : string) (console : list string) : list string :=
  console ++ [line].

(** error_to_console of DTrack_example_with_remote_control.cpp *)
Definition DTrack_error_to_console (dt : DTrack.DTrack) (cout : list string)
  : bool * list string :=
  if DTrack.timeout dt
  then (false, print "--- timeout while waiting for udp data" cout)
  else if DTrack.udperror dt
  then (false, print "--- error while receiving udp data" cout)
  else if DTrack.parseerror dt
  then (false, print "--- error while parsing udp data" cout)
  else (true, cout).

(** error_to_console of DTracklib_example_without_remote_control.cpp *)
Definition DTracklib_error_to_console (dt : DTracklib.DTracklib)
    (cout : list string) : bool * list string :=
  if DTracklib.timeout dt
  then (false, print "--- timeout while waiting for udp data" cout)
  else if DTracklib.udperror dt
  then (false, print "--- error while receiving udp data" cout)
  else if DTracklib.parseerror dt
  then (false, print "--- error while parsing udp data" cout)
  else (true, cout).

(** data_error_to_console of the DTrack2 example *)
Definition data_error_to_console (dt : DTrack2.DTrack2) (cout : list string)
  : bool * list string :=
  if DTrack2.data_timeout dt
  then (false, print "--- timeout while waiting for udp data" cout)
  else if DTrack2.data_neterror dt
  then (false, print "--- error while receiving udp data" cout)
  else if DTrack2.data_parseerror dt
  then (false, print "--- error while parsing udp data" cout)
  else (true, cout).

(** command_error_to_console of the DTrack2 example; [errcode] and
    [errstring] are locals, written by get_lasterror before they are
    read. *)
Definition command_error_to_console (dt : DTrack2.DTrack2)
    (cout : list string) : bool * list string :=
  (* SDK errors: *)
  if DTrack2.server_noconnection dt
  then (false, print "--- no connection to ARTtrack Controller" cout)
  else if DTrack2.server_timeout dt
  then (false, print "--- timeout while waiting for server answer" cout)
  else if DTrack2.server_neterror dt
  then (false, print "--- error while waiting for server answer" cout)
  else if DTrack2.server_parseerror dt
  then (false, print "--- error while parsing server answer" cout)
  else
    (* ARTtrack Controller errors: *)
    let '(available, errcode) := DTrack2.get_lasterror dt 0 in
    if negb available then (true, cout)
    else
      let '(_, errstring) := DTrack2.get_lasterror_string dt "" in
      (false,
       print ("ATC command error: " ++ NilZero.string_of_int (Z.to_int errcode)
                ++ " " ++ dquote ++ errstring ++ dquote) cout).

End Examples.

(** ** The command line interface DTrack2CLI (examples/DTrack2CLI.cpp) *)

Module DTrack2CLI.

(** enum ERRORS *)
Definition ERR_WRONG_INPUT_PARAMETER : Z := -101.
Definition ERR_WRONG_USAGE : Z := -102.
Definition ERR_DTRACKSDK_INIT : Z := -103.
Definition ERR_DTRACK2_CMD_SPELLING : Z := -104.
Definition ERR_OPEN_FILE : Z := -105.
Definition ERR_UNKNOWN : Z := -106.

Definition VERSION_MAJOR : Z := 1.
Definition VERSION_MINOR : Z := 0.
Definition VERSION_PATCH : Z := 0.

(** Modelled from the spec: an asynchronous message of the controller
    (origin, status, frame number, error id, free text), as the message
    getters of the SDK hand it out after a successful getMessage(). *)
Record message := {
  msg_origin : string;
  msg_status : string;
  msg_framenr : Z;
  msg_errorid : Z;
  msg_text : string
}.

(** What lies outside the program: the SDK calls that talk to the
    controller, and the file system. The program is verified for every
    behaviour of them.
    - [new_DTrackSDK host]: the object built by [new DTrackSDK(host, 0)];
    - [getParam]: DTrackSDK::getParam(parameter, value), with the value
      written on success;
    - [sendDTrack2Command]: DTrackSDK::sendDTrack2Command(command, &answer),
      its int result and the content of answer afterwards;
    - [getMessages]: the calls of getMessage() up to the first one that
      returns false, with the message each successful call made current
      (Modelled from the spec: the messages are queued and drained by
      polling);
    - [read_lines]: the lines std::getline reads from the file of that
      name, None if the file cannot be opened. *)
Class Environment := {
  new_DTrackSDK : string -> SDK.DTrackSDK;
  getParam : string -> SDK.DTrackSDK -> option string * SDK.DTrackSDK;
  setParam : string -> SDK.DTrackSDK -> bool * SDK.DTrackSDK;
  startMeasurement : SDK.DTrackSDK -> bool * SDK.DTrackSDK;
  stopMeasurement : SDK.DTrackSDK -> bool * SDK.DTrackSDK;
  sendDTrack2Command : string -> SDK.DTrackSDK -> Z * string * SDK.DTrackSDK;
  getMessages : SDK.DTrackSDK -> list message * SDK.DTrackSDK;
  read_lines : string -> option (list string)
}.

(** The calls of the SDK made so far. *)
Inductive call : Type :=
| CallGetParam (parameter : string)
| CallSetParam (parameter : string)
| CallStartMeasurement
| CallStopMeasurement
| CallCommand (command : string).

(** The state the program acts on: the global SDK object [dt] and the two
    consoles, each the list of the lines printed. [calls] is not a
    variable of the program: it records the SDK calls in the order they
    were made. *)
Record world := {
  dt : SDK.DTrackSDK;
  cout : list string;
  cerr : list string;
  calls : list call
}.

Definition print_cout (line : string) (w : world) : world :=
  {| dt := dt w; cout := cout w ++ [line]; cerr := cerr w; calls := calls w |}.

Definition print_cerr (line : string) (w : world) : world :=
  {| dt := dt w; cout := cout w; cerr := cerr w ++ [line]; calls := calls w |}.

Definition called (c : call) (sdk' : SDK.DTrackSDK) (w : world) : world :=
  {| dt := sdk'; cout := cout w; cerr := cerr w; calls := calls w ++ [c] |}.

(** A run of a loop over argv: it returns, or reads argv where it must
    not, or has not finished within the given number of iterations. *)
Inductive run (A : Type) : Type :=
| Returned (a : A)
| Crashed (f : fault)
| OutOfFuel.
Arguments Returned {A} a.
Arguments Crashed {A} f.
Arguments OutOfFuel {A}.

#[global] Instance run_ret : MRet run := fun A a => Returned a.
#[global] Instance run_bind : MBind run := fun A B k m =>
  match m with
  | Returned a => k a
  | Crashed f => Crashed f
  | OutOfFuel => OutOfFuel
  end.

(** [std::string(argv[i])]: argv holds argc strings and a NULL after
    them. *)
Definition argv_at (argv : list string) (i : Z) : run string :=
  if i <? 0 then Crashed OutOfBoundsRead
  else match argv !! Z.to_nat i with
       | Some a => Returned a
       | None => if i =? Z.of_nat (length argv) then Crashed NullDereference
                 else Crashed OutOfBoundsRead
       end.

(** [s.compare(0, len, str) == 0] and [s.erase(0, len)] *)
Definition compare0 (len : nat) (str s : string) : bool :=
  String.eqb (substring 0 len s) str.

Definition erase0 (len : nat) (s : string) : string :=
  substring len (String.length s - len) s.

(** [if (errorOccured) return errorOccured; .. return 0;] *)
Definition nonzero (z : Z) : bool := negb (z =? 0).

Definition print_dec (z : Z) : string := NilZero.string_of_int (Z.to_int z).

Definition print_hex (z : Z) : string :=
  HexadecimalString.NilZero.string_of_uint (N.to_hex_uint (Z.to_N z)).

Definition is_help (command : string) : bool :=
  String.eqb command "-h" || String.eqb command "--help"
  || String.eqb command "/?".

(** show_help *)
Definition show_help (programName : string) (w : world) : world :=
  let w := print_cout ("DTrack2CLI v" ++ print_dec VERSION_MAJOR ++ "."
                         ++ print_dec VERSION_MINOR ++ "."
                         ++ print_dec VERSION_PATCH) w in
  let w := print_cout ("Usage: " ++ programName
                         ++ " <ATC hostname or ip> [<action> ...]") w in
  let w := print_cout
    "Apply an action to the ART Controller (ATC) specified by ACTION(s)" w in
  let w := print_cout
    "with <ATC hostname or ip> being either the IP address or the" w in
  let w := print_cout
    "hostname of the ART Controller e.g.: atc-123456 or 12.34.56.78" w in
  let w := print_cout "Available actions:" w in
  let w := print_cout
    "  -meastart                   start measurement" w in
  let w := print_cout
    "  -meastop                    stop measurement" w in
  let w := print_cout
    "  -shutdown                   shut down the ART Controller" w in
  let w := print_cout
    "  -get <parameter>            read and display the value of a DTrack2/3 parameter"
    w in
  let w := print_cout
    "  -set <parameter> <value>    change the value of a DTrack2/3 parameter"
    w in
  let w := print_cout
    "  -cmd <dtrack2 command>      send DTrack2 command directly" w in
  let w := print_cout
    "  -f <filename>               read and execute DTrack2/3 commands from a file"
    w in
  print_cout "  -h, --help, /?              display this help" w.

(** checkInput: the loop from the cursor [iArgument] on, and the function. *)
Fixpoint checkInput_loop (fuel : nat) (argc : Z) (argv : list string)
    (iArgument : Z) (w : world) : run (Z * world) :=
  if argc >=? iArgument then
    match fuel with
    | O => OutOfFuel
    | S fuel =>
        (* only occurs the first time this loop is executed *)
        let iArgument := if iArgument =? 2 then iArgument + 1 else iArgument in
        (* takes one argument from input *)
        command ← argv_at argv (iArgument - 1);
        let '(iArgument, errorOccured) :=
          (* command with 0 arguments *)
          if is_help command || String.eqb command "-meastart"
             || String.eqb command "-meastop" || String.eqb command "-shutdown"
          then (iArgument + 1, false)
          (* command with 1 argument *)
          else if String.eqb command "-get" || String.eqb command "-f"
                  || String.eqb command "-cmd"
          then
            let haveEnoughCommands := argc >? iArgument in
            if haveEnoughCommands then (iArgument + 2, false)
            else (iArgument, true)
          (* command with 2 arguments *)
          else if String.eqb command "-set"
          then
            let haveEnoughCommands := argc >? iArgument + 1 in
            if haveEnoughCommands then (iArgument + 3, false)
            else (iArgument, true)
          (* unknown command *)
          else (iArgument, true) in
        if errorOccured
        then
          Returned (ERR_WRONG_INPUT_PARAMETER,
                    print_cerr "Please check input parameters! (See help)" w)
        else checkInput_loop fuel argc argv iArgument w
    end
  else Returned (0, w).

Definition checkInput (argc : Z) (argv : list string) (w : world)
  : run (Z * world) :=
  checkInput_loop (Z.to_nat argc) argc argv 2 w.

Section WithEnvironment.
Context `{Environment}.

(** dtrack2_get_and_print_all_event_messages *)
Definition print_message (m : message) : string :=
  msg_origin m ++ " " ++ msg_status m ++ " " ++ print_dec (msg_framenr m)
  ++ " 0x" ++ print_hex (msg_errorid m) ++ " " ++ msg_text m.

Definition dtrack2_get_and_print_all_event_messages (w : world) : world :=
  let '(messages, sdk') := getMessages (dt w) in
  {| dt := sdk'; cout := cout w;
     cerr := cerr w ++ map print_message messages; calls := calls w |}.

(** dtrack2_error_to_console *)
Definition dtrack2_error_to_console (w : world) : Z * world :=
  let dtrack2Error := SDK.getLastDTrackError (dt w) in
  if nonzero dtrack2Error
  then
    let errorMessage := SDK.getLastDTrackErrorDescription (dt w) in
    let w := print_cerr ("error " ++ print_dec dtrack2Error ++ ": "
                           ++ errorMessage) w in
    let w := dtrack2_get_and_print_all_event_messages w in
    (dtrack2Error, w)
  else (dtrack2Error, w).

(** [int errorOccured = dtrack2_error_to_console();
     if (errorOccured) return errorOccured;] followed by [return 0;] *)
Definition report_error (w : world) : Z * world :=
  let '(errorOccured, w) := dtrack2_error_to_console w in
  if nonzero errorOccured then (errorOccured, w) else (0, w).

(** start_measurement *)
Definition start_measurement (w : world) : Z * world :=
  (* check tracking status *)
  let '(success, sdk') := getParam "status active" (dt w) in
  let w := called (CallGetParam "status active") sdk' w in
  match success with
  | Some trackingStatus =>
      (* check the answer (possibilities: none, cal, mea, wait or err) *)
      if negb (String.eqb trackingStatus "mea")
         && negb (String.eqb trackingStatus "wait")
      then
        let '(started, sdk') := startMeasurement (dt w) in
        let w := called CallStartMeasurement sdk' w in
        if negb started then report_error w else (0, w)
      else (0, w)
  | None => report_error w
  end.

(** stop_measurement *)
Definition stop_measurement (w : world) : Z * world :=
  (* check if measurement is already running *)
  let '(success, sdk') := getParam "status active" (dt w) in
  let w := called (CallGetParam "status active") sdk' w in
  match success with
  | Some trackingStatus =>
      (* check the answer (possibilities: none, cal, mea, wait or err) *)
      if negb (String.eqb trackingStatus "none")
         && negb (String.eqb trackingStatus "err")
      then
        let '(stopped, sdk') := stopMeasurement (dt w) in
        let w := called CallStopMeasurement sdk' w in
        if negb stopped then report_error w else (0, w)
      else (0, w)
  | None => report_error w
  end.

(** get_dtrack2_parameter *)
Definition get_dtrack2_parameter (someParameter : string) (w : world)
  : Z * world :=
  let '(success, sdk') := getParam someParameter (dt w) in
  let w := called (CallGetParam someParameter) sdk' w in
  match success with
  | Some receivedParameter => (0, print_cout receivedParameter w)
  | None => report_error w
  end.

(** set_dtrack2_parameter *)
Definition set_dtrack2_parameter (someParameter : string) (w : world)
  : Z * world :=
  let '(success, sdk') := setParam someParameter (dt w) in
  let w := called (CallSetParam someParameter) sdk' w in
  if negb success then report_error w else (0, w).

(** send_dtrack2_command *)
Definition send_dtrack2_command (rawDtrack2Command : string) (w : world)
  : Z * world :=
  let '(isSuccessful, dtrack2Response, sdk') :=
    sendDTrack2Command rawDtrack2Command (dt w) in
  let w := called (CallCommand rawDtrack2Command) sdk' w in
  if isSuccessful =? 0 then (0, print_cout dtrack2Response w)
  else report_error w.

(** [if (errorOccured) return errorOccured;] at the end of a branch that is
    followed by [return 0;] *)
Definition return_error (r : Z * world) : Z * world :=
  let '(errorOccured, w) := r in
  if nonzero errorOccured then (errorOccured, w) else (0, w).

(** process_command *)
Definition process_command (someCommand : string) (w : world) : Z * world :=
  (* getParam; accepts commands without "dtrack2" in the beginning *)
  if compare0 4 "get " someCommand
  then
    let someCommand := erase0 4 someCommand in
    return_error (get_dtrack2_parameter someCommand w)
  (* getParam (request parameter value) *)
  else if compare0 12 "dtrack2 get " someCommand
  then
    let someCommand := erase0 12 someCommand in
    return_error (get_dtrack2_parameter someCommand w)
  (* setParam; accepts commands without "dtrack2" in the beginning *)
  else if compare0 4 "set " someCommand
  then
    let someCommand := erase0 4 someCommand in
    return_error (set_dtrack2_parameter someCommand w)
  (* setParam (change parameter value) *)
  else if compare0 12 "dtrack2 set " someCommand
  then
    let someCommand := erase0 12 someCommand in
    return_error (set_dtrack2_parameter someCommand w)
  (* raw DTrack2 command *)
  else
    let someCommand :=
      if negb (compare0 8 "dtrack2 " someCommand)
      then "dtrack2 " ++ someCommand
      else someCommand in
    return_error (send_dtrack2_command someCommand w).

(** The body of the two [while (std::getline(..))] loops: every line is
    executed, and the first error is kept. *)
Definition process_line (readLine : string) (acc : Z * world) : Z * world :=
  let '(firstError, w) := acc in
  let '(errorOccured, w) := process_command readLine w in
  if (firstError =? 0) && nonzero errorOccured then (errorOccured, w)
  else (firstError, w).

(** open_file *)
Definition open_file (file_to_open : string) (w : world) : Z * world :=
  match read_lines file_to_open with
  | Some lines =>
      (* read commands in file (executed line by line) *)
      let '(firstErrorInFile, w) :=
        fold_left
          (fun acc readLine =>
             if String.eqb readLine "" then acc
             else process_line readLine acc)
          lines (0, w) in
      let '(errorOccured, w) := dtrack2_error_to_console w in
      if nonzero errorOccured then (errorOccured, w)
      else if firstErrorInFile =? 0 then (0, w)
      else (firstErrorInFile, w)
  | None =>
      (* file couldn't be opened/found *)
      (ERR_OPEN_FILE, print_cerr "Unable to open file" w)
  end.

(** process_cmd_line_input: the loop from the cursor [nCommands] on, and the
    function. *)
Fixpoint process_cmd_line_loop (fuel : nat) (argc : Z) (argv : list string)
    (nCommands : Z) (w : world) : run (Z * world) :=
  if argc >=? nCommands then
    match fuel with
    | O => OutOfFuel
    | S fuel =>
        (* only occurs the first time this loop is executed *)
        let nCommands := if nCommands =? 2 then nCommands + 1 else nCommands in
        (* takes one argument from input *)
        command ← argv_at argv (nCommands - 1);
        if is_help command
        then
          let nCommands := nCommands + 1 in
          programName ← argv_at argv 0;
          process_cmd_line_loop fuel argc argv nCommands
            (show_help programName w)
        else if String.eqb command "-meastart"
        then
          let nCommands := nCommands + 1 in
          let '(errorOccured, w) := start_measurement w in
          if nonzero errorOccured then Returned (errorOccured, w)
          else process_cmd_line_loop fuel argc argv nCommands w
        else if String.eqb command "-meastop"
        then
          let nCommands := nCommands + 1 in
          let '(errorOccured, w) := stop_measurement w in
          if nonzero errorOccured then Returned (errorOccured, w)
          else process_cmd_line_loop fuel argc argv nCommands w
        else if String.eqb command "-shutdown"
        then
          (* if shutdown doesn't work, look for an error *)
          let '(failed, w) :=
            send_dtrack2_command "dtrack2 system shutdown" w in
          if nonzero failed then Returned (report_error w)
          else Returned (0, w)
        else if String.eqb command "-get"
        then
          dtrack2Get ← argv_at argv nCommands;
          let nCommands := nCommands + 2 in
          let '(errorOccured, w) := get_dtrack2_parameter dtrack2Get w in
          if nonzero errorOccured then Returned (errorOccured, w)
          else process_cmd_line_loop fuel argc argv nCommands w
        else if String.eqb command "-set"
        then
          dtrack2SetParam ← argv_at argv nCommands;
          dtrack2SetValue ← argv_at argv (nCommands + 1);
          let nCommands := nCommands + 3 in
          let dtrack2Set := (dtrack2SetParam ++ " ") ++ dtrack2SetValue in
          let '(errorOccured, w) := set_dtrack2_parameter dtrack2Set w in
          if nonzero errorOccured then Returned (errorOccured, w)
          else process_cmd_line_loop fuel argc argv nCommands w
        else if String.eqb command "-cmd"
        then
          dtrack2Cmd ← argv_at argv nCommands;
          let nCommands := nCommands + 2 in
          let dtrack2Cmd :=
            if negb (compare0 8 "dtrack2 " dtrack2Cmd)
            then "dtrack2 " ++ dtrack2Cmd
            else dtrack2Cmd in
          let '(errorOccured, w) := send_dtrack2_command dtrack2Cmd w in
          if nonzero errorOccured then Returned (errorOccured, w)
          else process_cmd_line_loop fuel argc argv nCommands w
        else if String.eqb command "-f"
        then
          filename ← argv_at argv nCommands;
          let nCommands := nCommands + 2 in
          let '(errorOccured, w) := open_file filename w in
          if nonzero errorOccured then Returned (errorOccured, w)
          else process_cmd_line_loop fuel argc argv nCommands w
        else
          Returned (ERR_UNKNOWN, print_cout "unknown error occured" w)
    end
  else Returned (0, w).

Definition process_cmd_line_input (argc : Z) (argv : list string) (w : world)
  : run (Z * world) :=
  process_cmd_line_loop (Z.to_nat argc) argc argv 2 w.

(** main: the exit code and the world at the end, for the arguments and the
    lines waiting on the standard input. The consoles start empty; the SDK
    object exists from [new DTrackSDK] on ([before] stands for the time
    before, when [dt] is NULL and not used). *)
Definition main (before : SDK.DTrackSDK) (argc : Z) (argv : list string)
    (stdin : list string) : run (Z * world) :=
  let w := {| dt := before; cout := []; cerr := []; calls := [] |} in
  (* check for correct usage *)
  if argc <=? 1
  then
    programName ← argv_at argv 0;
    Returned (ERR_WRONG_USAGE, show_help programName w)
  else
    (* check if user wanted help *)
    command ← argv_at argv 1;
    if is_help command
    then
      programName ← argv_at argv 0;
      Returned (0, show_help programName w)
    else
      (* init library: *)
      host ← argv_at argv 1;
      let w := {| dt := new_DTrackSDK host; cout := cout w; cerr := cerr w;
                  calls := calls w |} in
      if negb (SDK.isCommandInterfaceValid (dt w))
      then
        Returned
          (ERR_DTRACKSDK_INIT,
           print_cerr ("No connection to ART controller! Is " ++ Examples.dquote
                         ++ host ++ Examples.dquote
                         ++ " a valid controller hostname of ip address?") w)
      else if argc =? 2
      then
        (* look for pipe; errors are displayed, but DTrack2CLI won't stop *)
        let '(firstErrorInPipe, w) := fold_left
          (fun acc pipeCommand => process_line pipeCommand acc) stdin (0, w) in
        if nonzero firstErrorInPipe then Returned (firstErrorInPipe, w)
        else Returned (0, w)
      else
        (* check input parameters *)
        '(paramInputError, w) ← checkInput argc argv w;
        if nonzero paramInputError then Returned (paramInputError, w)
        else
          (* processes all commands *)
          '(someError, w) ← process_cmd_line_input argc argv w;
          if nonzero someError then Returned (someError, w)
          else Returned (0, w).

End WithEnvironment.

End DTrack2CLI.

(** ** Concrete frames, objects and network behaviours *)

Module Scenario.

Definition double_of_int (z : Z) : double := binary_normalize 53 1024 z 0 false.

Definition identity_rot : list double :=
  map double_of_int [1; 0; 0; 0; 1; 0; 0; 0; 1].

Definition body0 : SDK.DTrack_Body_Type_d :=
  {| SDK.b_id := 0; SDK.b_quality := double_of_int 1;
     SDK.b_loc := map double_of_int [100; 200; 300];
     SDK.b_rot := identity_rot |}.

Definition flystick0 : SDK.DTrack_FlyStick_Type_d :=
  {| SDK.f_id := 0; SDK.f_quality := double_of_int 1;
     SDK.f_num_button := 6;
     SDK.f_button := [1; 0; 0; 1; 0; 0; 0; 0; 0; 0; 0; 0; 0; 0; 0; 0];
     SDK.f_num_joystick := 2;
     SDK.f_joystick := map double_of_int [1; -1; 0; 0; 0; 0; 0; 0];
     SDK.f_loc := map double_of_int [10; 20; 30];
     SDK.f_rot := identity_rot |}.

Definition meatool0 : SDK.DTrack_MeaTool_Type_d :=
  {| SDK.t_id := 0; SDK.t_quality := double_of_int 1;
     SDK.t_num_button := 1; SDK.t_button := [1];
     SDK.t_loc := map double_of_int [1; 2; 3];
     SDK.t_rot := identity_rot |}.

Definition finger0 : SDK.DTrack_Finger_Type_d :=
  {| SDK.fg_loc := map double_of_int [4; 5; 6];
     SDK.fg_rot := identity_rot;
     SDK.fg_radiustip := double_of_int 7;
     SDK.fg_lengthphalanx := map double_of_int [20; 30; 40];
     SDK.fg_anglephalanx := map double_of_int [15; 25] |}.

Definition hand0 : SDK.DTrack_Hand_Type_d :=
  {| SDK.h_id := 0; SDK.h_quality := double_of_int 1;
     SDK.h_lr := 1; SDK.h_nfinger := 3;
     SDK.h_loc := map double_of_int [7; 8; 9];
     SDK.h_rot := identity_rot;
     SDK.h_finger := replicate 5 finger0 |}.

Definition marker1 : SDK.DTrack_Marker_Type_d :=
  {| SDK.m_id := 1; SDK.m_quality := double_of_int 1;
     SDK.m_loc := map double_of_int [11; 12; 13] |}.

(** A bound SDK object that has not yet received a frame. *)
Definition sdk_idle : SDK.DTrackSDK :=
  {| SDK.localDataPortValid := true; SDK.commandInterfaceValid := true;
     SDK.lastDataError := SDK.ERR_NONE; SDK.lastServerError := SDK.ERR_NONE;
     SDK.lastDTrackError := 0; SDK.lastDTrackErrorDescription := "";
     SDK.frameCounter := 0; SDK.timeStamp := double_of_int (-1);
     SDK.act_body := []; SDK.act_flystick := []; SDK.act_meatool := [];
     SDK.act_hand := []; SDK.act_marker := [] |}.

(** The SDK object after frame 10 with one entity of each type. *)
Definition sdk_frame : SDK.DTrackSDK :=
  {| SDK.localDataPortValid := true; SDK.commandInterfaceValid := true;
     SDK.lastDataError := SDK.ERR_NONE; SDK.lastServerError := SDK.ERR_NONE;
     SDK.lastDTrackError := 0; SDK.lastDTrackErrorDescription := "";
     SDK.frameCounter := 10; SDK.timeStamp := double_of_int 1;
     SDK.act_body := [body0]; SDK.act_flystick := [flystick0];
     SDK.act_meatool := [meatool0]; SDK.act_hand := [hand0];
     SDK.act_marker := [marker1] |}.

(** The SDK object after a receive that timed out. *)
Definition sdk_timeout : SDK.DTrackSDK :=
  {| SDK.localDataPortValid := true; SDK.commandInterfaceValid := true;
     SDK.lastDataError := SDK.ERR_TIMEOUT; SDK.lastServerError := SDK.ERR_NONE;
     SDK.lastDTrackError := 0; SDK.lastDTrackErrorDescription := "";
     SDK.frameCounter := 10; SDK.timeStamp := double_of_int 1;
     SDK.act_body := []; SDK.act_flystick := []; SDK.act_meatool := [];
     SDK.act_hand := []; SDK.act_marker := [] |}.

(** The SDK object after the controller refused a command. *)
Definition sdk_refused : SDK.DTrackSDK :=
  {| SDK.localDataPortValid := true; SDK.commandInterfaceValid := true;
     SDK.lastDataError := SDK.ERR_NONE; SDK.lastServerError := SDK.ERR_NONE;
     SDK.lastDTrackError := 3;
     SDK.lastDTrackErrorDescription := "parameter unknown";
     SDK.frameCounter := 0; SDK.timeStamp := double_of_int (-1);
     SDK.act_body := []; SDK.act_flystick := []; SDK.act_meatool := [];
     SDK.act_hand := []; SDK.act_marker := [] |}.

(** An SDK object whose local data port could not be bound. *)
Definition sdk_unbound : SDK.DTrackSDK :=
  {| SDK.localDataPortValid := false; SDK.commandInterfaceValid := false;
     SDK.lastDataError := SDK.ERR_NET; SDK.lastServerError := SDK.ERR_NONE;
     SDK.lastDTrackError := 0; SDK.lastDTrackErrorDescription := "";
     SDK.frameCounter := 0; SDK.timeStamp := double_of_int (-1);
     SDK.act_body := []; SDK.act_flystick := []; SDK.act_meatool := [];
     SDK.act_hand := []; SDK.act_marker := [] |}.

(** A network on which frame 10 arrives, every UDP command fails to be
    sent, and the controller acknowledges exactly the command
    "dtrack2 set cam exp 50". *)
Definition streaming : SDK.Transport :=
  {| SDK.receive := fun _ => (true, sdk_frame);
     SDK.sendCommand := fun _ s => (false, s);
     SDK.sendDTrack2Command := fun cmd s =>
       if String.eqb cmd "dtrack2 set cam exp 50" then (1, s)
       else (0, sdk_refused) |}.

(** A frame with a flystick of 20 buttons, outside the protocol maxima,
    and a network on which it would arrive. *)
Definition flystick20 : SDK.DTrack_FlyStick_Type_d :=
  {| SDK.f_id := 0; SDK.f_quality := double_of_int 1;
     SDK.f_num_button := 20;
     SDK.f_button := [1; 0; 0; 1; 0; 0; 0; 0; 0; 0; 0; 0; 0; 0; 0; 0];
     SDK.f_num_joystick := 2;
     SDK.f_joystick := map double_of_int [1; -1; 0; 0; 0; 0; 0; 0];
     SDK.f_loc := map double_of_int [10; 20; 30];
     SDK.f_rot := identity_rot |}.

Definition sdk_oversized : SDK.DTrackSDK :=
  {| SDK.localDataPortValid := true; SDK.commandInterfaceValid := true;
     SDK.lastDataError := SDK.ERR_NONE; SDK.lastServerError := SDK.ERR_NONE;
     SDK.lastDTrackError := 0; SDK.lastDTrackErrorDescription := "";
     SDK.frameCounter := 11; SDK.timeStamp := double_of_int 1;
     SDK.act_body := []; SDK.act_flystick := [flystick20];
     SDK.act_meatool := []; SDK.act_hand := []; SDK.act_marker := [] |}.

Definition oversized : SDK.Transport :=
  {| SDK.receive := fun _ => (true, sdk_oversized);
     SDK.sendCommand := fun _ s => (false, s);
     SDK.sendDTrack2Command := fun _ s => (-1, s) |}.

(** A network on which nothing arrives. *)
Definition silent : SDK.Transport :=
  {| SDK.receive := fun _ => (false, sdk_timeout);
     SDK.sendCommand := fun _ s => (false, s);
     SDK.sendDTrack2Command := fun _ s => (-1, s) |}.

(** Fresh objects whose count fields happen to hold 0. *)
Definition dtrack_new : DTrack.DTrack := DTrack.new sdk_idle 0 0 0 0 0.

Definition dtrack2_new : DTrack2.DTrack2 := DTrack2.new sdk_idle 0 0 0 0 0.

Definition the_state {A} (fallback : A) (o : outcome (bool * A)) : A :=
  match o with
  | Done (_, a) => a
  | Fault _ => fallback
  end.

(** The three facades after frame 10 was received. *)
Definition dtrack_frame : DTrack.DTrack :=
  the_state dtrack_new (@DTrack.receive streaming dtrack_new).

Definition dtrack2_frame : DTrack2.DTrack2 :=
  the_state dtrack2_new (@DTrack2.receive streaming dtrack2_new).

Definition dtracklib_frame : DTracklib.DTracklib :=
  the_state (DTracklib.new sdk_idle)
            (@DTracklib.receive streaming (DTracklib.new sdk_idle)).

(** A DTrack2 object whose last command was refused. *)
Definition dtrack2_refused : DTrack2.DTrack2 :=
  snd (@DTrack2.send_command streaming "tracking start" dtrack2_new).

End Scenario.

(** ** The actions of DTrack2CLI *)

(** The actions that show_help lists, by the number of words that follow
    them on the command line. *)
Definition plain_action (command : string) : bool :=
  DTrack2CLI.is_help command || String.eqb command "-meastart"
  || String.eqb command "-meastop" || String.eqb command "-shutdown".

Definition one_word_action (command : string) : bool :=
  String.eqb command "-get" || String.eqb command "-f"
  || String.eqb command "-cmd".

(** The command lines show_help describes: a sequence of actions, each
    followed by its words ("-get <parameter>", "-cmd <dtrack2 command>",
    "-f <filename>", "-set <parameter> <value>"). *)
Inductive actions : list string -> Prop :=
| actions_end : actions []
| actions_plain command rest :
    plain_action command = true ->
    actions rest -> actions (command :: rest)
| actions_one_word command word rest :
    one_word_action command = true ->
    actions rest -> actions (command :: word :: rest)
| actions_set parameter value rest :
    actions rest -> actions ("-set" :: parameter :: value :: rest).

Fixpoint actionsb (l : list string) : bool :=
  match l with
  | [] => true
  | command :: rest =>
      if plain_action command then actionsb rest
      else if one_word_action command then
        match rest with
        | [] => false
        | _ :: rest' => actionsb rest'
        end
      else if String.eqb command "-set" then
        match rest with
        | _ :: _ :: rest' => actionsb rest'
        | _ => false
        end
      else false
  end.

(** Every raw command among the SDK calls starts with "dtrack2 ". *)
Definition well_addressed (c : DTrack2CLI.call) : Prop :=
  match c with
  | DTrack2CLI.CallCommand command =>
      String.prefix "dtrack2 " command = true
  | _ => True
  end.

(** The answer of checkInput to a command line it does not accept. *)
Definition check_failed (w : DTrack2CLI.world)
  : DTrack2CLI.run (Z * DTrack2CLI.world) :=
  DTrack2CLI.Returned
    (DTrack2CLI.ERR_WRONG_INPUT_PARAMETER,
     DTrack2CLI.print_cerr "Please check input parameters! (See help)" w).

Definition commands_addressed (w : DTrack2CLI.world) : Prop :=
  Forall well_addressed (DTrack2CLI.calls w).

(** The SDK call a line from a pipe or a file leads to. *)
Definition call_of_line (line : string) : DTrack2CLI.call :=
  if DTrack2CLI.compare0 4 "get " line
  then DTrack2CLI.CallGetParam (DTrack2CLI.erase0 4 line)
  else if DTrack2CLI.compare0 12 "dtrack2 get " line
  then DTrack2CLI.CallGetParam (DTrack2CLI.erase0 12 line)
  else if DTrack2CLI.compare0 4 "set " line
  then DTrack2CLI.CallSetParam (DTrack2CLI.erase0 4 line)
  else if DTrack2CLI.compare0 12 "dtrack2 set " line
  then DTrack2CLI.CallSetParam (DTrack2CLI.erase0 12 line)
  else DTrack2CLI.CallCommand
         (if negb (DTrack2CLI.compare0 8 "dtrack2 " line)
          then "dtrack2 " ++ line else line).

Definition nonempty (line : string) : bool := negb (String.eqb line "").

(** A result accounts for itself on cerr: if it carries a nonzero code, or
    if cerr held a line before, cerr holds a line after. *)
Definition reports (w : DTrack2CLI.world) (r : Z * DTrack2CLI.world) : Prop :=
  DTrack2CLI.cerr w <> [] \/ fst r <> 0 -> DTrack2CLI.cerr (snd r) <> [].

(** The world in which main starts to work on its arguments: the SDK object
    built for [host], nothing printed, nothing called. *)
Definition connected `{DTrack2CLI.Environment} (host : string)
  : DTrack2CLI.world :=
  {| DTrack2CLI.dt := DTrack2CLI.new_DTrackSDK host; DTrack2CLI.cout := [];
     DTrack2CLI.cerr := []; DTrack2CLI.calls := [] |}.

Section Execution.
Context `{DTrack2CLI.Environment}.

(** One action and what follows it: the rest runs only if the action
    returned 0. *)
Definition and_then (r : Z * DTrack2CLI.world)
    (rest : DTrack2CLI.world -> Z * DTrack2CLI.world) : Z * DTrack2CLI.world :=
  let '(errorOccured, w) := r in
  if DTrack2CLI.nonzero errorOccured then (errorOccured, w) else rest w.

(** The actions of a command line, one after the other from the left, up
    to the first that fails; -shutdown ends the run. Where a word is
    missing, which checkInput excludes, nothing is executed. *)
Fixpoint execute (programName : string) (l : list string)
    (w : DTrack2CLI.world) : Z * DTrack2CLI.world :=
  match l with
  | [] => (0, w)
  | command :: rest =>
      if DTrack2CLI.is_help command
      then execute programName rest (DTrack2CLI.show_help programName w)
      else if String.eqb command "-meastart"
      then and_then (DTrack2CLI.start_measurement w) (execute programName rest)
      else if String.eqb command "-meastop"
      then and_then (DTrack2CLI.stop_measurement w) (execute programName rest)
      else if String.eqb command "-shutdown"
      then
        let '(failed, w) :=
          DTrack2CLI.send_dtrack2_command "dtrack2 system shutdown" w in
        if DTrack2CLI.nonzero failed then DTrack2CLI.report_error w
        else (0, w)
      else if String.eqb command "-get"
      then
        match rest with
        | parameter :: rest =>
            and_then (DTrack2CLI.get_dtrack2_parameter parameter w)
                     (execute programName rest)
        | [] => (DTrack2CLI.ERR_WRONG_INPUT_PARAMETER, w)
        end
      else if String.eqb command "-set"
      then
        match rest with
        | parameter :: value :: rest =>
            and_then
              (DTrack2CLI.set_dtrack2_parameter ((parameter ++ " ") ++ value) w)
              (execute programName rest)
        | _ => (DTrack2CLI.ERR_WRONG_INPUT_PARAMETER, w)
        end
      else if String.eqb command "-cmd"
      then
        match rest with
        | dtrack2Cmd :: rest =>
            and_then
              (DTrack2CLI.send_dtrack2_command
                 (if negb (DTrack2CLI.compare0 8 "dtrack2 " dtrack2Cmd)
                  then "dtrack2 " ++ dtrack2Cmd
                  else dtrack2Cmd) w)
              (execute programName rest)
        | [] => (DTrack2CLI.ERR_WRONG_INPUT_PARAMETER, w)
        end
      else if String.eqb command "-f"
      then
        match rest with
        | filename :: rest =>
            and_then (DTrack2CLI.open_file filename w)
                     (execute programName rest)
        | [] => (DTrack2CLI.ERR_WRONG_INPUT_PARAMETER, w)
        end
      else (DTrack2CLI.ERR_UNKNOWN,
            DTrack2CLI.print_cout "unknown error occured" w)
  end.

End Execution.

(** ** A controller for DTrack2CLI *)

Module Controller.

(** A controller reachable as atc-123456, idle, that knows the parameter
    "status active", does not answer in time where "system slow" is read
    or set to 1, refuses every other parameter and every command but the
    shutdown, and keeps one command file. *)
Definition atc : DTrack2CLI.Environment :=
  {| DTrack2CLI.new_DTrackSDK := fun host =>
       if String.eqb host "atc-123456" then Scenario.sdk_idle
       else Scenario.sdk_unbound;
     DTrack2CLI.getParam := fun parameter s =>
       if String.eqb parameter "status active" then (Some "none", s)
       else if String.eqb parameter "system slow"
       then (None, Scenario.sdk_timeout)
       else (None, Scenario.sdk_refused);
     DTrack2CLI.setParam := fun parameter s =>
       if String.eqb parameter "system slow 1"
       then (false, Scenario.sdk_timeout)
       else (false, Scenario.sdk_refused);
     DTrack2CLI.startMeasurement := fun s => (true, s);
     DTrack2CLI.stopMeasurement := fun s => (true, s);
     DTrack2CLI.sendDTrack2Command := fun command s =>
       if String.eqb command "dtrack2 system shutdown" then (1, "", s)
       else if String.eqb command "dtrack2 system slow"
       then (-1, "", Scenario.sdk_timeout)
       else (-1, "", Scenario.sdk_refused);
     DTrack2CLI.getMessages := fun s => ([], s);
     DTrack2CLI.read_lines := fun name =>
       if String.eqb name "commands.txt"
       then Some ["get status active"; ""; "tracking start"]
       else None |}.

Definition argv_get : list string :=
  ["DTrack2CLI"; "atc-123456"; "-get"; "status active"].

Definition argv_missing_word : list string :=
  ["DTrack2CLI"; "atc-123456"; "-meastart"; "-get"].

Definition argv_refused : list string :=
  ["DTrack2CLI"; "atc-123456"; "-get"; "camera count"].

Definition argv_shutdown : list string :=
  ["DTrack2CLI"; "atc-123456"; "-meastart"; "-shutdown"; "-f"; "commands.txt"].

End Controller.

(** * Verification *)

Local Close Scope string_scope.

(** ** The copy loops *)

Lemma get_elem_lookup {A} (l : list A) (i : nat) :
  SDK.get_elem l (Z.of_nat i) = l !! i.
Proof.
  unfold SDK.get_elem. rewrite Nat2Z.id.
  destruct (Z.of_nat i <? Z.of_nat (length l)) eqn:E.
  - replace (0 <=? Z.of_nat i) with true by (symmetry; apply Z.leb_le; lia). done.
  - apply Z.ltb_ge in E. rewrite andb_false_r. symmetry.
    apply lookup_ge_None. lia.
Qed.

Lemma get_elem_in_range {A} (l : list A) (i : Z) :
  0 <= i < Z.of_nat (length l) ->
  exists a, l !! Z.to_nat i = Some a /\ SDK.get_elem l i = Some a.
Proof.
  intros Hi. destruct (lookup_lt_is_Some_2 l (Z.to_nat i)) as [a Ha]; [lia|].
  exists a. split; [done|].
  rewrite <- (Z2Nat.id i) at 1 by lia. by rewrite get_elem_lookup.
Qed.

Lemma vector_at_lookup {A} (v : list A) (i : nat) a :
  v !! i = Some a -> vector_at v (Z.of_nat i) = Done a.
Proof.
  intros E. unfold vector_at. rewrite Nat2Z.id, E.
  destruct (Z.of_nat i <? 0) eqn:F; [apply Z.ltb_lt in F; lia | done].
Qed.

Lemma vector_index_in_range {A} (v : list A) (i : Z) :
  0 <= i < Z.of_nat (length v) ->
  exists a, v !! Z.to_nat i = Some a /\ vector_index v i = Done a.
Proof.
  intros Hi. destruct (lookup_lt_is_Some_2 v (Z.to_nat i)) as [a Ha]; [lia|].
  exists a. split; [done|]. unfold vector_index. rewrite Ha.
  destruct (i <? 0) eqn:F; [apply Z.ltb_lt in F; lia | done].
Qed.

Lemma vector_index_negative {A} (v : list A) (i : Z) :
  i < 0 -> vector_index v i = Fault OutOfBoundsRead.
Proof.
  intros Hi. unfold vector_index.
  by replace (i <? 0) with true by (symmetry; apply Z.ltb_lt; lia).
Qed.

Lemma vector_resize_length {A} (zero : A) (n : nat) (v : list A) :
  vector_resize zero (Z.of_nat n) v = Done (resize n zero v).
Proof.
  unfold vector_resize. rewrite Nat2Z.id.
  destruct (Z.of_nat n <? 0) eqn:E; [apply Z.ltb_lt in E; lia | done].
Qed.

Lemma copy_elem_in_range {A B} (conv : A -> B) (src : list A) (i : nat) v a :
  src !! i = Some a -> (i < length v)%nat ->
  copy_elem (SDK.get_elem src) conv (Z.of_nat i) v = Done (<[i := conv a]> v).
Proof.
  intros Ha Hi. destruct (lookup_lt_is_Some_2 v i Hi) as [b Hb].
  unfold copy_elem. rewrite get_elem_lookup, Ha, (vector_at_lookup _ _ _ Hb).
  cbn [deref mbind outcome_bind]. unfold vector_store. by rewrite Nat2Z.id.
Qed.

(** After [k] iterations from index [i] the slots [i .. i+k-1] hold the
    converted SDK records and the other slots are untouched. *)
Lemma for_from_copy_elem {A B} (conv : A -> B) (src : list A) :
  forall (k i : nat) (v : list B),
    length v = length src -> (i + k <= length src)%nat ->
    for_from k (Z.of_nat i) (copy_elem (SDK.get_elem src) conv) v
    = Done (take i v ++ map conv (take k (drop i src)) ++ drop (i + k) v).
Proof.
  induction k as [|k IH]; intros i v Hlen Hik.
  - rewrite Nat.add_0_r. simpl. by rewrite take_drop.
  - destruct (lookup_lt_is_Some_2 src i) as [a Ha]; [lia|].
    cbn [for_from]. rewrite (copy_elem_in_range _ _ _ _ _ Ha) by lia.
    cbn [mbind outcome_bind].
    replace (Z.of_nat i + 1) with (Z.of_nat (S i)) by lia.
    rewrite IH; [|by rewrite length_insert|lia].
    f_equal.
    rewrite (take_S_r _ _ (conv a)); [|apply list_lookup_insert_eq; lia].
    rewrite take_insert_ge by lia.
    rewrite (drop_S _ _ _ Ha). simpl.
    rewrite drop_insert_lt by lia.
    rewrite <- app_assoc. simpl.
    by replace (i + S k)%nat with (S (i + k)) by lia.
Qed.

Lemma for_int_copy_elem {A B} (zero : B) (conv : A -> B) (src : list A) v :
  for_int (Z.of_nat (length src)) (copy_elem (fun i => SDK.get_elem src i) conv)
          (resize (length src) zero v)
  = Done (map conv src).
Proof.
  unfold for_int. rewrite Nat2Z.id.
  change (fun i => SDK.get_elem src i) with (SDK.get_elem src).
  rewrite (for_from_copy_elem conv src (length src) 0);
    [|by rewrite length_resize|lia].
  rewrite take_0, drop_0, firstn_all. simpl.
  rewrite drop_ge by (rewrite length_resize; lia). by rewrite app_nil_r.
Qed.

(** ** What [receive] does, for the three facades *)

Ltac run_copy_loops :=
  repeat (rewrite vector_resize_length; cbn [mbind outcome_bind];
          rewrite for_int_copy_elem; cbn [mbind outcome_bind]).

Lemma DTrack_receive_failure (T : SDK.Transport) d sdk' :
  SDK.receive (DTrack.sdk d) = (false, sdk') ->
  DTrack.receive d = Done (false, DTrack.set_sdk d sdk').
Proof. intros E. unfold DTrack.receive. by rewrite E. Qed.

Lemma DTrack_receive_success (T : SDK.Transport) d sdk' :
  SDK.receive (DTrack.sdk d) = (true, sdk') ->
  DTrack.receive d =
  Done (true,
        {| DTrack.sdk := sdk';
           DTrack.remoteCameras := DTrack.remoteCameras d;
           DTrack.remoteTracking := DTrack.remoteTracking d;
           DTrack.remoteSending := DTrack.remoteSending d;
           DTrack.act_num_body := SDK.getNumBody sdk';
           DTrack.act_body := map DTrack.copy_body (SDK.act_body sdk');
           DTrack.act_num_flystick := SDK.getNumFlyStick sdk';
           DTrack.act_flystick :=
             map DTrack.copy_flystick (SDK.act_flystick sdk');
           DTrack.act_num_meatool := SDK.getNumMeaTool sdk';
           DTrack.act_meatool := map DTrack.copy_meatool (SDK.act_meatool sdk');
           DTrack.act_num_marker := SDK.getNumMarker sdk';
           DTrack.act_marker := map DTrack.copy_marker (SDK.act_marker sdk');
           DTrack.act_num_hand := SDK.getNumHand sdk';
           DTrack.act_hand := map DTrack.copy_hand (SDK.act_hand sdk') |}).
Proof.
  intros E. unfold DTrack.receive. rewrite E. cbn [negb].
  unfold SDK.getNumBody, SDK.getBody, SDK.getNumFlyStick, SDK.getFlyStick,
    SDK.getNumMeaTool, SDK.getMeaTool, SDK.getNumHand, SDK.getHand,
    SDK.getNumMarker, SDK.getMarker.
  run_copy_loops. reflexivity.
Qed.


Lemma DTrack2_receive_unbound (T : SDK.Transport) d :
  SDK.isLocalDataPortValid (DTrack2.sdk d) = false ->
  DTrack2.receive d = Done (false, d).
Proof. intros E. unfold DTrack2.receive. by rewrite E. Qed.

Lemma DTrack2_receive_failure (T : SDK.Transport) d sdk' :
  SDK.isLocalDataPortValid (DTrack2.sdk d) = true ->
  SDK.receive (DTrack2.sdk d) = (false, sdk') ->
  DTrack2.receive d = Done (false, DTrack2.set_sdk d sdk').
Proof. intros V E. unfold DTrack2.receive. by rewrite V, E. Qed.

Lemma DTrack2_receive_success (T : SDK.Transport) d sdk' :
  SDK.isLocalDataPortValid (DTrack2.sdk d) = true ->
  SDK.receive (DTrack2.sdk d) = (true, sdk') ->
  DTrack2.receive d =
  Done (true,
        {| DTrack2.sdk := sdk';
           DTrack2.act_num_body := SDK.getNumBody sdk';
           DTrack2.act_body := map DTrack2.copy_body (SDK.act_body sdk');
           DTrack2.act_num_flystick := SDK.getNumFlyStick sdk';
           DTrack2.act_flystick :=
             map DTrack2.copy_flystick (SDK.act_flystick sdk');
           DTrack2.act_num_meatool := SDK.getNumMeaTool sdk';
           DTrack2.act_meatool :=
             map DTrack2.copy_meatool (SDK.act_meatool sdk');
           DTrack2.act_num_marker := SDK.getNumMarker sdk';
           DTrack2.act_marker := map DTrack2.copy_marker (SDK.act_marker sdk');
           DTrack2.act_num_hand := SDK.getNumHand sdk';
           DTrack2.act_hand := map DTrack2.copy_hand (SDK.act_hand sdk') |}).
Proof.
  intros V E. unfold DTrack2.receive. rewrite V, E. cbn [negb].
  unfold SDK.getNumBody, SDK.getBody, SDK.getNumFlyStick, SDK.getFlyStick,
    SDK.getNumMeaTool, SDK.getMeaTool, SDK.getNumHand, SDK.getHand,
    SDK.getNumMarker, SDK.getMarker.
  run_copy_loops. reflexivity.
Qed.

Lemma DTracklib_receive_failure (T : SDK.Transport) d sdk' :
  SDK.receive (DTracklib.sdk d) = (false, sdk') ->
  DTracklib.receive d = Done (false, DTracklib.set_sdk d sdk').
Proof. intros E. unfold DTracklib.receive. by rewrite E. Qed.

Lemma DTracklib_receive_success (T : SDK.Transport) d sdk' :
  SDK.receive (DTracklib.sdk d) = (true, sdk') ->
  DTracklib.receive d =
  Done (true,
        {| DTracklib.sdk := sdk';
           DTracklib.act_nbodycal := DTracklib.act_nbodycal d;
           DTracklib.act_nbody := SDK.getNumBody sdk';
           DTracklib.act_body := map DTracklib.copy_body (SDK.act_body sdk');
           DTracklib.act_nflystick := SDK.getNumFlyStick sdk';
           DTracklib.act_flystick :=
             map DTracklib.copy_flystick (SDK.act_flystick sdk');
           DTracklib.act_nmeatool := SDK.getNumMeaTool sdk';
           DTracklib.act_meatool :=
             map DTracklib.copy_meatool (SDK.act_meatool sdk');
           DTracklib.act_nmarker := SDK.getNumMarker sdk';
           DTracklib.act_marker :=
             map DTracklib.copy_marker (SDK.act_marker sdk');
           DTracklib.act_nglove := SDK.getNumHand sdk';
           DTracklib.act_glove := map DTracklib.copy_glove (SDK.act_hand sdk') |}).
Proof.
  intros E. unfold DTracklib.receive. rewrite E. cbn [negb].
  unfold SDK.getNumBody, SDK.getBody, SDK.getNumFlyStick, SDK.getFlyStick,
    SDK.getNumMeaTool, SDK.getMeaTool, SDK.getNumHand, SDK.getHand,
    SDK.getNumMarker, SDK.getMarker.
  run_copy_loops. reflexivity.
Qed.

(** [receive] always returns: no copy loop dereferences NULL or throws. *)
Lemma DTrack_receive_total (T : SDK.Transport) d :
  exists b d', DTrack.receive d = Done (b, d').
Proof.
  destruct (SDK.receive (DTrack.sdk d)) as [[] sdk'] eqn:E.
  - eexists _, _. by apply DTrack_receive_success.
  - eexists _, _. by apply DTrack_receive_failure.
Qed.

Lemma DTrack2_receive_total (T : SDK.Transport) d :
  exists b d', DTrack2.receive d = Done (b, d').
Proof.
  destruct (SDK.isLocalDataPortValid (DTrack2.sdk d)) eqn:V.
  - destruct (SDK.receive (DTrack2.sdk d)) as [[] sdk'] eqn:E.
    + eexists _, _. by apply DTrack2_receive_success.
    + eexists _, _. by apply DTrack2_receive_failure.
  - eexists _, _. by apply DTrack2_receive_unbound.
Qed.

Lemma DTracklib_receive_total (T : SDK.Transport) d :
  exists b d', DTracklib.receive d = Done (b, d').
Proof.
  destruct (SDK.receive (DTracklib.sdk d)) as [[] sdk'] eqn:E.
  - eexists _, _. by apply DTracklib_receive_success.
  - eexists _, _. by apply DTracklib_receive_failure.
Qed.

(** A successful [receive] leaves every count equal to the length of its
    collection. *)
Lemma DTrack_receive_consistent (T : SDK.Transport) d d' :
  DTrack.receive d = Done (true, d') -> DTrack_consistent d'.
Proof.
  destruct (SDK.receive (DTrack.sdk d)) as [[] sdk'] eqn:E.
  - rewrite (DTrack_receive_success _ _ _ E). intros [= <-].
    unfold DTrack_consistent. cbn. by rewrite !length_map.
  - by rewrite (DTrack_receive_failure _ _ _ E).
Qed.

Lemma DTrack2_receive_consistent (T : SDK.Transport) d d' :
  DTrack2.receive d = Done (true, d') -> DTrack2_consistent d'.
Proof.
  destruct (SDK.isLocalDataPortValid (DTrack2.sdk d)) eqn:V;
    [|by rewrite (DTrack2_receive_unbound _ _ V)].
  destruct (SDK.receive (DTrack2.sdk d)) as [[] sdk'] eqn:E.
  - rewrite (DTrack2_receive_success _ _ _ V E). intros [= <-].
    unfold DTrack2_consistent. cbn. by rewrite !length_map.
  - by rewrite (DTrack2_receive_failure _ _ _ V E).
Qed.

Lemma DTracklib_receive_consistent (T : SDK.Transport) d b d' :
  DTracklib_consistent d ->
  DTracklib.receive d = Done (b, d') -> DTracklib_consistent d'.
Proof.
  intros C. destruct (SDK.receive (DTracklib.sdk d)) as [[] sdk'] eqn:E.
  - rewrite (DTracklib_receive_success _ _ _ E). intros [= <- <-].
    unfold DTracklib_consistent. cbn. by rewrite !length_map.
  - rewrite (DTracklib_receive_failure _ _ _ E). by intros [= <- <-].
Qed.

Lemma DTracklib_new_consistent sdk0 : DTracklib_consistent (DTracklib.new sdk0).
Proof. by repeat split. Qed.

(** ** A failed receive keeps the last good frame *)

(** C1. For each of the three facades (DTrack, DTrack2, DTracklib): when
    [receive] returns false, every stored count field and every stored
    entity collection (bodies, flysticks, measurement tools, hands,
    markers) is exactly what it was before the call. *)
Theorem receive_false_keeps_stored_frame (T : SDK.Transport) :
  (forall d d', DTrack.receive d = Done (false, d') -> DTrack_same_frame d d')
  /\ (forall d d',
        DTrack2.receive d = Done (false, d') -> DTrack2_same_frame d d')
  /\ (forall d d',
        DTracklib.receive d = Done (false, d') -> DTracklib_same_frame d d').
Proof.
  split; [|split]; intros d d'.
  - destruct (SDK.receive (DTrack.sdk d)) as [[] sdk'] eqn:E.
    + by rewrite (DTrack_receive_success _ _ _ E).
    + rewrite (DTrack_receive_failure _ _ _ E). intros [= <-].
      by repeat split.
  - destruct (SDK.isLocalDataPortValid (DTrack2.sdk d)) eqn:V.
    + destruct (SDK.receive (DTrack2.sdk d)) as [[] sdk'] eqn:E.
      * by rewrite (DTrack2_receive_success _ _ _ V E).
      * rewrite (DTrack2_receive_failure _ _ _ V E). intros [= <-].
        by repeat split.
    + rewrite (DTrack2_receive_unbound _ _ V). intros [= <-].
      by repeat split.
  - destruct (SDK.receive (DTracklib.sdk d)) as [[] sdk'] eqn:E.
    + by rewrite (DTracklib_receive_success _ _ _ E).
    + rewrite (DTracklib_receive_failure _ _ _ E). intros [= <-].
      by repeat split.
Qed.

Lemma receive_false_keeps_stored_frame_witness :
  (@DTrack.receive Scenario.silent Scenario.dtrack_frame
   = Done (false, DTrack.set_sdk Scenario.dtrack_frame Scenario.sdk_timeout)
   /\ DTrack_same_frame Scenario.dtrack_frame
        (DTrack.set_sdk Scenario.dtrack_frame Scenario.sdk_timeout))
  /\ (@DTrack2.receive Scenario.silent Scenario.dtrack2_frame
      = Done (false, DTrack2.set_sdk Scenario.dtrack2_frame Scenario.sdk_timeout)
      /\ DTrack2_same_frame Scenario.dtrack2_frame
           (DTrack2.set_sdk Scenario.dtrack2_frame Scenario.sdk_timeout))
  /\ (@DTracklib.receive Scenario.silent Scenario.dtracklib_frame
      = Done (false,
              DTracklib.set_sdk Scenario.dtracklib_frame Scenario.sdk_timeout)
      /\ DTracklib_same_frame Scenario.dtracklib_frame
           (DTracklib.set_sdk Scenario.dtracklib_frame Scenario.sdk_timeout)).
Proof.
  destruct (receive_false_keeps_stored_frame Scenario.silent) as [H1 [H2 H3]].
  split; [|split]; (split; [reflexivity|]).
  - apply H1. reflexivity.
  - apply H2. reflexivity.
  - apply H3. reflexivity.
Defined.

(** ** A successful receive copies the SDK frame *)


Lemma array_copy_nth {A B} (n : Z) (f : A -> B) zero src (j : nat) d :
  Z.of_nat j < n -> nth j (array_copy n f zero src) d = f (nth j src zero).
Proof.
  intros Hj. unfold array_copy.
  rewrite (nth_indep _ d (f (nth 0%nat src zero)))
    by (rewrite length_map, length_seq; lia).
  rewrite (map_nth (fun k => f (nth k src zero)) _ 0%nat).
  rewrite seq_nth by lia. done.
Qed.

Lemma array_copy_floats (n : Z) src :
  floats_of n (array_copy n to_float double_zero src) src.
Proof. intros j Hj. by apply array_copy_nth. Qed.

Lemma array_copy_ints (n : Z) src : ints_of n (array_copy n id 0 src) src.
Proof. intros j Hj. by rewrite array_copy_nth. Qed.

Lemma copy_body_carries s : body_carries (DTrack.copy_body s) s.
Proof. repeat split; cbn; apply array_copy_floats. Qed.

Lemma copy_flystick_carries s : flystick_carries (DTrack.copy_flystick s) s.
Proof.
  repeat split; cbn; first [apply array_copy_floats | apply array_copy_ints].
Qed.

Lemma copy_meatool_carries s : meatool_carries (DTrack.copy_meatool s) s.
Proof.
  repeat split; cbn; first [apply array_copy_floats | apply array_copy_ints].
Qed.

Lemma copy_finger_carries s : finger_carries (DTrack.copy_finger s) s.
Proof. repeat split; cbn; apply array_copy_floats. Qed.

Lemma copy_hand_carries s : hand_carries (DTrack.copy_hand s) s.
Proof.
  unfold hand_carries. cbn.
  repeat (split; [first [reflexivity | apply array_copy_floats]|]).
  intros k Hk. rewrite array_copy_nth by done. apply copy_finger_carries.
Qed.

Lemma copy_marker_carries s : marker_carries (DTrack.copy_marker s) s.
Proof. repeat split; cbn; apply array_copy_floats. Qed.

Lemma collection_carries_map {R S} (carries : R -> S -> Prop) (conv : S -> R)
    (src : list S) :
  (forall s, carries (conv s) s) ->
  collection_carries carries (Z.of_nat (length src)) (map conv src)
                     (fun i => SDK.get_elem src i).
Proof.
  intros Hc. split; [by rewrite length_map|].
  intros i Hi. destruct (get_elem_in_range src i Hi) as [s [Hs Hg]].
  exists (conv s), s. split; [|by split].
  change (map conv src) with (conv <$> src). by rewrite list_lookup_fmap, Hs.
Qed.

(** C5. Whenever the receive of the SDK succeeds, DTrack::receive returns
    true, and afterwards the stored body collection has exactly
    getNumBody() entries, the i-th of which carries the id, the quality, the
    3 location components and the 9 rotation components of the i-th SDK
    body, converted to float, in the original order; likewise for the
    flysticks, measurement tools, hands and markers. *)
Theorem receive_success_copies_frame (T : SDK.Transport) d sdk' :
  SDK.receive (DTrack.sdk d) = (true, sdk') ->
  exists d',
    DTrack.receive d = Done (true, d')
    /\ DTrack.get_num_body d' = SDK.getNumBody sdk'
    /\ collection_carries body_carries (SDK.getNumBody sdk')
         (DTrack.act_body d') (SDK.getBody sdk')
    /\ DTrack.get_num_flystick d' = SDK.getNumFlyStick sdk'
    /\ collection_carries flystick_carries (SDK.getNumFlyStick sdk')
         (DTrack.act_flystick d') (SDK.getFlyStick sdk')
    /\ DTrack.get_num_meatool d' = SDK.getNumMeaTool sdk'
    /\ collection_carries meatool_carries (SDK.getNumMeaTool sdk')
         (DTrack.act_meatool d') (SDK.getMeaTool sdk')
    /\ DTrack.get_num_hand d' = SDK.getNumHand sdk'
    /\ collection_carries hand_carries (SDK.getNumHand sdk')
         (DTrack.act_hand d') (SDK.getHand sdk')
    /\ DTrack.get_num_marker d' = SDK.getNumMarker sdk'
    /\ collection_carries marker_carries (SDK.getNumMarker sdk')
         (DTrack.act_marker d') (SDK.getMarker sdk').
Proof.
  intros E. eexists. split; [by apply DTrack_receive_success|].
  cbn.
  repeat (split; [first
    [ reflexivity
    | apply (collection_carries_map body_carries), copy_body_carries
    | apply (collection_carries_map flystick_carries), copy_flystick_carries
    | apply (collection_carries_map meatool_carries), copy_meatool_carries
    | apply (collection_carries_map hand_carries), copy_hand_carries ]|]).
  apply (collection_carries_map marker_carries), copy_marker_carries.
Qed.

Lemma receive_success_copies_frame_witness :
  @SDK.receive Scenario.streaming (DTrack.sdk Scenario.dtrack_new)
  = (true, Scenario.sdk_frame)
  /\ exists d',
    @DTrack.receive Scenario.streaming Scenario.dtrack_new = Done (true, d')
    /\ DTrack.get_num_body d' = SDK.getNumBody Scenario.sdk_frame
    /\ collection_carries body_carries (SDK.getNumBody Scenario.sdk_frame)
         (DTrack.act_body d') (SDK.getBody Scenario.sdk_frame)
    /\ DTrack.get_num_flystick d' = SDK.getNumFlyStick Scenario.sdk_frame
    /\ collection_carries flystick_carries
         (SDK.getNumFlyStick Scenario.sdk_frame)
         (DTrack.act_flystick d') (SDK.getFlyStick Scenario.sdk_frame)
    /\ DTrack.get_num_meatool d' = SDK.getNumMeaTool Scenario.sdk_frame
    /\ collection_carries meatool_carries
         (SDK.getNumMeaTool Scenario.sdk_frame)
         (DTrack.act_meatool d') (SDK.getMeaTool Scenario.sdk_frame)
    /\ DTrack.get_num_hand d' = SDK.getNumHand Scenario.sdk_frame
    /\ collection_carries hand_carries (SDK.getNumHand Scenario.sdk_frame)
         (DTrack.act_hand d') (SDK.getHand Scenario.sdk_frame)
    /\ DTrack.get_num_marker d' = SDK.getNumMarker Scenario.sdk_frame
    /\ collection_carries marker_carries
         (SDK.getNumMarker Scenario.sdk_frame)
         (DTrack.act_marker d') (SDK.getMarker Scenario.sdk_frame).
Proof.
  split; [reflexivity|].
  apply (receive_success_copies_frame Scenario.streaming). reflexivity.
Defined.

(** ** Counts and array capacities *)





(** The bound is the SDK's: the facade stores the counts as delivered, so a
    flystick of 20 buttons would be stored with num_button = 20 next to an
    array of 16 buttons. *)
Lemma receive_does_not_clamp_counts :
  exists d' r,
    @DTrack.receive Scenario.oversized Scenario.dtrack_new = Done (true, d')
    /\ DTrack.act_flystick d' = [r]
    /\ DTrack.f_num_button r = 20
    /\ length (DTrack.f_button r) = 16%nat.
Proof. eexists _, _. split; [reflexivity|]. by repeat split. Qed.

(** ** The number of calibrated bodies of DTracklib *)

(** C9. In every reachable state of a DTracklib object get_nbodycal()
    returns -1: the constructor sets act_nbodycal to -1 and neither
    [receive] (successful or not) nor [send] assigns it. *)
Theorem get_nbodycal_always_minus_one d :
  DTracklib_reachable d -> DTracklib.get_nbodycal d = -1.
Proof.
  unfold DTracklib.get_nbodycal.
  induction 1 as [sdk0 | T d b d' _ IH Hr | T d cmd val b d' _ IH Hs].
  - reflexivity.
  - destruct (SDK.receive (DTracklib.sdk d)) as [[] sdk'] eqn:E.
    + rewrite (DTracklib_receive_success _ _ _ E) in Hr.
      injection Hr as _ <-. exact IH.
    + rewrite (DTracklib_receive_failure _ _ _ E) in Hr.
      injection Hr as _ <-. exact IH.
  - unfold DTracklib.send in Hs.
    destruct (negb _); [by injection Hs as _ <-|].
    destruct (DTracklib.command_text cmd val); [|by injection Hs as _ <-].
    destruct (SDK.sendCommand _ _). by injection Hs as _ <-.
Qed.

Lemma get_nbodycal_always_minus_one_witness :
  DTracklib_reachable Scenario.dtracklib_frame
  /\ DTracklib.get_nbodycal Scenario.dtracklib_frame = -1.
Proof.
  assert (Hr : DTracklib_reachable Scenario.dtracklib_frame).
  { apply (reach_receive Scenario.streaming
             (DTracklib.new Scenario.sdk_idle) true).
    - apply reach_new.
    - reflexivity. }
  split; [exact Hr|]. exact (get_nbodycal_always_minus_one _ Hr).
Defined.

(** ** Remote commands of DTracklib *)

Lemma command_text_recognized cmd val :
  recognized_command cmd -> exists c, DTracklib.command_text cmd val = Some c.
Proof.
  intros [-> | [-> | [-> | [-> | [-> | ->]]]]]; eexists; reflexivity.
Qed.

Lemma command_text_unrecognized cmd val :
  ~ recognized_command cmd -> DTracklib.command_text cmd val = None.
Proof.
  intros Hn. unfold DTracklib.command_text, recognized_command in *.
  repeat match goal with
         | |- context [?a =? ?b] => destruct (Z.eqb_spec a b); [tauto|]
         end.
  reflexivity.
Qed.

Lemma send_unbound (T : SDK.Transport) cmd val d :
  SDK.isLocalDataPortValid (DTracklib.sdk d) = false ->
  DTracklib.send cmd val d = (false, d).
Proof. intros V. unfold DTracklib.send. by rewrite V. Qed.

Lemma send_bound (T : SDK.Transport) cmd val d :
  SDK.isLocalDataPortValid (DTracklib.sdk d) = true ->
  DTracklib.send cmd val d =
  match DTracklib.command_text cmd val with
  | None => (false, d)
  | Some c =>
      (true, DTracklib.set_sdk d (snd (SDK.sendCommand c (DTracklib.sdk d))))
  end.
Proof.
  intros V. unfold DTracklib.send. rewrite V. cbn [negb].
  destruct (DTracklib.command_text cmd val) as [c|]; [|done].
  by destruct (SDK.sendCommand c (DTracklib.sdk d)).
Qed.

(** C10. DTracklib::send(cmd, val) returns true whenever the local data
    port is valid and cmd is one of the six recognized command codes,
    whatever sendCommand of the SDK returns (its result is dropped; the
    command text is handed to it once); for an unrecognized command code
    it returns false and nothing is sent; for an invalid data port it
    returns false. *)
Theorem send_returns (T : SDK.Transport) cmd val d :
  (SDK.isLocalDataPortValid (DTracklib.sdk d) = true ->
   recognized_command cmd ->
   exists c,
     DTracklib.command_text cmd val = Some c
     /\ DTracklib.send cmd val d
        = (true,
           DTracklib.set_sdk d (snd (SDK.sendCommand c (DTracklib.sdk d)))))
  /\ (~ recognized_command cmd -> DTracklib.send cmd val d = (false, d))
  /\ (SDK.isLocalDataPortValid (DTracklib.sdk d) = false ->
      DTracklib.send cmd val d = (false, d)).
Proof.
  split; [|split].
  - intros V Hc. destruct (command_text_recognized cmd val Hc) as [c Hs].
    exists c. split; [done|]. by rewrite (send_bound _ _ _ _ V), Hs.
  - intros Hn. destruct (SDK.isLocalDataPortValid (DTracklib.sdk d)) eqn:V.
    + by rewrite (send_bound _ _ _ _ V), (command_text_unrecognized _ _ Hn).
    + by apply send_unbound.
  - apply send_unbound.
Qed.

Lemma send_returns_witness :
  (SDK.isLocalDataPortValid (DTracklib.sdk Scenario.dtracklib_frame) = true
   /\ recognized_command DTracklib.DTRACKLIB_CMD_SEND_N_DATA
   /\ fst (@SDK.sendCommand Scenario.streaming "dtrack 33 5"%string
             (DTracklib.sdk Scenario.dtracklib_frame)) = false
   /\ exists c,
       DTracklib.command_text DTracklib.DTRACKLIB_CMD_SEND_N_DATA 5 = Some c
       /\ @DTracklib.send Scenario.streaming
            DTracklib.DTRACKLIB_CMD_SEND_N_DATA 5 Scenario.dtracklib_frame
          = (true,
             DTracklib.set_sdk Scenario.dtracklib_frame
               (snd (@SDK.sendCommand Scenario.streaming c
                       (DTracklib.sdk Scenario.dtracklib_frame)))))
  /\ (~ recognized_command 7
      /\ @DTracklib.send Scenario.streaming 7 0 Scenario.dtracklib_frame
         = (false, Scenario.dtracklib_frame))
  /\ (SDK.isLocalDataPortValid
        (DTracklib.sdk (DTracklib.new Scenario.sdk_unbound)) = false
      /\ @DTracklib.send Scenario.streaming DTracklib.DTRACKLIB_CMD_SEND_DATA 0
           (DTracklib.new Scenario.sdk_unbound)
         = (false, DTracklib.new Scenario.sdk_unbound)).
Proof.
  assert (Hrec : recognized_command DTracklib.DTRACKLIB_CMD_SEND_N_DATA)
    by (unfold recognized_command; tauto).
  assert (Hnot : ~ recognized_command 7)
    by (unfold recognized_command; intros [H|[H|[H|[H|[H|H]]]]]; discriminate H).
  split; [|split].
  - split; [reflexivity|]. split; [exact Hrec|]. split; [reflexivity|].
    exact (proj1 (send_returns Scenario.streaming
                    DTracklib.DTRACKLIB_CMD_SEND_N_DATA 5
                    Scenario.dtracklib_frame) eq_refl Hrec).
  - split; [exact Hnot|].
    exact (proj1 (proj2 (send_returns Scenario.streaming 7 0
                           Scenario.dtracklib_frame)) Hnot).
  - split; [reflexivity|].
    exact (proj2 (proj2 (send_returns Scenario.streaming
                           DTracklib.DTRACKLIB_CMD_SEND_DATA 0
                           (DTracklib.new Scenario.sdk_unbound))) eq_refl).
Defined.

(** ** The command exchange of DTrack2 *)

Lemma string_append_assoc (a b c : string) :
  ((a ++ b) ++ c)%string = (a ++ (b ++ c))%string.
Proof. induction a as [|x a IH]; cbn; [done | by rewrite IH]. Qed.

Lemma set_parameter_command (T : SDK.Transport) category name value d :
  DTrack2.set_parameter category name value d =
  DTrack2.send_command
    ("set " ++ category ++ " " ++ name ++ " " ++ value)%string d.
Proof.
  unfold DTrack2.set_parameter, DTrack2.set_parameter1.
  by rewrite !string_append_assoc.
Qed.

(** C6. For all strings category, name and value,
    DTrack2::set_parameter(category, name, value) hands exactly the string
    "dtrack2 set " + category + " " + name + " " + value to the command
    exchange of the SDK, and returns true if and only if the exchange
    reports the result 1. *)
Theorem set_parameter_exchange (T : SDK.Transport) category name value d :
  let command :=
    ("dtrack2 set " ++ category ++ " " ++ name ++ " " ++ value)%string in
  let exchange := SDK.sendDTrack2Command command (DTrack2.sdk d) in
  DTrack2.set_parameter category name value d
  = (1 =? fst exchange, DTrack2.set_sdk d (snd exchange))
  /\ (fst (DTrack2.set_parameter category name value d) = true
      <-> fst exchange = 1).
Proof.
  cbn zeta.
  assert (E : DTrack2.set_parameter category name value d =
              (1 =? fst (SDK.sendDTrack2Command
                           ("dtrack2 set " ++ category ++ " " ++ name
                              ++ " " ++ value)%string (DTrack2.sdk d)),
               DTrack2.set_sdk d
                 (snd (SDK.sendDTrack2Command
                         ("dtrack2 set " ++ category ++ " " ++ name
                            ++ " " ++ value)%string (DTrack2.sdk d))))).
  { rewrite set_parameter_command. unfold DTrack2.send_command. cbn.
    by destruct (SDK.sendDTrack2Command _ _). }
  split; [exact E|]. rewrite E. cbn [fst].
  rewrite Z.eqb_eq. split; intros; congruence.
Qed.

Lemma set_parameter_exchange_witness :
  fst (@SDK.sendDTrack2Command Scenario.streaming "dtrack2 set cam exp 50"
         (DTrack2.sdk Scenario.dtrack2_new)) = 1
  /\ fst (@DTrack2.set_parameter Scenario.streaming "cam" "exp" "50"
            Scenario.dtrack2_new) = true.
Proof.
  split; [reflexivity|].
  apply (proj2 (set_parameter_exchange Scenario.streaming "cam" "exp" "50"
                  Scenario.dtrack2_new)).
  reflexivity.
Defined.

(** The scenario of the specification: the command "dtrack2 set cam exp 50"
    answered by "dtrack2 ok" (result 1) makes set_parameter succeed, with no
    error recorded; any other text would have been refused by this
    controller. *)
Lemma set_parameter_cam_exp_50 :
  @DTrack2.set_parameter Scenario.streaming "cam" "exp" "50"
    Scenario.dtrack2_new
  = (true, Scenario.dtrack2_new)
  /\ SDK.getLastDTrackError (DTrack2.sdk Scenario.dtrack2_new) = 0
  /\ fst (@DTrack2.set_parameter Scenario.streaming "cam" "exp" "51"
            Scenario.dtrack2_new) = false.
Proof. by repeat split. Qed.

(** C7. DTrack2::get_lasterror(int& errorcode) writes the last device-side
    error code into errorcode and returns true if and only if that code is
    nonzero; get_lasterror(std::string& errorstring) returns false and
    leaves errorstring as it was when the code is 0, and writes the
    description and returns true when the code is nonzero. This holds in
    every state of the object, so also after a command exchange. *)
Theorem get_lasterror_reports (d : DTrack2.DTrack2) errorcode errorstring :
  let code := SDK.getLastDTrackError (DTrack2.sdk d) in
  snd (DTrack2.get_lasterror d errorcode) = code
  /\ (fst (DTrack2.get_lasterror d errorcode) = true <-> code <> 0)
  /\ (code = 0 ->
      DTrack2.get_lasterror_string d errorstring = (false, errorstring))
  /\ (code <> 0 ->
      DTrack2.get_lasterror_string d errorstring
      = (true, SDK.getLastDTrackErrorDescription (DTrack2.sdk d))).
Proof.
  cbn zeta. unfold DTrack2.get_lasterror, DTrack2.get_lasterror_string.
  cbn [fst snd].
  destruct (Z.eqb_spec 0 (SDK.getLastDTrackError (DTrack2.sdk d))) as [E|E];
    cbn [negb]; repeat split; try done; intros; congruence.
Qed.

Lemma get_lasterror_reports_witness :
  (SDK.getLastDTrackError (DTrack2.sdk Scenario.dtrack2_new) = 0
   /\ DTrack2.get_lasterror_string Scenario.dtrack2_new "unchanged"
      = (false, "unchanged"%string))
  /\ (SDK.getLastDTrackError (DTrack2.sdk Scenario.dtrack2_refused) <> 0
      /\ DTrack2.get_lasterror Scenario.dtrack2_refused 0 = (true, 3)
      /\ DTrack2.get_lasterror_string Scenario.dtrack2_refused "unchanged"
         = (true, "parameter unknown"%string)).
Proof.
  split.
  - split; [reflexivity|].
    exact (proj1 (proj2 (proj2
             (get_lasterror_reports Scenario.dtrack2_new 0 "unchanged")))
             eq_refl).
  - assert (Hn : SDK.getLastDTrackError (DTrack2.sdk Scenario.dtrack2_refused)
                 <> 0) by discriminate.
    split; [exact Hn|]. split; [reflexivity|].
    exact (proj2 (proj2 (proj2
             (get_lasterror_reports Scenario.dtrack2_refused 0 "unchanged")))
             Hn).
Defined.

(** ** The accessors *)

Ltac decide_guards :=
  rewrite ?Z.geb_leb;
  repeat match goal with
         | |- context [?a <? ?b] => destruct (Z.ltb_spec a b); try lia
         | |- context [?a <=? ?b] => destruct (Z.leb_spec a b); try lia
         end;
  cbn [andb orb].

Lemma float_minus_one : float_of_int (-1) = S754_finite true 8388608 (-23).
Proof. reflexivity. Qed.

Lemma DTrack2_get_body_past_count d i :
  DTrack2.act_num_body d <= i ->
  DTrack2.get_body d i
  = Done {| DTrack2.b_id := i; DTrack2.b_quality := float_of_int (-1);
            DTrack2.b_loc := replicate 3 float_zero;
            DTrack2.b_rot := replicate 9 float_zero |}.
Proof. intros Hi. unfold DTrack2.get_body. decide_guards. reflexivity. Qed.

(** C4. For every integer i greater than or equal to the current body
    count, DTrack::get_body(i) returns a dummy body record with quality -1
    (the float -1.0), id equal to i, and zeroed location and rotation. *)
Theorem get_body_beyond_count d i :
  DTrack.get_num_body d <= i ->
  DTrack.get_body d i
  = Done {| DTrack.b_id := i;
            DTrack.b_quality := S754_finite true 8388608 (-23);
            DTrack.b_loc := replicate 3 float_zero;
            DTrack.b_rot := replicate 9 float_zero |}.
Proof.
  unfold DTrack.get_num_body, DTrack.get_body. intros Hi.
  decide_guards. reflexivity.
Qed.

Lemma get_body_beyond_count_witness :
  DTrack.get_num_body Scenario.dtrack_frame <= 1
  /\ DTrack.get_body Scenario.dtrack_frame 1
     = Done {| DTrack.b_id := 1;
               DTrack.b_quality := S754_finite true 8388608 (-23);
               DTrack.b_loc := replicate 3 float_zero;
               DTrack.b_rot := replicate 9 float_zero |}.
Proof.
  assert (H : DTrack.get_num_body Scenario.dtrack_frame <= 1)
    by (vm_compute; discriminate).
  split; [exact H|]. exact (get_body_beyond_count Scenario.dtrack_frame 1 H).
Defined.

Lemma DTrack_get_body_negative d i :
  i < 0 -> 0 <= DTrack.act_num_body d ->
  DTrack.get_body d i = Fault OutOfBoundsRead.
Proof.
  intros Hi Hn. unfold DTrack.get_body. decide_guards.
  by apply vector_index_negative.
Qed.

Lemma DTrack2_get_body_negative d i :
  i < 0 -> 0 <= DTrack2.act_num_body d ->
  DTrack2.get_body d i = Fault OutOfBoundsRead.
Proof.
  intros Hi Hn. unfold DTrack2.get_body. decide_guards.
  by apply vector_index_negative.
Qed.

(** C3. DTrack::get_body and DTrack2::get_body are not total on negative
    arguments: after a frame with one body was received, get_body(-1)
    passes the guard [id < act_num_body] and reads act_body[-1], outside
    the stored vector. *)
Theorem get_body_negative_index_reads_outside :
  DTrack.get_body Scenario.dtrack_frame (-1) = Fault OutOfBoundsRead
  /\ DTrack2.get_body Scenario.dtrack2_frame (-1) = Fault OutOfBoundsRead.
Proof. split; reflexivity. Qed.

(** A fresh DTrack object need not satisfy [DTrack_consistent]: with an
    indeterminate count of 3 and no stored body, get_body(0) passes the
    guard and reads outside the empty vector. *)
Lemma fresh_object_count_is_indeterminate :
  ~ DTrack_consistent (DTrack.new Scenario.sdk_idle 3 0 0 0 0)
  /\ DTrack.get_body (DTrack.new Scenario.sdk_idle 3 0 0 0 0) 0
     = Fault OutOfBoundsRead.
Proof. split; [by intros [H _] | reflexivity]. Qed.

(** C2, counterexample. The default record of get_marker has the id 0, not
    the requested index, and the default records of DTracklib are all zero,
    with quality 0: after frame 10 (one marker, one body) the index 5 is
    outside both collections, DTrack::get_marker(5) hands out the id 0, and
    DTracklib::get_body(5) hands out the id 0 and the quality 0. *)
Lemma default_record_is_not_uniform :
  ~ (0 <= 5 < DTrack.get_num_marker Scenario.dtrack_frame)
  /\ (exists r, DTrack.get_marker Scenario.dtrack_frame 5 = Done r
                /\ DTrack.m_id r = 0 /\ DTrack.m_id r <> 5)
  /\ ~ (0 <= 5 < DTracklib.get_nbody Scenario.dtracklib_frame)
  /\ (exists r, DTracklib.get_body Scenario.dtracklib_frame 5 = Done r
                /\ DTracklib.b_id r <> 5
                /\ DTracklib.b_quality r = float_zero
                /\ DTracklib.b_quality r <> float_of_int (-1)).
Proof.
  split; [vm_compute; intros [_ H]; discriminate H|].
  split; [eexists; split; [reflexivity|]; by split|].
  split; [vm_compute; intros [_ H]; discriminate H|].
  eexists. split; [reflexivity|]. by repeat split.
Qed.

Ltac in_range_access :=
  match goal with
  | |- returns_ith _ ?v ?i =>
      let r := fresh "r" in
      let Hl := fresh "Hl" in
      let Hv := fresh "Hv" in
      destruct (vector_index_in_range v i) as [r [Hl Hv]]; [lia|];
      exists r; split; [exact Hl|]; cbv beta; decide_guards; exact Hv
  end.

Ltac default_access :=
  unfold dummy_with; cbv beta; decide_guards;
  first [reflexivity | eexists; split; [reflexivity|]; by split].

(** C2, amended. For every facade object whose count fields are the lengths
    of its stored collections (as [receive] leaves them) and every integer
    index i: every accessor returns the i-th stored element when
    0 <= i < count. Outside that range, get_body, get_flystick, get_meatool
    and get_hand of DTrack and DTrack2 return, for i >= count, a default
    record with quality -1 and id i; get_marker of DTrack and DTrack2
    returns, for i < 0 or i >= count, a default record with quality -1 and
    id 0; and every accessor of DTracklib returns, for i < 0 or i >= count,
    the all-zero record (quality 0, id 0). *)
Theorem accessors_in_and_out_of_range :
  (forall d i,
     DTrack_consistent d ->
     (0 <= i < DTrack.get_num_body d ->
      returns_ith (DTrack.get_body d) (DTrack.act_body d) i)
     /\ (DTrack.get_num_body d <= i ->
         dummy_with DTrack.b_id DTrack.b_quality i (DTrack.get_body d i))
     /\ (0 <= i < DTrack.get_num_flystick d ->
         returns_ith (DTrack.get_flystick d) (DTrack.act_flystick d) i)
     /\ (DTrack.get_num_flystick d <= i ->
         dummy_with DTrack.f_id DTrack.f_quality i (DTrack.get_flystick d i))
     /\ (0 <= i < DTrack.get_num_meatool d ->
         returns_ith (DTrack.get_meatool d) (DTrack.act_meatool d) i)
     /\ (DTrack.get_num_meatool d <= i ->
         dummy_with DTrack.t_id DTrack.t_quality i (DTrack.get_meatool d i))
     /\ (0 <= i < DTrack.get_num_hand d ->
         returns_ith (DTrack.get_hand d) (DTrack.act_hand d) i)
     /\ (DTrack.get_num_hand d <= i ->
         dummy_with DTrack.h_id DTrack.h_quality i (DTrack.get_hand d i))
     /\ (0 <= i < DTrack.get_num_marker d ->
         returns_ith (DTrack.get_marker d) (DTrack.act_marker d) i)
     /\ (~ (0 <= i < DTrack.get_num_marker d) ->
         dummy_with DTrack.m_id DTrack.m_quality 0 (DTrack.get_marker d i)))
  /\ (forall d i,
     DTrack2_consistent d ->
     (0 <= i < DTrack2.get_num_body d ->
      returns_ith (DTrack2.get_body d) (DTrack2.act_body d) i)
     /\ (DTrack2.get_num_body d <= i ->
         dummy_with DTrack2.b_id DTrack2.b_quality i (DTrack2.get_body d i))
     /\ (0 <= i < DTrack2.get_num_flystick d ->
         returns_ith (DTrack2.get_flystick d) (DTrack2.act_flystick d) i)
     /\ (DTrack2.get_num_flystick d <= i ->
         dummy_with DTrack2.f_id DTrack2.f_quality i (DTrack2.get_flystick d i))
     /\ (0 <= i < DTrack2.get_num_meatool d ->
         returns_ith (DTrack2.get_meatool d) (DTrack2.act_meatool d) i)
     /\ (DTrack2.get_num_meatool d <= i ->
         dummy_with DTrack2.t_id DTrack2.t_quality i (DTrack2.get_meatool d i))
     /\ (0 <= i < DTrack2.get_num_hand d ->
         returns_ith (DTrack2.get_hand d) (DTrack2.act_hand d) i)
     /\ (DTrack2.get_num_hand d <= i ->
         dummy_with DTrack2.h_id DTrack2.h_quality i (DTrack2.get_hand d i))
     /\ (0 <= i < DTrack2.get_num_marker d ->
         returns_ith (DTrack2.get_marker d) (DTrack2.act_marker d) i)
     /\ (~ (0 <= i < DTrack2.get_num_marker d) ->
         dummy_with DTrack2.m_id DTrack2.m_quality 0 (DTrack2.get_marker d i)))
  /\ (forall d i,
     DTracklib_consistent d ->
     (0 <= i < DTracklib.get_nbody d ->
      returns_ith (DTracklib.get_body d) (DTracklib.act_body d) i)
     /\ (~ (0 <= i < DTracklib.get_nbody d) ->
         DTracklib.get_body d i = Done DTracklib.zero_body)
     /\ (0 <= i < DTracklib.get_nflystick d ->
         returns_ith (DTracklib.get_flystick d) (DTracklib.act_flystick d) i)
     /\ (~ (0 <= i < DTracklib.get_nflystick d) ->
         DTracklib.get_flystick d i = Done DTracklib.zero_flystick)
     /\ (0 <= i < DTracklib.get_nmeatool d ->
         returns_ith (DTracklib.get_meatool d) (DTracklib.act_meatool d) i)
     /\ (~ (0 <= i < DTracklib.get_nmeatool d) ->
         DTracklib.get_meatool d i = Done DTracklib.zero_meatool)
     /\ (0 <= i < DTracklib.get_nglove d ->
         returns_ith (DTracklib.get_glove d) (DTracklib.act_glove d) i)
     /\ (~ (0 <= i < DTracklib.get_nglove d) ->
         DTracklib.get_glove d i = Done DTracklib.zero_glove)
     /\ (0 <= i < DTracklib.get_nmarker d ->
         returns_ith (DTracklib.get_marker d) (DTracklib.act_marker d) i)
     /\ (~ (0 <= i < DTracklib.get_nmarker d) ->
         DTracklib.get_marker d i = Done DTracklib.zero_marker)).
Proof.
  split; [|split]; intros d i.
  - unfold DTrack.get_num_body, DTrack.get_num_flystick, DTrack.get_num_meatool,
        DTrack.get_num_hand, DTrack.get_num_marker.
      intros (Cb & Cf & Ct & Ch & Cm).
      unfold DTrack.get_body, DTrack.get_flystick, DTrack.get_meatool,
        DTrack.get_hand, DTrack.get_marker.
      repeat split; intros Hi; first [in_range_access | default_access].
  - unfold DTrack2.get_num_body, DTrack2.get_num_flystick,
        DTrack2.get_num_meatool, DTrack2.get_num_hand, DTrack2.get_num_marker.
      intros (Cb & Cf & Ct & Ch & Cm).
      unfold DTrack2.get_body, DTrack2.get_flystick, DTrack2.get_meatool,
        DTrack2.get_hand, DTrack2.get_marker.
      repeat split; intros Hi; first [in_range_access | default_access].
  - unfold DTracklib.get_nbody, DTracklib.get_nflystick, DTracklib.get_nmeatool,
        DTracklib.get_nglove, DTracklib.get_nmarker.
      intros (Cb & Cf & Ct & Ch & Cm).
      unfold DTracklib.get_body, DTracklib.get_flystick, DTracklib.get_meatool,
        DTracklib.get_glove, DTracklib.get_marker.
      repeat split; intros Hi; first [in_range_access | default_access].
Qed.

Ltac by_evaluation :=
  vm_compute;
  first [ reflexivity
        | discriminate
        | let H := fresh in intros [_ H]; discriminate H
        | split; [discriminate | reflexivity]
        | repeat split; reflexivity ].

Lemma accessors_in_and_out_of_range_witness :
  (DTrack_consistent Scenario.dtrack_frame
   /\ returns_ith (DTrack.get_body Scenario.dtrack_frame)
        (DTrack.act_body Scenario.dtrack_frame) 0
   /\ returns_ith (DTrack.get_flystick Scenario.dtrack_frame)
        (DTrack.act_flystick Scenario.dtrack_frame) 0
   /\ returns_ith (DTrack.get_meatool Scenario.dtrack_frame)
        (DTrack.act_meatool Scenario.dtrack_frame) 0
   /\ returns_ith (DTrack.get_hand Scenario.dtrack_frame)
        (DTrack.act_hand Scenario.dtrack_frame) 0
   /\ returns_ith (DTrack.get_marker Scenario.dtrack_frame)
        (DTrack.act_marker Scenario.dtrack_frame) 0
   /\ dummy_with DTrack.b_id DTrack.b_quality 5
        (DTrack.get_body Scenario.dtrack_frame 5)
   /\ dummy_with DTrack.f_id DTrack.f_quality 5
        (DTrack.get_flystick Scenario.dtrack_frame 5)
   /\ dummy_with DTrack.t_id DTrack.t_quality 5
        (DTrack.get_meatool Scenario.dtrack_frame 5)
   /\ dummy_with DTrack.h_id DTrack.h_quality 5
        (DTrack.get_hand Scenario.dtrack_frame 5)
   /\ dummy_with DTrack.m_id DTrack.m_quality 0
        (DTrack.get_marker Scenario.dtrack_frame 5))
  /\ (DTrack2_consistent Scenario.dtrack2_frame
      /\ returns_ith (DTrack2.get_body Scenario.dtrack2_frame)
           (DTrack2.act_body Scenario.dtrack2_frame) 0
      /\ returns_ith (DTrack2.get_flystick Scenario.dtrack2_frame)
           (DTrack2.act_flystick Scenario.dtrack2_frame) 0
      /\ returns_ith (DTrack2.get_meatool Scenario.dtrack2_frame)
           (DTrack2.act_meatool Scenario.dtrack2_frame) 0
      /\ returns_ith (DTrack2.get_hand Scenario.dtrack2_frame)
           (DTrack2.act_hand Scenario.dtrack2_frame) 0
      /\ returns_ith (DTrack2.get_marker Scenario.dtrack2_frame)
           (DTrack2.act_marker Scenario.dtrack2_frame) 0
      /\ dummy_with DTrack2.b_id DTrack2.b_quality 5
           (DTrack2.get_body Scenario.dtrack2_frame 5)
      /\ dummy_with DTrack2.f_id DTrack2.f_quality 5
           (DTrack2.get_flystick Scenario.dtrack2_frame 5)
      /\ dummy_with DTrack2.t_id DTrack2.t_quality 5
           (DTrack2.get_meatool Scenario.dtrack2_frame 5)
      /\ dummy_with DTrack2.h_id DTrack2.h_quality 5
           (DTrack2.get_hand Scenario.dtrack2_frame 5)
      /\ dummy_with DTrack2.m_id DTrack2.m_quality 0
           (DTrack2.get_marker Scenario.dtrack2_frame 5))
  /\ (DTracklib_consistent Scenario.dtracklib_frame
      /\ returns_ith (DTracklib.get_body Scenario.dtracklib_frame)
           (DTracklib.act_body Scenario.dtracklib_frame) 0
      /\ returns_ith (DTracklib.get_flystick Scenario.dtracklib_frame)
           (DTracklib.act_flystick Scenario.dtracklib_frame) 0
      /\ returns_ith (DTracklib.get_meatool Scenario.dtracklib_frame)
           (DTracklib.act_meatool Scenario.dtracklib_frame) 0
      /\ returns_ith (DTracklib.get_glove Scenario.dtracklib_frame)
           (DTracklib.act_glove Scenario.dtracklib_frame) 0
      /\ returns_ith (DTracklib.get_marker Scenario.dtracklib_frame)
           (DTracklib.act_marker Scenario.dtracklib_frame) 0
      /\ DTracklib.get_body Scenario.dtracklib_frame 5
         = Done DTracklib.zero_body
      /\ DTracklib.get_flystick Scenario.dtracklib_frame 5
         = Done DTracklib.zero_flystick
      /\ DTracklib.get_meatool Scenario.dtracklib_frame 5
         = Done DTracklib.zero_meatool
      /\ DTracklib.get_glove Scenario.dtracklib_frame 5
         = Done DTracklib.zero_glove
      /\ DTracklib.get_marker Scenario.dtracklib_frame 5
         = Done DTracklib.zero_marker).
Proof.
  destruct accessors_in_and_out_of_range as (H1 & H2 & H3).
  assert (C1 : DTrack_consistent Scenario.dtrack_frame) by by_evaluation.
  assert (C2 : DTrack2_consistent Scenario.dtrack2_frame) by by_evaluation.
  assert (C3 : DTracklib_consistent Scenario.dtracklib_frame) by by_evaluation.
  destruct (H1 Scenario.dtrack_frame 0 C1)
    as (a1 & _ & a2 & _ & a3 & _ & a4 & _ & a5 & _).
  destruct (H1 Scenario.dtrack_frame 5 C1)
    as (_ & b1 & _ & b2 & _ & b3 & _ & b4 & _ & b5).
  destruct (H2 Scenario.dtrack2_frame 0 C2)
    as (c1 & _ & c2 & _ & c3 & _ & c4 & _ & c5 & _).
  destruct (H2 Scenario.dtrack2_frame 5 C2)
    as (_ & d1 & _ & d2 & _ & d3 & _ & d4 & _ & d5).
  destruct (H3 Scenario.dtracklib_frame 0 C3)
    as (e1 & _ & e2 & _ & e3 & _ & e4 & _ & e5 & _).
  destruct (H3 Scenario.dtracklib_frame 5 C3)
    as (_ & f1 & _ & f2 & _ & f3 & _ & f4 & _ & f5).
  split; [|split].
  - split; [exact C1|].
    split; [apply a1; by_evaluation|]. split; [apply a2; by_evaluation|].
    split; [apply a3; by_evaluation|]. split; [apply a4; by_evaluation|].
    split; [apply a5; by_evaluation|].
    split; [apply b1; by_evaluation|]. split; [apply b2; by_evaluation|].
    split; [apply b3; by_evaluation|]. split; [apply b4; by_evaluation|].
    apply b5; by_evaluation.
  - split; [exact C2|].
    split; [apply c1; by_evaluation|]. split; [apply c2; by_evaluation|].
    split; [apply c3; by_evaluation|]. split; [apply c4; by_evaluation|].
    split; [apply c5; by_evaluation|].
    split; [apply d1; by_evaluation|]. split; [apply d2; by_evaluation|].
    split; [apply d3; by_evaluation|]. split; [apply d4; by_evaluation|].
    apply d5; by_evaluation.
  - split; [exact C3|].
    split; [apply e1; by_evaluation|]. split; [apply e2; by_evaluation|].
    split; [apply e3; by_evaluation|]. split; [apply e4; by_evaluation|].
    split; [apply e5; by_evaluation|].
    split; [apply f1; by_evaluation|]. split; [apply f2; by_evaluation|].
    split; [apply f3; by_evaluation|]. split; [apply f4; by_evaluation|].
    apply f5; by_evaluation.
Defined.

(** * Further properties of the facades *)

(** ** Remote commands of DTrack *)

Lemma DTrack_set_sdk_same d : DTrack.set_sdk d (DTrack.sdk d) = d.
Proof. by destruct d. Qed.

Ltac run_remote V :=
  unfold DTrack.cmd_cameras, DTrack.cmd_tracking, DTrack.cmd_sending_data,
    DTrack.cmd_sending_fixed_data, DTrack.send_returning_result,
    DTrack.send_dropping_result, DTrack.valid in *;
  cbn [DTrack.sdk DTrack.set_remoteCameras DTrack.set_remoteTracking
       DTrack.set_remoteSending DTrack.remoteCameras DTrack.remoteTracking
       DTrack.remoteSending DTrack.set_sdk];
  rewrite ?V; cbn [negb].

(** X1. On a DTrack object whose local data port is invalid, each of the
    four remote commands returns false and leaves the whole object as it
    was: no flag is recorded and nothing is handed to the SDK. *)
Theorem remote_commands_need_valid_port (T : SDK.Transport) d onoff frames :
  DTrack.valid d = false ->
  DTrack.cmd_cameras onoff d = (false, d)
  /\ DTrack.cmd_tracking onoff d = (false, d)
  /\ DTrack.cmd_sending_data onoff d = (false, d)
  /\ DTrack.cmd_sending_fixed_data frames d = (false, d).
Proof.
  intros V.
  unfold DTrack.cmd_cameras, DTrack.cmd_tracking, DTrack.cmd_sending_data,
    DTrack.cmd_sending_fixed_data.
  by rewrite V.
Qed.

Lemma remote_commands_need_valid_port_witness :
  DTrack.valid (DTrack.new Scenario.sdk_unbound 0 0 0 0 0) = false
  /\ @DTrack.cmd_cameras Scenario.streaming true
       (DTrack.new Scenario.sdk_unbound 0 0 0 0 0)
     = (false, DTrack.new Scenario.sdk_unbound 0 0 0 0 0)
  /\ @DTrack.cmd_tracking Scenario.streaming true
       (DTrack.new Scenario.sdk_unbound 0 0 0 0 0)
     = (false, DTrack.new Scenario.sdk_unbound 0 0 0 0 0)
  /\ @DTrack.cmd_sending_data Scenario.streaming true
       (DTrack.new Scenario.sdk_unbound 0 0 0 0 0)
     = (false, DTrack.new Scenario.sdk_unbound 0 0 0 0 0)
  /\ @DTrack.cmd_sending_fixed_data Scenario.streaming 10
       (DTrack.new Scenario.sdk_unbound 0 0 0 0 0)
     = (false, DTrack.new Scenario.sdk_unbound 0 0 0 0 0).
Proof.
  split; [reflexivity|].
  exact (remote_commands_need_valid_port Scenario.streaming
           (DTrack.new Scenario.sdk_unbound 0 0 0 0 0) true 10 eq_refl).
Defined.

(** X2. Whatever the network does, a remote command of DTrack never
    touches the stored frame, and changes no status flag but its own:
    cmd_cameras only remoteCameras, cmd_tracking only remoteTracking,
    cmd_sending_data only remoteSending, cmd_sending_fixed_data none. *)
Theorem remote_commands_keep_frame_and_other_flags
    (T : SDK.Transport) d onoff frames :
  (DTrack_same_frame d (snd (DTrack.cmd_cameras onoff d))
   /\ DTrack.remoteTracking (snd (DTrack.cmd_cameras onoff d))
      = DTrack.remoteTracking d
   /\ DTrack.remoteSending (snd (DTrack.cmd_cameras onoff d))
      = DTrack.remoteSending d)
  /\ (DTrack_same_frame d (snd (DTrack.cmd_tracking onoff d))
      /\ DTrack.remoteCameras (snd (DTrack.cmd_tracking onoff d))
         = DTrack.remoteCameras d
      /\ DTrack.remoteSending (snd (DTrack.cmd_tracking onoff d))
         = DTrack.remoteSending d)
  /\ (DTrack_same_frame d (snd (DTrack.cmd_sending_data onoff d))
      /\ DTrack.remoteCameras (snd (DTrack.cmd_sending_data onoff d))
         = DTrack.remoteCameras d
      /\ DTrack.remoteTracking (snd (DTrack.cmd_sending_data onoff d))
         = DTrack.remoteTracking d)
  /\ (DTrack_same_frame d (snd (DTrack.cmd_sending_fixed_data frames d))
      /\ DTrack_flags (snd (DTrack.cmd_sending_fixed_data frames d))
         = DTrack_flags d).
Proof.
  unfold DTrack_same_frame, DTrack_flags.
  destruct d as [s rc rt rs nb b nf f nm m nk k nh h].
  destruct (SDK.isLocalDataPortValid s) eqn:V;
    run_remote V; [|by repeat split].
  destruct onoff, rc, rt, rs; cbn;
    repeat match goal with
           | |- context [SDK.sendCommand ?c ?x] =>
               destruct (SDK.sendCommand c x); cbn
           end;
    by repeat split.
Qed.

(** X3. While the cameras are off, cmd_tracking, cmd_sending_data and
    cmd_sending_fixed_data of a valid DTrack object hand nothing to the
    SDK: the first two only record their flag. cmd_tracking and
    cmd_sending_fixed_data report true, cmd_sending_data reports false. *)
Theorem remote_settings_wait_for_cameras (T : SDK.Transport) d onoff frames :
  DTrack.valid d = true ->
  DTrack.remoteCameras d = false ->
  DTrack.cmd_tracking onoff d = (true, DTrack.set_remoteTracking d onoff)
  /\ DTrack.cmd_sending_data onoff d
     = (false, DTrack.set_remoteSending d onoff)
  /\ DTrack.cmd_sending_fixed_data frames d = (true, d).
Proof.
  intros V C. destruct d as [s rc rt rs nb b nf f nm m nk k nh h].
  unfold DTrack.valid in V. cbn in V, C. subst rc. run_remote V.
  by repeat split.
Qed.

Lemma remote_settings_wait_for_cameras_witness :
  DTrack.valid Scenario.dtrack_new = true
  /\ DTrack.remoteCameras Scenario.dtrack_new = false
  /\ @DTrack.cmd_tracking Scenario.streaming false Scenario.dtrack_new
     = (true, DTrack.set_remoteTracking Scenario.dtrack_new false)
  /\ @DTrack.cmd_sending_data Scenario.streaming false Scenario.dtrack_new
     = (false, DTrack.set_remoteSending Scenario.dtrack_new false)
  /\ @DTrack.cmd_sending_fixed_data Scenario.streaming 10 Scenario.dtrack_new
     = (true, Scenario.dtrack_new).
Proof.
  split; [reflexivity|]. split; [reflexivity|].
  exact (remote_settings_wait_for_cameras Scenario.streaming
           Scenario.dtrack_new false 10 eq_refl eq_refl).
Defined.

(** X4. The settings recorded while the cameras were off are applied
    when the cameras are switched on: after cmd_tracking(tracking) and
    cmd_sending_data(sending) on a valid DTrack object with the cameras
    off, nothing has been sent yet, and cmd_cameras(true) then hands the SDK
    "dtrack 10 3" followed by "dtrack 31" if both are on, "dtrack 10 3"
    alone if only tracking is on, and "dtrack 10 1" alone if tracking is
    off (whether sending is on or not). *)
Theorem cameras_on_applies_recorded_settings
    (T : SDK.Transport) d tracking sending :
  DTrack.valid d = true ->
  DTrack.remoteCameras d = false ->
  let d1 := snd (DTrack.cmd_tracking tracking d) in
  let d2 := snd (DTrack.cmd_sending_data sending d1) in
  DTrack.sdk d2 = DTrack.sdk d
  /\ DTrack.sdk (snd (DTrack.cmd_cameras true d2))
     = send_all
         (if tracking
          then "dtrack 10 3"%string
               :: (if sending then ["dtrack 31"%string] else [])
          else ["dtrack 10 1"%string])
         (DTrack.sdk d)
  /\ DTrack_flags (snd (DTrack.cmd_cameras true d2))
     = (true, tracking, sending).
Proof.
  intros V C. destruct d as [s rc rt rs nb b nf f nm m nk k nh h].
  unfold DTrack.valid in V. cbn in V, C. subst rc.
  cbn zeta. unfold DTrack_flags, send_all.
  run_remote V. repeat (progress (cbn; rewrite ?V)).
  destruct tracking, sending; repeat (progress (cbn; rewrite ?V));
    repeat match goal with
           | |- context [SDK.sendCommand ?c ?x] =>
               destruct (SDK.sendCommand c x); cbn
           end;
    by repeat split.
Qed.

Lemma cameras_on_applies_recorded_settings_witness :
  DTrack.valid Scenario.dtrack_new = true
  /\ DTrack.remoteCameras Scenario.dtrack_new = false
  /\ DTrack_flags
       (snd (@DTrack.cmd_cameras Scenario.streaming true
               (snd (@DTrack.cmd_sending_data Scenario.streaming true
                       (snd (@DTrack.cmd_tracking Scenario.streaming false
                               Scenario.dtrack_new))))))
     = (true, false, true).
Proof.
  split; [reflexivity|]. split; [reflexivity|].
  exact (proj2 (proj2 (cameras_on_applies_recorded_settings Scenario.streaming
                         Scenario.dtrack_new false true eq_refl eq_refl))).
Defined.

(** X5. What cmd_cameras of a valid DTrack object reports. Switching on:
    the results of "dtrack 10 3" and "dtrack 10 1" are dropped, and false
    is returned only if tracking and sending are both on and sending
    "dtrack 31" failed. Switching off: the result of "dtrack 32" is
    dropped and the result of "dtrack 10 0" is returned. *)
Theorem cmd_cameras_reported_result (T : SDK.Transport) d :
  DTrack.valid d = true ->
  (fst (DTrack.cmd_cameras true d) = false
   <-> DTrack.remoteTracking d = true
       /\ DTrack.remoteSending d = true
       /\ fst (SDK.sendCommand "dtrack 31"
                 (snd (SDK.sendCommand "dtrack 10 3" (DTrack.sdk d))))
          = false)
  /\ fst (DTrack.cmd_cameras false d)
     = fst (SDK.sendCommand "dtrack 10 0"
              (if DTrack.remoteSending d
               then snd (SDK.sendCommand "dtrack 32" (DTrack.sdk d))
               else DTrack.sdk d)).
Proof.
  intros V. destruct d as [s rc rt rs nb b nf f nm m nk k nh h].
  unfold DTrack.valid in V. cbn in V. run_remote V. cbn.
  destruct rt, rs; cbn;
    repeat match goal with
           | |- context [SDK.sendCommand ?c ?x] =>
               let E := fresh "E" in destruct (SDK.sendCommand c x) eqn:E; cbn
           end;
    (split; [|try reflexivity]); try (split; [intros; try done|intros (?&?&?); done]).
  all: try by repeat split.
Qed.

Lemma cmd_cameras_reported_result_witness :
  DTrack.valid Scenario.dtrack_new = true
  /\ fst (@DTrack.cmd_cameras Scenario.streaming true Scenario.dtrack_new)
     = false
  /\ fst (@DTrack.cmd_cameras Scenario.streaming false Scenario.dtrack_new)
     = false.
Proof.
  split; [reflexivity|].
  destruct (cmd_cameras_reported_result Scenario.streaming
              Scenario.dtrack_new eq_refl) as [Hon Hoff].
  split.
  - apply Hon. by repeat split.
  - rewrite Hoff. reflexivity.
Defined.

(** ** After a successful receive *)

Lemma to_ulong_pow2 (n : Z) : 0 <= n < 64 -> to_ulong (2 ^ n) = 2 ^ n.
Proof.
  intros Hn. unfold to_ulong, ulong_bits. apply Z.mod_small.
  split; [apply Z.pow_nonneg; lia|]. apply Z.pow_lt_mono_r; lia.
Qed.

Lemma pressed_buttons_prefix (button : list Z) (n : nat) (j : Z) :
  (n <= 16)%nat -> 0 <= j ->
  Z.testbit
    (fold_left
       (fun bt k =>
          if nth k button 0 =? 1
          then Z.lor bt (to_ulong (Z.shiftl (nth k button 0) (Z.of_nat k)))
          else bt)
       (seq 0 n) 0) j
  = (j <? Z.of_nat n) && (nth (Z.to_nat j) button 0 =? 1).
Proof.
  intros Hn Hj. induction n as [|n IH].
  - cbn. rewrite Z.bits_0. by destruct (Z.ltb_spec j (Z.of_nat 0)); [lia|].
  - rewrite seq_S, fold_left_app. cbn [fold_left Nat.add].
    specialize (IH ltac:(lia)).
    destruct (Z.eqb_spec (nth n button 0) 1) as [E|E].
    + rewrite E, Z.shiftl_1_l, to_ulong_pow2 by lia.
      rewrite Z.lor_spec, IH, Z.pow2_bits_eqb by lia.
      destruct (Z.eqb_spec (Z.of_nat n) j) as [<-|Hne].
      * rewrite Nat2Z.id, E.
        destruct (Z.ltb_spec (Z.of_nat n) (Z.of_nat n)); [lia|].
        destruct (Z.ltb_spec (Z.of_nat n) (Z.of_nat (S n))); [done|lia].
      * rewrite orb_false_r.
        destruct (Z.ltb_spec j (Z.of_nat n)), (Z.ltb_spec j (Z.of_nat (S n)));
          try lia; done.
    + rewrite IH.
      destruct (Z.ltb_spec j (Z.of_nat n)), (Z.ltb_spec j (Z.of_nat (S n)));
        try lia; try done.
      replace j with (Z.of_nat n) by lia. rewrite Nat2Z.id.
      cbn. symmetry. by apply Z.eqb_neq.
Qed.

Lemma pressed_buttons_coded (num_button : Z) (button : list Z) :
  buttons_coded (DTracklib.pressed_buttons num_button button)
                num_button button.
Proof.
  intros j Hj. unfold DTracklib.pressed_buttons.
  rewrite pressed_buttons_prefix
    by (unfold DTracklib.DTRACKLIB_FLYSTICK_MAX_BUTTON; lia).
  f_equal. unfold DTracklib.DTRACKLIB_FLYSTICK_MAX_BUTTON.
  destruct (Z.ltb_spec j (Z.of_nat (Z.to_nat (Z.min num_button 16)))),
    (Z.ltb_spec j (Z.min num_button 16)); try lia; done.
Qed.

Lemma lookup_map_carries {A B} (carries : B -> A -> Prop) (conv : A -> B)
    (src : list A) (i : Z) :
  (forall s, carries (conv s) s) ->
  0 <= i < Z.of_nat (length src) ->
  returns_carrying carries (vector_index (map conv src))
                   (SDK.get_elem src) i.
Proof.
  intros Hc Hi. destruct (get_elem_in_range src i Hi) as [s [Hs Hg]].
  exists (conv s), s. split; [done|]. split; [|done]. unfold vector_index.
  change (map conv src) with (conv <$> src). rewrite list_lookup_fmap, Hs.
  cbn. destruct (Z.ltb_spec i 0); [lia | done].
Qed.

Lemma DTrack2_copy_body_carries s :
  DTrack2_body_carries (DTrack2.copy_body s) s.
Proof. repeat split; cbn; apply array_copy_floats. Qed.

Lemma DTrack2_copy_flystick_carries s :
  DTrack2_flystick_carries (DTrack2.copy_flystick s) s.
Proof.
  repeat split; cbn; first [apply array_copy_floats | apply array_copy_ints].
Qed.

Lemma DTrack2_copy_meatool_carries s :
  DTrack2_meatool_carries (DTrack2.copy_meatool s) s.
Proof.
  repeat split; cbn; first [apply array_copy_floats | apply array_copy_ints].
Qed.

Lemma DTrack2_copy_finger_carries s :
  DTrack2_finger_carries (DTrack2.copy_finger s) s.
Proof. repeat split; cbn; apply array_copy_floats. Qed.

Lemma DTrack2_copy_hand_carries s :
  DTrack2_hand_carries (DTrack2.copy_hand s) s.
Proof.
  unfold DTrack2_hand_carries. cbn.
  repeat (split; [first [reflexivity | apply array_copy_floats]|]).
  intros k Hk. rewrite array_copy_nth by done.
  apply DTrack2_copy_finger_carries.
Qed.

Lemma DTrack2_copy_marker_carries s :
  DTrack2_marker_carries (DTrack2.copy_marker s) s.
Proof. repeat split; cbn; apply array_copy_floats. Qed.

Lemma DTracklib_copy_body_carries s :
  DTracklib_body_carries (DTracklib.copy_body s) s.
Proof.
  unfold DTracklib_body_carries. cbn.
  repeat (split; [first [reflexivity | apply array_copy_floats]|]).
  apply array_copy_floats.
Qed.

Lemma DTracklib_copy_flystick_carries s :
  DTracklib_flystick_carries (DTracklib.copy_flystick s) s.
Proof.
  unfold DTracklib_flystick_carries. cbn.
  repeat (split; [first [reflexivity | apply array_copy_floats
                        | apply pressed_buttons_coded]|]).
  apply array_copy_floats.
Qed.

Lemma DTracklib_copy_meatool_carries s :
  DTracklib_meatool_carries (DTracklib.copy_meatool s) s.
Proof.
  unfold DTracklib_meatool_carries. cbn.
  repeat (split; [first [reflexivity | apply array_copy_floats
                        | apply pressed_buttons_coded]|]).
  apply array_copy_floats.
Qed.

Lemma DTracklib_copy_finger_carries s :
  DTracklib_finger_carries (DTracklib.copy_finger s) s.
Proof. repeat split; cbn; apply array_copy_floats. Qed.

Lemma DTracklib_copy_glove_carries s :
  DTracklib_glove_carries (DTracklib.copy_glove s) s.
Proof.
  unfold DTracklib_glove_carries. cbn.
  repeat (split; [first [reflexivity | apply array_copy_floats]|]).
  intros k Hk. rewrite array_copy_nth by done.
  apply DTracklib_copy_finger_carries.
Qed.

Lemma DTracklib_copy_marker_carries s :
  DTracklib_marker_carries (DTracklib.copy_marker s) s.
Proof. repeat split; cbn; apply array_copy_floats. Qed.

(** X6. Whenever the receive of the SDK succeeds on a DTrack2 object with
    a valid data port, DTrack2::receive returns true, every count is the
    count of the SDK, and every accessor called with an index
    0 <= i < count (as the loops of the example programs do) returns a
    record that carries the i-th SDK record: the same id and counts, the
    same buttons, and the quality and every component of the location,
    the rotation, the joystick and the fingers converted to float. *)
Theorem DTrack2_receive_then_access (T : SDK.Transport) d sdk' :
  DTrack2.valid d = true ->
  SDK.receive (DTrack2.sdk d) = (true, sdk') ->
  exists d',
    DTrack2.receive d = Done (true, d')
    /\ DTrack2.get_num_body d' = SDK.getNumBody sdk'
    /\ DTrack2.get_num_flystick d' = SDK.getNumFlyStick sdk'
    /\ DTrack2.get_num_meatool d' = SDK.getNumMeaTool sdk'
    /\ DTrack2.get_num_hand d' = SDK.getNumHand sdk'
    /\ DTrack2.get_num_marker d' = SDK.getNumMarker sdk'
    /\ (forall i, 0 <= i < DTrack2.get_num_body d' ->
          returns_carrying DTrack2_body_carries
            (DTrack2.get_body d') (SDK.getBody sdk') i)
    /\ (forall i, 0 <= i < DTrack2.get_num_flystick d' ->
          returns_carrying DTrack2_flystick_carries
            (DTrack2.get_flystick d') (SDK.getFlyStick sdk') i)
    /\ (forall i, 0 <= i < DTrack2.get_num_meatool d' ->
          returns_carrying DTrack2_meatool_carries
            (DTrack2.get_meatool d') (SDK.getMeaTool sdk') i)
    /\ (forall i, 0 <= i < DTrack2.get_num_hand d' ->
          returns_carrying DTrack2_hand_carries
            (DTrack2.get_hand d') (SDK.getHand sdk') i)
    /\ (forall i, 0 <= i < DTrack2.get_num_marker d' ->
          returns_carrying DTrack2_marker_carries
            (DTrack2.get_marker d') (SDK.getMarker sdk') i).
Proof.
  intros V E. eexists. split; [by apply DTrack2_receive_success|].
  assert (Hget : forall {A B} (carries : B -> A -> Prop) (conv : A -> B)
                   (src : list A) (get : Z -> outcome B) (i : Z),
             (forall s, carries (conv s) s) ->
             0 <= i < Z.of_nat (length src) ->
             get i = vector_index (map conv src) i ->
             returns_carrying carries get (SDK.get_elem src) i).
  { intros A B carries conv src get i Hc Hi Hg.
    destruct (lookup_map_carries carries conv src i Hc Hi)
      as (r & s & Hs & Hr & Hrs).
    exists r, s. by rewrite Hg. }
  unfold DTrack2.get_num_body, DTrack2.get_num_flystick,
    DTrack2.get_num_meatool, DTrack2.get_num_hand, DTrack2.get_num_marker,
    SDK.getNumBody, SDK.getBody, SDK.getNumFlyStick, SDK.getFlyStick,
    SDK.getNumMeaTool, SDK.getMeaTool, SDK.getNumHand, SDK.getHand,
    SDK.getNumMarker, SDK.getMarker.
  cbn [DTrack2.act_num_body DTrack2.act_num_flystick DTrack2.act_num_meatool
       DTrack2.act_num_hand DTrack2.act_num_marker].
  repeat (split; [reflexivity|]).
  split; [|split; [|split; [|split]]]; intros i Hi.
  - apply (Hget _ _ _ DTrack2.copy_body);
      [apply DTrack2_copy_body_carries | done|].
    unfold DTrack2.get_body. cbn. by decide_guards.
  - apply (Hget _ _ _ DTrack2.copy_flystick);
      [apply DTrack2_copy_flystick_carries | done|].
    unfold DTrack2.get_flystick. cbn. by decide_guards.
  - apply (Hget _ _ _ DTrack2.copy_meatool);
      [apply DTrack2_copy_meatool_carries | done|].
    unfold DTrack2.get_meatool. cbn. by decide_guards.
  - apply (Hget _ _ _ DTrack2.copy_hand);
      [apply DTrack2_copy_hand_carries | done|].
    unfold DTrack2.get_hand. cbn. by decide_guards.
  - apply (Hget _ _ _ DTrack2.copy_marker);
      [apply DTrack2_copy_marker_carries | done|].
    unfold DTrack2.get_marker. cbn. by decide_guards.
Qed.

Lemma DTrack2_receive_then_access_witness :
  DTrack2.valid Scenario.dtrack2_new = true
  /\ @SDK.receive Scenario.streaming (DTrack2.sdk Scenario.dtrack2_new)
     = (true, Scenario.sdk_frame)
  /\ exists d',
      @DTrack2.receive Scenario.streaming Scenario.dtrack2_new
      = Done (true, d')
      /\ DTrack2.get_num_body d' = 1
      /\ returns_carrying DTrack2_body_carries
           (DTrack2.get_body d') (SDK.getBody Scenario.sdk_frame) 0.
Proof.
  split; [reflexivity|]. split; [reflexivity|].
  destruct (DTrack2_receive_then_access Scenario.streaming
              Scenario.dtrack2_new Scenario.sdk_frame eq_refl eq_refl)
    as (d' & Hr & Hn & _ & _ & _ & _ & Hb & _).
  exists d'. split; [exact Hr|]. split; [exact Hn|].
  apply Hb. rewrite Hn. by_evaluation.
Defined.

(** X7. Whenever the receive of the SDK succeeds, DTracklib::receive
    returns true, every count is the count of the SDK, and every accessor
    called with an index 0 <= i < count returns a record that carries the
    i-th SDK record: the quality and every component of the location, the
    rotation and the fingers converted to float, the ids of bodies,
    flysticks and measurement tools taken as unsigned long (modulo 2^64),
    the unused angles three zeros, and the buttons coded in one word, bit
    j set exactly when j < min(num_button, 16) and button[j] is 1. *)
Theorem DTracklib_receive_then_access (T : SDK.Transport) d sdk' :
  SDK.receive (DTracklib.sdk d) = (true, sdk') ->
  exists d',
    DTracklib.receive d = Done (true, d')
    /\ DTracklib.get_nbody d' = SDK.getNumBody sdk'
    /\ DTracklib.get_nflystick d' = SDK.getNumFlyStick sdk'
    /\ DTracklib.get_nmeatool d' = SDK.getNumMeaTool sdk'
    /\ DTracklib.get_nglove d' = SDK.getNumHand sdk'
    /\ DTracklib.get_nmarker d' = SDK.getNumMarker sdk'
    /\ (forall i, 0 <= i < DTracklib.get_nbody d' ->
          returns_carrying DTracklib_body_carries
            (DTracklib.get_body d') (SDK.getBody sdk') i)
    /\ (forall i, 0 <= i < DTracklib.get_nflystick d' ->
          returns_carrying DTracklib_flystick_carries
            (DTracklib.get_flystick d') (SDK.getFlyStick sdk') i)
    /\ (forall i, 0 <= i < DTracklib.get_nmeatool d' ->
          returns_carrying DTracklib_meatool_carries
            (DTracklib.get_meatool d') (SDK.getMeaTool sdk') i)
    /\ (forall i, 0 <= i < DTracklib.get_nglove d' ->
          returns_carrying DTracklib_glove_carries
            (DTracklib.get_glove d') (SDK.getHand sdk') i)
    /\ (forall i, 0 <= i < DTracklib.get_nmarker d' ->
          returns_carrying DTracklib_marker_carries
            (DTracklib.get_marker d') (SDK.getMarker sdk') i).
Proof.
  intros E. eexists. split; [by apply DTracklib_receive_success|].
  assert (Hget : forall {A B} (carries : B -> A -> Prop) (conv : A -> B)
                   (src : list A) (get : Z -> outcome B) (i : Z),
             (forall s, carries (conv s) s) ->
             0 <= i < Z.of_nat (length src) ->
             get i = vector_index (map conv src) i ->
             returns_carrying carries get (SDK.get_elem src) i).
  { intros A B carries conv src get i Hc Hi Hg.
    destruct (lookup_map_carries carries conv src i Hc Hi)
      as (r & s & Hs & Hr & Hrs).
    exists r, s. by rewrite Hg. }
  unfold DTracklib.get_nbody, DTracklib.get_nflystick,
    DTracklib.get_nmeatool, DTracklib.get_nglove, DTracklib.get_nmarker,
    SDK.getNumBody, SDK.getBody, SDK.getNumFlyStick, SDK.getFlyStick,
    SDK.getNumMeaTool, SDK.getMeaTool, SDK.getNumHand, SDK.getHand,
    SDK.getNumMarker, SDK.getMarker.
  cbn [DTracklib.act_nbody DTracklib.act_nflystick DTracklib.act_nmeatool
       DTracklib.act_nglove DTracklib.act_nmarker].
  repeat (split; [reflexivity|]).
  split; [|split; [|split; [|split]]]; intros i Hi.
  - apply (Hget _ _ _ DTracklib.copy_body);
      [apply DTracklib_copy_body_carries | done|].
    unfold DTracklib.get_body. cbn. by decide_guards.
  - apply (Hget _ _ _ DTracklib.copy_flystick);
      [apply DTracklib_copy_flystick_carries | done|].
    unfold DTracklib.get_flystick. cbn. by decide_guards.
  - apply (Hget _ _ _ DTracklib.copy_meatool);
      [apply DTracklib_copy_meatool_carries | done|].
    unfold DTracklib.get_meatool. cbn. by decide_guards.
  - apply (Hget _ _ _ DTracklib.copy_glove);
      [apply DTracklib_copy_glove_carries | done|].
    unfold DTracklib.get_glove. cbn. by decide_guards.
  - apply (Hget _ _ _ DTracklib.copy_marker);
      [apply DTracklib_copy_marker_carries | done|].
    unfold DTracklib.get_marker. cbn. by decide_guards.
Qed.

Lemma DTracklib_receive_then_access_witness :
  @SDK.receive Scenario.streaming
    (DTracklib.sdk (DTracklib.new Scenario.sdk_idle))
  = (true, Scenario.sdk_frame)
  /\ exists d',
      @DTracklib.receive Scenario.streaming (DTracklib.new Scenario.sdk_idle)
      = Done (true, d')
      /\ DTracklib.get_nflystick d' = 1
      /\ returns_carrying DTracklib_flystick_carries
           (DTracklib.get_flystick d') (SDK.getFlyStick Scenario.sdk_frame) 0.
Proof.
  split; [reflexivity|].
  destruct (DTracklib_receive_then_access Scenario.streaming
              (DTracklib.new Scenario.sdk_idle) Scenario.sdk_frame eq_refl)
    as (d' & Hr & _ & Hn & _ & _ & _ & _ & Hf & _).
  exists d'. split; [exact Hr|]. split; [exact Hn|].
  apply Hf. rewrite Hn. by_evaluation.
Defined.

(** X8. A successful receive replaces the stored frame wholesale: for each
    of the three facades, two objects that hold the same SDK object end up
    with the same stored counts and collections, whatever frames they
    stored before. Nothing of an earlier frame survives. *)
Theorem receive_replaces_stored_frame (T : SDK.Transport) :
  (forall d1 d2 d1' d2',
     DTrack.sdk d1 = DTrack.sdk d2 ->
     DTrack.receive d1 = Done (true, d1') ->
     DTrack.receive d2 = Done (true, d2') ->
     DTrack_same_frame d1' d2')
  /\ (forall d1 d2 d1' d2',
        DTrack2.sdk d1 = DTrack2.sdk d2 ->
        DTrack2.receive d1 = Done (true, d1') ->
        DTrack2.receive d2 = Done (true, d2') ->
        DTrack2_same_frame d1' d2')
  /\ (forall d1 d2 d1' d2',
        DTracklib.sdk d1 = DTracklib.sdk d2 ->
        DTracklib.receive d1 = Done (true, d1') ->
        DTracklib.receive d2 = Done (true, d2') ->
        DTracklib_same_frame d1' d2').
Proof.
  split; [|split]; intros d1 d2 d1' d2' Es.
  - destruct (SDK.receive (DTrack.sdk d2)) as [[] sdk'] eqn:E.
    + rewrite (DTrack_receive_success _ d2 _ E).
      rewrite <- Es in E. rewrite (DTrack_receive_success _ d1 _ E).
      intros [= <-] [= <-]. by repeat split.
    + by rewrite (DTrack_receive_failure _ d2 _ E).
  - destruct (SDK.isLocalDataPortValid (DTrack2.sdk d2)) eqn:V.
    + destruct (SDK.receive (DTrack2.sdk d2)) as [[] sdk'] eqn:E.
      * rewrite (DTrack2_receive_success _ d2 _ V E).
        rewrite <- Es in E, V. rewrite (DTrack2_receive_success _ d1 _ V E).
        intros [= <-] [= <-]. by repeat split.
      * by rewrite (DTrack2_receive_failure _ d2 _ V E).
    + by rewrite (DTrack2_receive_unbound _ d2 V).
  - destruct (SDK.receive (DTracklib.sdk d2)) as [[] sdk'] eqn:E.
    + rewrite (DTracklib_receive_success _ d2 _ E).
      rewrite <- Es in E. rewrite (DTracklib_receive_success _ d1 _ E).
      intros [= <-] [= <-]. by repeat split.
    + by rewrite (DTracklib_receive_failure _ d2 _ E).
Qed.

Lemma receive_replaces_stored_frame_witness :
  DTrack_same_frame
    (Scenario.the_state Scenario.dtrack_frame
       (@DTrack.receive Scenario.oversized Scenario.dtrack_frame))
    (Scenario.the_state Scenario.dtrack_new
       (@DTrack.receive Scenario.oversized
          (DTrack.new Scenario.sdk_frame 7 7 7 7 7)))
  /\ DTrack2_same_frame
       (Scenario.the_state Scenario.dtrack2_frame
          (@DTrack2.receive Scenario.oversized Scenario.dtrack2_frame))
       (Scenario.the_state Scenario.dtrack2_new
          (@DTrack2.receive Scenario.oversized
             (DTrack2.new Scenario.sdk_frame 7 7 7 7 7)))
  /\ DTracklib_same_frame
       (Scenario.the_state Scenario.dtracklib_frame
          (@DTracklib.receive Scenario.oversized Scenario.dtracklib_frame))
       (Scenario.the_state Scenario.dtracklib_frame
          (@DTracklib.receive Scenario.oversized
             (DTracklib.new Scenario.sdk_frame))).
Proof.
  destruct (receive_replaces_stored_frame Scenario.oversized)
    as (H1 & H2 & H3).
  split; [|split].
  - apply (H1 Scenario.dtrack_frame (DTrack.new Scenario.sdk_frame 7 7 7 7 7));
      reflexivity.
  - apply (H2 Scenario.dtrack2_frame
             (DTrack2.new Scenario.sdk_frame 7 7 7 7 7)); reflexivity.
  - apply (H3 Scenario.dtracklib_frame (DTracklib.new Scenario.sdk_frame));
      reflexivity.
Defined.

(** ** The binary coded buttons of DTracklib *)

(** X9. The binary coded button word that DTracklib::receive stores for a
    flystick or a measurement tool has bit j set exactly when
    j < min(num_button, 16) and button[j] is 1; so it is 0 when num_button
    is not positive, buttons beyond the 16th are dropped, and the word is
    always below 2^16. *)
Theorem pressed_buttons_bits (num_button : Z) (button : list Z) :
  (forall j, 0 <= j ->
     Z.testbit (DTracklib.pressed_buttons num_button button) j
     = (j <? Z.min num_button DTracklib.DTRACKLIB_FLYSTICK_MAX_BUTTON)
       && (nth (Z.to_nat j) button 0 =? 1))
  /\ 0 <= DTracklib.pressed_buttons num_button button < 2 ^ 16.
Proof.
  assert (Hbits : forall j, 0 <= j ->
            Z.testbit (DTracklib.pressed_buttons num_button button) j
            = (j <? Z.min num_button DTracklib.DTRACKLIB_FLYSTICK_MAX_BUTTON)
              && (nth (Z.to_nat j) button 0 =? 1)).
  { intros j Hj. unfold DTracklib.pressed_buttons.
    rewrite pressed_buttons_prefix
      by (unfold DTracklib.DTRACKLIB_FLYSTICK_MAX_BUTTON; lia).
    f_equal. unfold DTracklib.DTRACKLIB_FLYSTICK_MAX_BUTTON.
    destruct (Z.ltb_spec j (Z.of_nat (Z.to_nat (Z.min num_button 16)))),
      (Z.ltb_spec j (Z.min num_button 16)); try lia; done. }
  split; [exact Hbits|].
  assert (Hm : DTracklib.pressed_buttons num_button button
               = DTracklib.pressed_buttons num_button button mod 2 ^ 16).
  { rewrite <- Z.land_ones by lia. apply Z.bits_inj'. intros j Hj.
    rewrite Z.land_spec, Hbits by done.
    destruct (Z.ltb_spec j 16).
    - by rewrite Z.ones_spec_low, andb_true_r by lia.
    - rewrite Z.ones_spec_high, andb_false_r by lia.
      unfold DTracklib.DTRACKLIB_FLYSTICK_MAX_BUTTON.
      by destruct (Z.ltb_spec j (Z.min num_button 16)); [lia|]. }
  rewrite Hm. apply Z.mod_pos_bound. lia.
Qed.

Lemma pressed_buttons_bits_witness :
  0 <= 3
  /\ Z.testbit (DTracklib.pressed_buttons 6 (SDK.f_button Scenario.flystick0)) 3
     = true
  /\ DTracklib.pressed_buttons 6 (SDK.f_button Scenario.flystick0) = 9.
Proof.
  assert (H : 0 <= 3) by discriminate.
  split; [exact H|]. split; [|reflexivity].
  rewrite (proj1 (pressed_buttons_bits 6 (SDK.f_button Scenario.flystick0))
             3 H).
  reflexivity.
Defined.

(** ** Error reports of the example programs *)

Lemma Errors_eqb_eq a b : SDK.Errors_eqb a b = true <-> a = b.
Proof. destruct a, b; cbn; split; intros; congruence. Qed.

(** X10. error_to_console of the DTrack and DTracklib examples and
    data_error_to_console of the DTrack2 example return true exactly when
    the last data error of the SDK is ERR_NONE; they print nothing in that
    case and exactly one line otherwise. *)
Theorem data_error_report (cout : list string) :
  (forall dt,
     let r := Examples.DTrack_error_to_console dt cout in
     (fst r = true <-> SDK.getLastDataError (DTrack.sdk dt) = SDK.ERR_NONE)
     /\ (fst r = true -> snd r = cout)
     /\ (fst r = false -> exists line, snd r = cout ++ [line]))
  /\ (forall dt,
        let r := Examples.DTracklib_error_to_console dt cout in
        (fst r = true
         <-> SDK.getLastDataError (DTracklib.sdk dt) = SDK.ERR_NONE)
        /\ (fst r = true -> snd r = cout)
        /\ (fst r = false -> exists line, snd r = cout ++ [line]))
  /\ (forall dt,
        let r := Examples.data_error_to_console dt cout in
        (fst r = true
         <-> SDK.getLastDataError (DTrack2.sdk dt) = SDK.ERR_NONE)
        /\ (fst r = true -> snd r = cout)
        /\ (fst r = false -> exists line, snd r = cout ++ [line])).
Proof.
  split; [|split]; intros dt; cbn zeta.
  - unfold Examples.DTrack_error_to_console, DTrack.timeout, DTrack.udperror,
      DTrack.parseerror, Examples.print.
    destruct (SDK.getLastDataError (DTrack.sdk dt)); cbn;
      repeat split; intros; try done; by eexists.
  - unfold Examples.DTracklib_error_to_console, DTracklib.timeout,
      DTracklib.udperror, DTracklib.parseerror, Examples.print.
    destruct (SDK.getLastDataError (DTracklib.sdk dt)); cbn;
      repeat split; intros; try done; by eexists.
  - unfold Examples.data_error_to_console, DTrack2.data_timeout,
      DTrack2.data_neterror, DTrack2.data_parseerror, Examples.print.
    destruct (SDK.getLastDataError (DTrack2.sdk dt)); cbn;
      repeat split; intros; try done; by eexists.
Qed.

Lemma data_error_report_witness :
  SDK.getLastDataError (DTrack.sdk Scenario.dtrack_frame) = SDK.ERR_NONE
  /\ fst (Examples.DTrack_error_to_console Scenario.dtrack_frame []) = true
  /\ snd (Examples.DTrack_error_to_console Scenario.dtrack_frame []) = []
  /\ fst (Examples.DTrack_error_to_console
            (DTrack.set_sdk Scenario.dtrack_frame Scenario.sdk_timeout) [])
     = false
  /\ exists line,
       snd (Examples.DTrack_error_to_console
              (DTrack.set_sdk Scenario.dtrack_frame Scenario.sdk_timeout) [])
       = [] ++ [line].
Proof.
  destruct (data_error_report []) as (H & _ & _).
  destruct (H Scenario.dtrack_frame) as (Hiff & Hsame & _).
  destruct (H (DTrack.set_sdk Scenario.dtrack_frame Scenario.sdk_timeout))
    as (_ & _ & Hline).
  split; [reflexivity|]. split; [|split; [|split]].
  - apply Hiff. reflexivity.
  - apply Hsame. apply Hiff. reflexivity.
  - reflexivity.
  - apply Hline. reflexivity.
Defined.

(** X11. command_error_to_console of the DTrack2 example returns true
    exactly when the command interface is valid, the last server error is
    ERR_NONE and the last device error code is 0, and prints nothing then;
    otherwise it prints exactly one line, which for a device error holds the
    code and the quoted description that the two overloads of
    get_lasterror hand out. *)
Theorem command_error_report (dt : DTrack2.DTrack2) (cout : list string) :
  let r := Examples.command_error_to_console dt cout in
  let code := SDK.getLastDTrackError (DTrack2.sdk dt) in
  let reachable_controller :=
    SDK.isCommandInterfaceValid (DTrack2.sdk dt) = true
    /\ SDK.getLastServerError (DTrack2.sdk dt) = SDK.ERR_NONE in
  (fst r = true <-> reachable_controller /\ code = 0)
  /\ (fst r = true -> snd r = cout)
  /\ (fst r = false -> exists line, snd r = cout ++ [line])
  /\ (reachable_controller -> code <> 0 ->
      snd r
      = cout
        ++ [("ATC command error: " ++ NilZero.string_of_int (Z.to_int code)
               ++ " " ++ Examples.dquote
               ++ SDK.getLastDTrackErrorDescription (DTrack2.sdk dt)
               ++ Examples.dquote)%string]).
Proof.
  cbn zeta.
  unfold Examples.command_error_to_console, DTrack2.server_noconnection,
    DTrack2.server_timeout, DTrack2.server_neterror,
    DTrack2.server_parseerror, DTrack2.get_lasterror,
    DTrack2.get_lasterror_string, Examples.print.
  destruct (SDK.isCommandInterfaceValid (DTrack2.sdk dt));
    destruct (SDK.getLastServerError (DTrack2.sdk dt));
    cbn [negb SDK.Errors_eqb fst snd];
    try destruct (Z.eqb_spec 0 (SDK.getLastDTrackError (DTrack2.sdk dt)));
    cbn [negb fst snd]; repeat split; intros;
    repeat match goal with H : _ /\ _ |- _ => destruct H end;
    first [ discriminate | congruence | by eexists | reflexivity ].
Qed.

Lemma command_error_report_witness :
  (SDK.isCommandInterfaceValid (DTrack2.sdk Scenario.dtrack2_refused) = true
   /\ SDK.getLastServerError (DTrack2.sdk Scenario.dtrack2_refused)
      = SDK.ERR_NONE)
  /\ SDK.getLastDTrackError (DTrack2.sdk Scenario.dtrack2_refused) <> 0
  /\ snd (Examples.command_error_to_console Scenario.dtrack2_refused [])
     = [] ++ [("ATC command error: 3 " ++ Examples.dquote
                 ++ "parameter unknown" ++ Examples.dquote)%string]
  /\ fst (Examples.command_error_to_console Scenario.dtrack2_new []) = true
  /\ snd (Examples.command_error_to_console Scenario.dtrack2_new []) = [].
Proof.
  assert (Hr : SDK.isCommandInterfaceValid
                 (DTrack2.sdk Scenario.dtrack2_refused) = true
               /\ SDK.getLastServerError (DTrack2.sdk Scenario.dtrack2_refused)
                  = SDK.ERR_NONE) by (split; reflexivity).
  assert (Hn : SDK.getLastDTrackError (DTrack2.sdk Scenario.dtrack2_refused)
               <> 0) by discriminate.
  destruct (command_error_report Scenario.dtrack2_refused [])
    as (_ & _ & _ & Hline).
  destruct (command_error_report Scenario.dtrack2_new [])
    as (Hiff & Hsame & _ & _).
  assert (Ht : fst (Examples.command_error_to_console Scenario.dtrack2_new [])
               = true)
    by (apply Hiff; repeat split; reflexivity).
  split; [exact Hr|]. split; [exact Hn|].
  split; [exact (Hline Hr Hn)|]. split; [exact Ht|]. exact (Hsame Ht).
Defined.

(** * Further properties of DTrack2CLI *)

(** ** The loops over argv *)

Ltac by_string_cases c :=
  repeat match goal with
         | |- context [String.eqb c ?l] =>
             destruct (String.eqb_spec c l) as [->|]; [intros _; reflexivity|]
         end;
  cbn; discriminate.

Lemma plain_not_one_word c : plain_action c = true -> one_word_action c = false.
Proof. unfold plain_action, DTrack2CLI.is_help. by_string_cases c. Qed.

Lemma one_word_not_plain c : one_word_action c = true -> plain_action c = false.
Proof. unfold one_word_action. by_string_cases c. Qed.

Lemma actionsb_sound : forall n l, (length l <= n)%nat -> actionsb l = true -> actions l.
Proof.
  induction n as [|n IH]; intros l Hl.
  - destruct l; [constructor | cbn in Hl; lia].
  - destruct l as [|c rest]; [constructor|]. cbn in Hl. cbn [actionsb].
    destruct (plain_action c) eqn:P.
    + intros Hb. apply actions_plain; [done|]. apply IH; [lia | done].
    + destruct (one_word_action c) eqn:O.
      * destruct rest as [|x rest']; [done|]. intros Hb.
        apply actions_one_word; [done|]. apply IH; [cbn in Hl; lia | done].
      * destruct (String.eqb_spec c "-set") as [->|]; [|done].
        destruct rest as [|x [|y rest']]; try done. intros Hb.
        apply actions_set. apply IH; [cbn in Hl; lia | done].
Qed.

Lemma actionsb_complete l : actions l -> actionsb l = true.
Proof.
  induction 1 as [| c rest P _ IH | c x rest O _ IH | p v rest _ IH].
  - reflexivity.
  - cbn [actionsb]. by rewrite P.
  - cbn [actionsb]. by rewrite (one_word_not_plain _ O), O.
  - exact IH.
Qed.

Lemma actionsb_actions l : actionsb l = true <-> actions l.
Proof. split; [by apply (actionsb_sound (length l)) | apply actionsb_complete]. Qed.

Lemma argv_at_lookup argv (k : nat) c :
  argv !! k = Some c -> DTrack2CLI.argv_at argv (Z.of_nat k) = DTrack2CLI.Returned c.
Proof.
  intros E. unfold DTrack2CLI.argv_at. rewrite Nat2Z.id, E.
  by destruct (Z.ltb_spec (Z.of_nat k) 0); [lia|].
Qed.

Lemma argv_at_index argv (k : nat) (i : Z) c :
  argv !! k = Some c -> i = Z.of_nat k ->
  DTrack2CLI.argv_at argv i = DTrack2CLI.Returned c.
Proof. intros E ->. by apply argv_at_lookup. Qed.

Lemma checkInput_loop_spec argv w :
  forall fuel k,
    (2 <= k <= length argv)%nat -> (length argv - k <= fuel)%nat ->
    DTrack2CLI.checkInput_loop fuel (Z.of_nat (length argv)) argv
      (Z.of_nat k + 1) w
    = if actionsb (drop k argv) then DTrack2CLI.Returned (0, w)
      else check_failed w.
Proof.
  induction fuel as [|fuel IH]; intros k Hk Hf.
  - assert (k = length argv) as -> by lia.
    rewrite drop_all. cbn [actionsb DTrack2CLI.checkInput_loop].
    rewrite Z.geb_leb. by destruct (Z.leb_spec (Z.of_nat (length argv) + 1) (Z.of_nat (length argv))); [lia|].
  - cbn [DTrack2CLI.checkInput_loop]. rewrite Z.geb_leb.
    destruct (Z.leb_spec (Z.of_nat k + 1) (Z.of_nat (length argv))) as [Hin|Hout].
    2:{ assert (k = length argv) as -> by lia. by rewrite drop_all. }
    destruct (Z.eqb_spec (Z.of_nat k + 1) 2); [lia|].
    destruct (lookup_lt_is_Some_2 argv k) as [c Hc]; [lia|].
    replace (Z.of_nat k + 1 - 1) with (Z.of_nat k) by lia.
    rewrite (argv_at_lookup _ _ _ Hc). cbn [mbind DTrack2CLI.run_bind].
    rewrite (drop_S _ _ _ Hc). cbn [actionsb].
    fold (plain_action c). fold (one_word_action c).
    destruct (plain_action c) eqn:P.
    + replace (Z.of_nat k + 1 + 1) with (Z.of_nat (S k) + 1) by lia.
      apply IH; lia.
    + destruct (one_word_action c) eqn:O.
      * rewrite Z.gtb_ltb.
        destruct (Z.ltb_spec (Z.of_nat k + 1) (Z.of_nat (length argv))) as [H2|H2].
        -- destruct (lookup_lt_is_Some_2 argv (S k)) as [x Hx]; [lia|].
           rewrite (drop_S _ _ _ Hx).
           replace (Z.of_nat k + 1 + 2) with (Z.of_nat (S (S k)) + 1) by lia.
           apply IH; lia.
        -- rewrite drop_ge by lia. reflexivity.
      * destruct (String.eqb_spec c "-set") as [->|]; [|reflexivity].
        rewrite Z.gtb_ltb.
        destruct (Z.ltb_spec (Z.of_nat k + 1 + 1) (Z.of_nat (length argv))) as [H2|H2].
        -- destruct (lookup_lt_is_Some_2 argv (S k)) as [x Hx]; [lia|].
           destruct (lookup_lt_is_Some_2 argv (S (S k))) as [y Hy]; [lia|].
           rewrite (drop_S _ _ _ Hx), (drop_S _ _ _ Hy).
           replace (Z.of_nat k + 1 + 3) with (Z.of_nat (S (S (S k))) + 1) by lia.
           apply IH; lia.
        -- destruct (drop (S k) argv) as [|x [|y rest]] eqn:D; try reflexivity.
           apply (f_equal length) in D. rewrite length_drop in D. cbn in D. lia.
Qed.

Lemma checkInput_first_iteration fuel argc argv w :
  3 <= argc ->
  DTrack2CLI.checkInput_loop fuel argc argv 2 w
  = DTrack2CLI.checkInput_loop fuel argc argv 3 w.
Proof.
  intros Ha. destruct fuel as [|fuel]; cbn [DTrack2CLI.checkInput_loop];
    rewrite !Z.geb_leb;
    destruct (Z.leb_spec 2 argc), (Z.leb_spec 3 argc); try lia; reflexivity.
Qed.

Lemma checkInput_decides argv w :
  (3 <= length argv)%nat ->
  DTrack2CLI.checkInput (Z.of_nat (length argv)) argv w
  = if actionsb (drop 2 argv) then DTrack2CLI.Returned (0, w)
    else check_failed w.
Proof.
  intros Hl. unfold DTrack2CLI.checkInput.
  rewrite checkInput_first_iteration by lia.
  rewrite Nat2Z.id. apply (checkInput_loop_spec argv w (length argv) 2); lia.
Qed.

Section CLI.
Context {E : DTrack2CLI.Environment}.

Lemma addressed_print_cout l w : commands_addressed w -> commands_addressed (DTrack2CLI.print_cout l w).
Proof. done. Qed.
Lemma addressed_print_cerr l w : commands_addressed w -> commands_addressed (DTrack2CLI.print_cerr l w).
Proof. done. Qed.
Lemma addressed_show_help p w : commands_addressed w -> commands_addressed (DTrack2CLI.show_help p w).
Proof. done. Qed.

Lemma addressed_called c s w : well_addressed c -> commands_addressed w -> commands_addressed (DTrack2CLI.called c s w).
Proof.
  intros Hc Hw. unfold commands_addressed, DTrack2CLI.called. cbn.
  apply Forall_app. split; [done|]. by constructor.
Qed.

Lemma addressed_messages w : commands_addressed w -> commands_addressed (DTrack2CLI.dtrack2_get_and_print_all_event_messages w).
Proof.
  unfold DTrack2CLI.dtrack2_get_and_print_all_event_messages.
  by destruct (DTrack2CLI.getMessages (DTrack2CLI.dt w)).
Qed.

Lemma addressed_error_to_console w : commands_addressed w -> commands_addressed (snd (DTrack2CLI.dtrack2_error_to_console w)).
Proof.
  intros Hw. unfold DTrack2CLI.dtrack2_error_to_console.
  destruct (DTrack2CLI.nonzero _); [|done]. cbn [snd].
  by apply addressed_messages, addressed_print_cerr.
Qed.

Lemma addressed_report_error w : commands_addressed w -> commands_addressed (snd (DTrack2CLI.report_error w)).
Proof.
  intros Hw. unfold DTrack2CLI.report_error.
  pose proof (addressed_error_to_console w Hw) as H.
  destruct (DTrack2CLI.dtrack2_error_to_console w) as [e w'].
  by destruct (DTrack2CLI.nonzero e).
Qed.

Lemma addressed_start w : commands_addressed w -> commands_addressed (snd (DTrack2CLI.start_measurement w)).
Proof.
  intros Hw. unfold DTrack2CLI.start_measurement.
  destruct (DTrack2CLI.getParam _ _) as [[status|] s1].
  - destruct (_ && _); [|by apply addressed_called].
    destruct (DTrack2CLI.startMeasurement _) as [ok s2].
    destruct (negb ok); [apply addressed_report_error|]; by repeat apply addressed_called.
  - apply addressed_report_error. by apply addressed_called.
Qed.

Lemma addressed_stop w : commands_addressed w -> commands_addressed (snd (DTrack2CLI.stop_measurement w)).
Proof.
  intros Hw. unfold DTrack2CLI.stop_measurement.
  destruct (DTrack2CLI.getParam _ _) as [[status|] s1].
  - destruct (_ && _); [|by apply addressed_called].
    destruct (DTrack2CLI.stopMeasurement _) as [ok s2].
    destruct (negb ok); [apply addressed_report_error|]; by repeat apply addressed_called.
  - apply addressed_report_error. by apply addressed_called.
Qed.

Lemma addressed_get p w : commands_addressed w -> commands_addressed (snd (DTrack2CLI.get_dtrack2_parameter p w)).
Proof.
  intros Hw. unfold DTrack2CLI.get_dtrack2_parameter.
  destruct (DTrack2CLI.getParam _ _) as [[v|] s1].
  - by apply addressed_print_cout, addressed_called.
  - apply addressed_report_error. by apply addressed_called.
Qed.

Lemma addressed_set p w : commands_addressed w -> commands_addressed (snd (DTrack2CLI.set_dtrack2_parameter p w)).
Proof.
  intros Hw. unfold DTrack2CLI.set_dtrack2_parameter.
  destruct (DTrack2CLI.setParam _ _) as [ok s1].
  destruct (negb ok); [apply addressed_report_error|]; by apply addressed_called.
Qed.

Lemma addressed_send c w :
  String.prefix "dtrack2 " c = true ->
  commands_addressed w -> commands_addressed (snd (DTrack2CLI.send_dtrack2_command c w)).
Proof.
  intros Hc Hw. unfold DTrack2CLI.send_dtrack2_command.
  destruct (DTrack2CLI.sendDTrack2Command _ _) as [[r resp] s1].
  destruct (r =? 0); [apply addressed_print_cout | apply addressed_report_error];
    by apply addressed_called.
Qed.

Lemma dtrack2_prefix_added c :
  String.prefix "dtrack2 "
    (if negb (DTrack2CLI.compare0 8 "dtrack2 " c)
     then ("dtrack2 " ++ c)%string else c) = true.
Proof.
  unfold DTrack2CLI.compare0.
  destruct (String.eqb_spec (substring 0 8 c) "dtrack2 ") as [Hp|Hp]; cbn [negb].
  - by apply (proj2 (prefix_correct "dtrack2 " c)).
  - cbn. by destruct c.
Qed.

Lemma addressed_return_error r : commands_addressed (snd r) -> commands_addressed (snd (DTrack2CLI.return_error r)).
Proof. destruct r as [e w]. cbn. by destruct (DTrack2CLI.nonzero e). Qed.

Lemma addressed_process_command c w : commands_addressed w -> commands_addressed (snd (DTrack2CLI.process_command c w)).
Proof.
  intros Hw. unfold DTrack2CLI.process_command.
  repeat match goal with
         | |- context [if DTrack2CLI.compare0 ?n ?l c then _ else _] =>
             destruct (DTrack2CLI.compare0 n l c) eqn:?;
             [apply addressed_return_error; first [by apply addressed_get | by apply addressed_set]|]
         end.
  apply addressed_return_error, addressed_send; [apply dtrack2_prefix_added | done].
Qed.

Lemma addressed_process_line l acc :
  commands_addressed (snd acc) -> commands_addressed (snd (DTrack2CLI.process_line l acc)).
Proof.
  destruct acc as [first w]. cbn [snd]. intros Hw.
  unfold DTrack2CLI.process_line.
  pose proof (addressed_process_command l w Hw) as H.
  destruct (DTrack2CLI.process_command l w) as [e w'].
  by destruct (_ && _).
Qed.

Lemma addressed_lines (skip_empty : bool) lines : forall acc,
  commands_addressed (snd acc) ->
  commands_addressed (snd (fold_left
             (fun acc readLine =>
                if skip_empty && String.eqb readLine ""
                then acc else DTrack2CLI.process_line readLine acc)
             lines acc)).
Proof.
  induction lines as [|l lines IH]; intros acc Hw; [done|].
  cbn [fold_left]. apply IH.
  destruct (skip_empty && String.eqb l ""); [done | by apply addressed_process_line].
Qed.

Lemma addressed_open_file f w : commands_addressed w -> commands_addressed (snd (DTrack2CLI.open_file f w)).
Proof.
  intros Hw. unfold DTrack2CLI.open_file.
  destruct (DTrack2CLI.read_lines f) as [lines|]; [|by apply addressed_print_cerr].
  pose proof (addressed_lines true lines (0, w) Hw) as H. cbn [andb] in H.
  destruct (fold_left _ lines (0, w)) as [first w1]. cbn [snd] in H.
  pose proof (addressed_error_to_console w1 H) as H2.
  destruct (DTrack2CLI.dtrack2_error_to_console w1) as [e w2].
  destruct (DTrack2CLI.nonzero e); [done|]. by destruct (first =? 0).
Qed.

Lemma addressed_and_then r k :
  commands_addressed (snd r) ->
  (forall w, commands_addressed w -> commands_addressed (snd (k w))) ->
  commands_addressed (snd (and_then r k)).
Proof.
  destruct r as [e w]. cbn [snd and_then]. intros Hw Hk.
  destruct (DTrack2CLI.nonzero e); [done | by apply Hk].
Qed.

Lemma addressed_execute prog : forall n l,
  (length l <= n)%nat ->
  forall w, commands_addressed w ->
            commands_addressed (snd (execute prog l w)).
Proof.
  induction n as [|n IH]; intros l Hl w Hw.
  { destruct l; [done | cbn in Hl; lia]. }
  destruct l as [|c rest]; [done|]. cbn [length] in Hl. cbn [execute].
  assert (Hrest : forall l', (length l' <= length rest)%nat ->
            forall w', commands_addressed w' ->
                       commands_addressed (snd (execute prog l' w'))).
  { intros l' Hl'. apply IH. lia. }
  destruct (DTrack2CLI.is_help c).
  { apply Hrest; [lia | by apply addressed_show_help]. }
  destruct (String.eqb c "-meastart").
  { apply addressed_and_then; [by apply addressed_start | by apply Hrest]. }
  destruct (String.eqb c "-meastop").
  { apply addressed_and_then; [by apply addressed_stop | by apply Hrest]. }
  destruct (String.eqb c "-shutdown").
  { pose proof (addressed_send "dtrack2 system shutdown" w eq_refl Hw) as Hs.
    destruct (DTrack2CLI.send_dtrack2_command _ w) as [e w'].
    destruct (DTrack2CLI.nonzero e); [by apply addressed_report_error | done]. }
  destruct (String.eqb c "-get").
  { destruct rest as [|x rest]; [done|].
    apply addressed_and_then; [by apply addressed_get|].
    apply Hrest. cbn. lia. }
  destruct (String.eqb c "-set").
  { destruct rest as [|x [|y rest]]; try done.
    apply addressed_and_then; [by apply addressed_set|].
    apply Hrest. cbn. lia. }
  destruct (String.eqb c "-cmd").
  { destruct rest as [|x rest]; [done|].
    apply addressed_and_then;
      [by apply addressed_send; [apply dtrack2_prefix_added|]|].
    apply Hrest. cbn. lia. }
  destruct (String.eqb c "-f").
  { destruct rest as [|x rest]; [done|].
    apply addressed_and_then; [by apply addressed_open_file|].
    apply Hrest. cbn. lia. }
  by apply addressed_print_cout.
Qed.

Lemma process_first_iteration fuel argc argv w :
  3 <= argc ->
  DTrack2CLI.process_cmd_line_loop fuel argc argv 2 w
  = DTrack2CLI.process_cmd_line_loop fuel argc argv 3 w.
Proof.
  intros Ha. destruct fuel as [|fuel]; cbn [DTrack2CLI.process_cmd_line_loop];
    rewrite !Z.geb_leb;
    destruct (Z.leb_spec 2 argc), (Z.leb_spec 3 argc); try lia; reflexivity.
Qed.

Lemma drop_two_words (argv : list string) (k : nat) x rest :
  drop k argv = x :: rest ->
  argv !! k = Some x /\ rest = drop (S k) argv.
Proof.
  intros D.
  assert (Hx : argv !! k = Some x).
  { rewrite <- (Nat.add_0_r k), <- lookup_drop, D. done. }
  split; [done|]. rewrite (drop_S _ _ _ Hx) in D. by injection D as <-.
Qed.

Lemma process_loop_executes argv prog :
  argv !! 0%nat = Some prog ->
  forall fuel k w,
    (2 <= k <= length argv)%nat -> (length argv - k <= fuel)%nat ->
    actionsb (drop k argv) = true ->
    DTrack2CLI.process_cmd_line_loop fuel (Z.of_nat (length argv)) argv
      (Z.of_nat k + 1) w
    = DTrack2CLI.Returned (execute prog (drop k argv) w).
Proof.
  intros Hprog.
  induction fuel as [|fuel IH]; intros k w Hk Hf Hb.
  - assert (k = length argv) as -> by lia.
    cbn [DTrack2CLI.process_cmd_line_loop]. rewrite Z.geb_leb, drop_all.
    by destruct (Z.leb_spec (Z.of_nat (length argv) + 1)
                   (Z.of_nat (length argv))); [lia|].
  - cbn [DTrack2CLI.process_cmd_line_loop]. rewrite Z.geb_leb.
    destruct (Z.leb_spec (Z.of_nat k + 1) (Z.of_nat (length argv)))
      as [Hin|Hout].
    2:{ assert (k = length argv) as -> by lia. by rewrite drop_all. }
    destruct (Z.eqb_spec (Z.of_nat k + 1) 2); [lia|].
    destruct (lookup_lt_is_Some_2 argv k) as [c Hc]; [lia|].
    replace (Z.of_nat k + 1 - 1) with (Z.of_nat k) by lia.
    rewrite (argv_at_lookup _ _ _ Hc). cbn [mbind DTrack2CLI.run_bind].
    rewrite (drop_S _ _ _ Hc) in Hb |- *.
    assert (Hnext : forall (m : nat) w',
              (1 <= m)%nat -> (m + k <= length argv)%nat ->
              actionsb (drop (m + k) argv) = true ->
              DTrack2CLI.process_cmd_line_loop fuel (Z.of_nat (length argv))
                argv (Z.of_nat k + 1 + Z.of_nat m) w'
              = DTrack2CLI.Returned (execute prog (drop (m + k) argv) w')).
    { intros m w' Hm Hmk Hb'.
      replace (Z.of_nat k + 1 + Z.of_nat m) with (Z.of_nat (m + k) + 1) by lia.
      apply IH; try done; lia. }
    assert (Hk1 : (1 + k <= length argv)%nat) by lia.
    cbn [execute actionsb] in Hb |- *. unfold plain_action in Hb.
    destruct (DTrack2CLI.is_help c) eqn:Hh.
    { rewrite (argv_at_index argv 0 0 prog Hprog eq_refl).
      cbn [mbind DTrack2CLI.run_bind]. by apply (Hnext 1%nat). }
    cbn [orb] in Hb.
    destruct (String.eqb c "-meastart") eqn:E1.
    { unfold and_then. destruct (DTrack2CLI.start_measurement w) as [e w'].
      destruct (DTrack2CLI.nonzero e); [done | by apply (Hnext 1%nat)]. }
    destruct (String.eqb c "-meastop") eqn:E2.
    { unfold and_then. destruct (DTrack2CLI.stop_measurement w) as [e w'].
      destruct (DTrack2CLI.nonzero e); [done | by apply (Hnext 1%nat)]. }
    destruct (String.eqb c "-shutdown") eqn:E3.
    { destruct (DTrack2CLI.send_dtrack2_command _ w) as [e w'].
      by destruct (DTrack2CLI.nonzero e). }
    cbn [orb] in Hb. unfold one_word_action in Hb.
    destruct (String.eqb c "-get") eqn:E4.
    { cbn [orb] in Hb.
      destruct (drop (S k) argv) as [|x rest] eqn:D; [done|].
      destruct (drop_two_words _ _ _ _ D) as [Hx ->].
      rewrite (argv_at_index argv (S k) (Z.of_nat k + 1) x Hx) by lia.
      cbn [mbind DTrack2CLI.run_bind]. unfold and_then.
      destruct (DTrack2CLI.get_dtrack2_parameter x w) as [e w'].
      destruct (DTrack2CLI.nonzero e); [done|].
      apply lookup_lt_Some in Hx. by apply (Hnext 2%nat); [lia|lia|]. }
    destruct (String.eqb c "-set") eqn:E5.
    { assert (Hf' : String.eqb c "-f" = false).
      { apply String.eqb_eq in E5 as ->. reflexivity. }
      assert (Hc' : String.eqb c "-cmd" = false).
      { apply String.eqb_eq in E5 as ->. reflexivity. }
      rewrite Hf', Hc' in Hb. cbn [orb] in Hb.
      destruct (drop (S k) argv) as [|x [|y rest]] eqn:D; try done.
      destruct (drop_two_words _ _ _ _ D) as [Hx D'].
      symmetry in D'. destruct (drop_two_words _ _ _ _ D') as [Hy ->].
      rewrite (argv_at_index argv (S k) (Z.of_nat k + 1) x Hx) by lia.
      cbn [mbind DTrack2CLI.run_bind].
      rewrite (argv_at_index argv (S (S k)) (Z.of_nat k + 1 + 1) y Hy) by lia.
      cbn [mbind DTrack2CLI.run_bind]. unfold and_then.
      destruct (DTrack2CLI.set_dtrack2_parameter _ w) as [e w'].
      destruct (DTrack2CLI.nonzero e); [done|].
      apply lookup_lt_Some in Hy. by apply (Hnext 3%nat); [lia|lia|]. }
    destruct (String.eqb c "-cmd") eqn:E6.
    { rewrite orb_true_r in Hb.
      destruct (drop (S k) argv) as [|x rest] eqn:D; [done|].
      destruct (drop_two_words _ _ _ _ D) as [Hx ->].
      rewrite (argv_at_index argv (S k) (Z.of_nat k + 1) x Hx) by lia.
      cbn [mbind DTrack2CLI.run_bind]. unfold and_then.
      destruct (DTrack2CLI.send_dtrack2_command _ w) as [e w'].
      destruct (DTrack2CLI.nonzero e); [done|].
      apply lookup_lt_Some in Hx. by apply (Hnext 2%nat); [lia|lia|]. }
    destruct (String.eqb c "-f") eqn:E7; [|done].
    cbn [orb] in Hb.
    destruct (drop (S k) argv) as [|x rest] eqn:D; [done|].
    destruct (drop_two_words _ _ _ _ D) as [Hx ->].
    rewrite (argv_at_index argv (S k) (Z.of_nat k + 1) x Hx) by lia.
    cbn [mbind DTrack2CLI.run_bind]. unfold and_then.
    destruct (DTrack2CLI.open_file x w) as [e w'].
    destruct (DTrack2CLI.nonzero e); [done|].
    apply lookup_lt_Some in Hx. by apply (Hnext 2%nat); [lia|lia|].
Qed.

Lemma process_cmd_line_input_executes argv prog w :
  (3 <= length argv)%nat -> argv !! 0%nat = Some prog ->
  actionsb (drop 2 argv) = true ->
  DTrack2CLI.process_cmd_line_input (Z.of_nat (length argv)) argv w
  = DTrack2CLI.Returned (execute prog (drop 2 argv) w).
Proof.
  intros Hl Hprog Hb. unfold DTrack2CLI.process_cmd_line_input.
  rewrite process_first_iteration by lia. rewrite Nat2Z.id.
  apply (process_loop_executes argv prog Hprog (length argv) 2); [lia|lia|done].
Qed.

End CLI.

Section Main.
Context {E : DTrack2CLI.Environment}.

Lemma nonzero_false e : DTrack2CLI.nonzero e = false -> e = 0.
Proof. unfold DTrack2CLI.nonzero. by destruct (Z.eqb_spec e 0). Qed.

Lemma main_with_arguments before argv prog host stdin :
  (3 <= length argv)%nat ->
  argv !! 0%nat = Some prog -> argv !! 1%nat = Some host ->
  DTrack2CLI.main before (Z.of_nat (length argv)) argv stdin
  = if DTrack2CLI.is_help host
    then DTrack2CLI.Returned
           (0, DTrack2CLI.show_help prog
                 {| DTrack2CLI.dt := before; DTrack2CLI.cout := [];
                    DTrack2CLI.cerr := []; DTrack2CLI.calls := [] |})
    else if negb (SDK.isCommandInterfaceValid (DTrack2CLI.new_DTrackSDK host))
    then DTrack2CLI.Returned
           (DTrack2CLI.ERR_DTRACKSDK_INIT,
            DTrack2CLI.print_cerr
              ("No connection to ART controller! Is " ++ Examples.dquote
                 ++ host ++ Examples.dquote
                 ++ " a valid controller hostname of ip address?")%string
              (connected host))
    else if actionsb (drop 2 argv)
    then DTrack2CLI.Returned (execute prog (drop 2 argv) (connected host))
    else check_failed (connected host).
Proof.
  intros Hl Hprog Hhost. unfold DTrack2CLI.main, connected.
  destruct (Z.leb_spec (Z.of_nat (length argv)) 1); [lia|].
  rewrite (argv_at_index argv 1 1 host Hhost eq_refl).
  cbn [mbind DTrack2CLI.run_bind].
  destruct (DTrack2CLI.is_help host).
  { by rewrite (argv_at_index argv 0 0 prog Hprog eq_refl). }
  cbn [DTrack2CLI.dt DTrack2CLI.cout DTrack2CLI.cerr DTrack2CLI.calls].
  destruct (negb _); [done|].
  destruct (Z.eqb_spec (Z.of_nat (length argv)) 2); [lia|].
  rewrite checkInput_decides by lia.
  destruct (actionsb (drop 2 argv)) eqn:B; [|done].
  cbn [mbind DTrack2CLI.run_bind].
  change (DTrack2CLI.nonzero 0) with false. cbn iota.
  rewrite (process_cmd_line_input_executes argv prog) by done.
  cbn [mbind DTrack2CLI.run_bind].
  destruct (execute prog (drop 2 argv) _) as [e w].
  destruct (DTrack2CLI.nonzero e) eqn:N; [done|].
  by rewrite (nonzero_false _ N).
Qed.

Lemma actions_app l1 l2 : actions l1 -> actions l2 -> actions (l1 ++ l2).
Proof.
  intros H1 H2. induction H1; cbn [app];
    [done | by apply actions_plain | by apply actions_one_word
     | by apply actions_set].
Qed.

Lemma execute_set prog p v rest w :
  execute prog ("-set" :: p :: v :: rest)%string w
  = and_then (DTrack2CLI.set_dtrack2_parameter ((p ++ " ") ++ v)%string w)
             (execute prog rest).
Proof. reflexivity. Qed.

Lemma execute_shutdown prog pre rest :
  actions pre ->
  forall w, execute prog (pre ++ "-shutdown"%string :: rest) w
            = execute prog (pre ++ ["-shutdown"%string]) w.
Proof.
  induction 1 as [| c pre P _ IH | c x pre O _ IH | p v pre _ IH]; intros w.
  - reflexivity.
  - cbn [app execute]. unfold and_then.
    destruct (DTrack2CLI.is_help c) eqn:Hh; [apply IH|].
    destruct (String.eqb c "-meastart") eqn:E1.
    { destruct (DTrack2CLI.start_measurement w) as [e w'].
      destruct (DTrack2CLI.nonzero e); [done | apply IH]. }
    destruct (String.eqb c "-meastop") eqn:E2.
    { destruct (DTrack2CLI.stop_measurement w) as [e w'].
      destruct (DTrack2CLI.nonzero e); [done | apply IH]. }
    destruct (String.eqb c "-shutdown") eqn:E3; [done|].
    unfold plain_action in P. by rewrite Hh, E1, E2, E3 in P.
  - cbn [app execute]. unfold and_then.
    unfold one_word_action in O.
    destruct (String.eqb_spec c "-get") as [Heq|].
    { subst c. cbn. destruct (DTrack2CLI.get_dtrack2_parameter x w) as [e w'].
      destruct (DTrack2CLI.nonzero e); [done | apply IH]. }
    destruct (String.eqb_spec c "-f") as [Heq|].
    { subst c. cbn. destruct (DTrack2CLI.open_file x w) as [e w'].
      destruct (DTrack2CLI.nonzero e); [done | apply IH]. }
    destruct (String.eqb_spec c "-cmd") as [Heq|]; [|done].
    subst c. cbn [DTrack2CLI.is_help String.eqb Ascii.eqb Bool.eqb orb].
    destruct (DTrack2CLI.send_dtrack2_command _ w) as [e w'].
    destruct (DTrack2CLI.nonzero e); [done | apply IH].
  - cbn [app]. rewrite !execute_set. unfold and_then.
    destruct (DTrack2CLI.set_dtrack2_parameter _ w) as [e w'].
    destruct (DTrack2CLI.nonzero e); [done | apply IH].
Qed.

End Main.

(** ** DTrack2CLI: the command line *)

(** X12. checkInput accepts exactly the command lines show_help describes:
    for argc = 3 and more, it returns 0 and prints nothing if the words
    after the host name are a sequence of listed actions, each with its
    words, and otherwise it returns ERR_WRONG_INPUT_PARAMETER after one
    line on cerr. In both cases it returns: no argument outside argv is
    read and the loop ends. *)
Theorem checkInput_accepts_listed_actions argv w :
  (3 <= length argv)%nat ->
  (actions (drop 2 argv) ->
   DTrack2CLI.checkInput (Z.of_nat (length argv)) argv w
   = DTrack2CLI.Returned (0, w))
  /\ (~ actions (drop 2 argv) ->
      DTrack2CLI.checkInput (Z.of_nat (length argv)) argv w
      = DTrack2CLI.Returned
          (DTrack2CLI.ERR_WRONG_INPUT_PARAMETER,
           DTrack2CLI.print_cerr "Please check input parameters! (See help)"
             w)).
Proof.
  intros Hl. rewrite checkInput_decides by done. split; intros Ha.
  - by rewrite (actionsb_complete _ Ha).
  - destruct (actionsb (drop 2 argv)) eqn:B; [|reflexivity].
    exfalso. apply Ha. by apply actionsb_actions.
Qed.

Lemma checkInput_accepts_listed_actions_witness :
  (3 <= length Controller.argv_get)%nat
  /\ actions (drop 2 Controller.argv_get)
  /\ DTrack2CLI.checkInput (Z.of_nat (length Controller.argv_get))
       Controller.argv_get (@connected Controller.atc "atc-123456")
     = DTrack2CLI.Returned (0, @connected Controller.atc "atc-123456")
  /\ ~ actions (drop 2 Controller.argv_missing_word)
  /\ DTrack2CLI.checkInput (Z.of_nat (length Controller.argv_missing_word))
       Controller.argv_missing_word (@connected Controller.atc "atc-123456")
     = DTrack2CLI.Returned
         (DTrack2CLI.ERR_WRONG_INPUT_PARAMETER,
          DTrack2CLI.print_cerr "Please check input parameters! (See help)"
            (@connected Controller.atc "atc-123456")).
Proof.
  assert (Hl : (3 <= length Controller.argv_get)%nat) by (vm_compute; lia).
  assert (Hl' : (3 <= length Controller.argv_missing_word)%nat)
    by (vm_compute; lia).
  assert (Ha : actions (drop 2 Controller.argv_get))
    by (apply actionsb_actions; reflexivity).
  assert (Hn : ~ actions (drop 2 Controller.argv_missing_word))
    by (intros H; apply actionsb_complete in H; discriminate H).
  split; [exact Hl|]. split; [exact Ha|].
  split; [exact (proj1 (checkInput_accepts_listed_actions
                          Controller.argv_get _ Hl) Ha)|].
  split; [exact Hn|].
  exact (proj2 (checkInput_accepts_listed_actions
                  Controller.argv_missing_word _ Hl') Hn).
Defined.

(** X13. main with actions on the command line, once the controller is
    connected: if the words after the host name are a sequence of listed
    actions, main executes them from left to right up to the first that
    returns a nonzero code, and that code (or 0) is the exit code; if they
    are not, the exit code is ERR_WRONG_INPUT_PARAMETER and not one of
    them is executed: nothing is printed to cout and no SDK call is
    made. *)
Theorem main_checks_then_executes (E : DTrack2CLI.Environment) before argv
    prog host stdin :
  (3 <= length argv)%nat ->
  argv !! 0%nat = Some prog -> argv !! 1%nat = Some host ->
  DTrack2CLI.is_help host = false ->
  SDK.isCommandInterfaceValid (DTrack2CLI.new_DTrackSDK host) = true ->
  (actions (drop 2 argv) ->
   DTrack2CLI.main before (Z.of_nat (length argv)) argv stdin
   = DTrack2CLI.Returned (execute prog (drop 2 argv) (connected host)))
  /\ (~ actions (drop 2 argv) ->
      DTrack2CLI.main before (Z.of_nat (length argv)) argv stdin
      = DTrack2CLI.Returned
          (DTrack2CLI.ERR_WRONG_INPUT_PARAMETER,
           {| DTrack2CLI.dt := DTrack2CLI.new_DTrackSDK host;
              DTrack2CLI.cout := [];
              DTrack2CLI.cerr := ["Please check input parameters! (See help)"%string];
              DTrack2CLI.calls := [] |})).
Proof.
  intros Hl Hprog Hhost Hh Hv.
  rewrite (main_with_arguments before argv prog host stdin Hl Hprog Hhost).
  rewrite Hh, Hv. cbn [negb]. split; intros Ha.
  - by rewrite (actionsb_complete _ Ha).
  - destruct (actionsb (drop 2 argv)) eqn:B; [|reflexivity].
    exfalso. apply Ha. by apply actionsb_actions.
Qed.

Lemma main_checks_then_executes_witness :
  ((3 <= length Controller.argv_get)%nat
   /\ actions (drop 2 Controller.argv_get)
   /\ ~ actions (drop 2 Controller.argv_missing_word))
  /\ @DTrack2CLI.main Controller.atc Scenario.sdk_unbound
       (Z.of_nat (length Controller.argv_get)) Controller.argv_get []
     = DTrack2CLI.Returned
         (@execute Controller.atc "DTrack2CLI"
            (drop 2 Controller.argv_get)
            (@connected Controller.atc "atc-123456"))
  /\ @DTrack2CLI.main Controller.atc Scenario.sdk_unbound
       (Z.of_nat (length Controller.argv_missing_word))
       Controller.argv_missing_word []
     = DTrack2CLI.Returned
         (DTrack2CLI.ERR_WRONG_INPUT_PARAMETER,
          {| DTrack2CLI.dt := Scenario.sdk_idle;
             DTrack2CLI.cout := [];
             DTrack2CLI.cerr := ["Please check input parameters! (See help)"%string];
             DTrack2CLI.calls := [] |}).
Proof.
  assert (Hl : (3 <= length Controller.argv_get)%nat) by (vm_compute; lia).
  assert (Hl' : (3 <= length Controller.argv_missing_word)%nat)
    by (vm_compute; lia).
  assert (Ha : actions (drop 2 Controller.argv_get))
    by (apply actionsb_actions; reflexivity).
  assert (Hn : ~ actions (drop 2 Controller.argv_missing_word))
    by (intros H; apply actionsb_complete in H; discriminate H).
  split; [by repeat split|].
  split.
  - exact (proj1 (main_checks_then_executes Controller.atc
                    Scenario.sdk_unbound Controller.argv_get
                    "DTrack2CLI" "atc-123456" [] Hl eq_refl eq_refl
                    eq_refl eq_refl) Ha).
  - exact (proj2 (main_checks_then_executes Controller.atc
                    Scenario.sdk_unbound Controller.argv_missing_word
                    "DTrack2CLI" "atc-123456" [] Hl' eq_refl eq_refl
                    eq_refl eq_refl) Hn).
Defined.

(** X14. Started with argc arguments in argv (argc at least 1, the program
    name), main returns an exit code, whatever the arguments, the lines on
    the standard input, the files and the answers of the controller are:
    it reads no argument outside argv, and its loops over the arguments
    end. Every raw command it has handed to sendDTrack2Command by then
    starts with "dtrack2 ". *)
Theorem main_returns_with_addressed_commands (E : DTrack2CLI.Environment)
    before argv stdin :
  (1 <= length argv)%nat ->
  exists code w,
    DTrack2CLI.main before (Z.of_nat (length argv)) argv stdin
    = DTrack2CLI.Returned (code, w)
    /\ Forall well_addressed (DTrack2CLI.calls w).
Proof.
  intros Hl. destruct (lookup_lt_is_Some_2 argv 0) as [prog Hprog]; [lia|].
  assert (H0 : forall s, commands_addressed
                 {| DTrack2CLI.dt := s; DTrack2CLI.cout := [];
                    DTrack2CLI.cerr := []; DTrack2CLI.calls := [] |})
    by (intros s; constructor).
  destruct (le_lt_dec (length argv) 1) as [H1|H1].
  { unfold DTrack2CLI.main.
    destruct (Z.leb_spec (Z.of_nat (length argv)) 1); [|lia].
    rewrite (argv_at_index argv 0 0 prog Hprog eq_refl).
    eexists _, _. split; [reflexivity|]. apply addressed_show_help, H0. }
  destruct (lookup_lt_is_Some_2 argv 1) as [host Hhost]; [lia|].
  destruct (le_lt_dec (length argv) 2) as [H2|H2].
  { unfold DTrack2CLI.main.
    destruct (Z.leb_spec (Z.of_nat (length argv)) 1); [lia|].
    rewrite (argv_at_index argv 1 1 host Hhost eq_refl).
    cbn [mbind DTrack2CLI.run_bind].
    destruct (DTrack2CLI.is_help host).
    { rewrite (argv_at_index argv 0 0 prog Hprog eq_refl).
      eexists _, _. split; [reflexivity|]. apply addressed_show_help, H0. }
    cbn [DTrack2CLI.dt DTrack2CLI.cout DTrack2CLI.cerr DTrack2CLI.calls].
    destruct (negb _).
    { eexists _, _. split; [reflexivity|]. apply addressed_print_cerr, H0. }
    destruct (Z.eqb_spec (Z.of_nat (length argv)) 2); [|lia].
    pose proof (addressed_lines false stdin
                  (0, {| DTrack2CLI.dt := DTrack2CLI.new_DTrackSDK host;
                         DTrack2CLI.cout := []; DTrack2CLI.cerr := [];
                         DTrack2CLI.calls := [] |}) (H0 _)) as Hs.
    cbn [andb] in Hs.
    destruct (fold_left _ stdin _) as [first w].
    destruct (DTrack2CLI.nonzero first); by eexists _, _. }
  rewrite (main_with_arguments before argv prog host stdin) by done.
  destruct (DTrack2CLI.is_help host).
  { eexists _, _. split; [reflexivity|]. apply addressed_show_help, H0. }
  destruct (negb _).
  { eexists _, _. split; [reflexivity|]. apply addressed_print_cerr, H0. }
  destruct (actionsb (drop 2 argv)).
  - pose proof (addressed_execute prog _ (drop 2 argv) (Nat.le_refl _)
                  (connected host) (H0 _)) as Hx.
    destruct (execute prog (drop 2 argv) (connected host)) as [code w].
    by exists code, w.
  - eexists _, _. split; [reflexivity|]. apply addressed_print_cerr, H0.
Qed.

Lemma main_returns_with_addressed_commands_witness :
  (1 <= length Controller.argv_shutdown)%nat
  /\ exists code w,
       @DTrack2CLI.main Controller.atc Scenario.sdk_unbound
         (Z.of_nat (length Controller.argv_shutdown)) Controller.argv_shutdown
         ["tracking start"%string]
       = DTrack2CLI.Returned (code, w)
       /\ Forall well_addressed (DTrack2CLI.calls w).
Proof.
  assert (Hl : (1 <= length Controller.argv_shutdown)%nat)
    by (vm_compute; lia).
  split; [exact Hl|].
  exact (main_returns_with_addressed_commands Controller.atc
           Scenario.sdk_unbound Controller.argv_shutdown
           ["tracking start"%string] Hl).
Defined.

(** X15. What follows -shutdown on the command line is checked but never
    executed: main with further listed actions after -shutdown ends with
    the same exit code, the same output and the same SDK calls as main
    without them. *)
Theorem arguments_after_shutdown_not_executed (E : DTrack2CLI.Environment)
    before prog host pre rest stdin :
  actions pre -> actions rest ->
  DTrack2CLI.main before
    (Z.of_nat (length (prog :: host :: pre ++ "-shutdown"%string :: rest)))
    (prog :: host :: pre ++ "-shutdown"%string :: rest) stdin
  = DTrack2CLI.main before
      (Z.of_nat (length (prog :: host :: pre ++ ["-shutdown"%string])))
      (prog :: host :: pre ++ ["-shutdown"%string]) stdin.
Proof.
  intros Hpre Hrest.
  assert (Hs : forall l, actions l -> actions ("-shutdown"%string :: l))
    by (intros l Hl; by apply actions_plain).
  rewrite (main_with_arguments before _ prog host stdin);
    [| cbn [length]; rewrite length_app; cbn [length]; lia | done | done].
  rewrite (main_with_arguments before (prog :: host :: pre ++ [_]) prog host
             stdin);
    [| cbn [length]; rewrite length_app; cbn [length]; lia | done | done].
  cbn [drop]. rewrite !drop_0.
  rewrite (actionsb_complete (pre ++ _ :: rest)),
    (actionsb_complete (pre ++ [_]));
    [| apply actions_app; [done | apply Hs; constructor]
     | apply actions_app; [done | by apply Hs]].
  by rewrite execute_shutdown.
Qed.

Lemma arguments_after_shutdown_not_executed_witness :
  actions ["-meastart"%string]
  /\ actions ["-f"; "commands.txt"]%string
  /\ @DTrack2CLI.main Controller.atc Scenario.sdk_unbound
       (Z.of_nat (length Controller.argv_shutdown)) Controller.argv_shutdown []
     = @DTrack2CLI.main Controller.atc Scenario.sdk_unbound
         (Z.of_nat (length ["DTrack2CLI"; "atc-123456"; "-meastart";
                            "-shutdown"]%string))
         ["DTrack2CLI"; "atc-123456"; "-meastart"; "-shutdown"]%string [].
Proof.
  assert (H1 : actions ["-meastart"%string])
    by (apply actionsb_actions; reflexivity).
  assert (H2 : actions ["-f"; "commands.txt"]%string)
    by (apply actionsb_actions; reflexivity).
  split; [exact H1|]. split; [exact H2|].
  exact (arguments_after_shutdown_not_executed Controller.atc
           Scenario.sdk_unbound "DTrack2CLI"%string "atc-123456"%string
           ["-meastart"%string] ["-f"; "commands.txt"]%string [] H1 H2).
Defined.

(** ** DTrack2CLI: commands from a pipe or a file *)

Lemma substring_none s : substring 0 0 s = EmptyString.
Proof. by destruct s. Qed.

Lemma substring_all s : substring 0 (String.length s) s = s.
Proof. induction s as [|c s IH]; [done|]. cbn. by rewrite IH. Qed.

(** X16. process_command reads a parameter with or without the leading
    "dtrack2": the lines "get <parameter>" and "dtrack2 get <parameter>"
    both call get_dtrack2_parameter with exactly the rest of the line, and
    "set <parameter> <value>" and "dtrack2 set <parameter> <value>" both
    call set_dtrack2_parameter with it. *)
Theorem process_command_short_forms (E : DTrack2CLI.Environment) rest w :
  DTrack2CLI.process_command ("get " ++ rest)%string w
  = DTrack2CLI.return_error (DTrack2CLI.get_dtrack2_parameter rest w)
  /\ DTrack2CLI.process_command ("dtrack2 get " ++ rest)%string w
     = DTrack2CLI.return_error (DTrack2CLI.get_dtrack2_parameter rest w)
  /\ DTrack2CLI.process_command ("set " ++ rest)%string w
     = DTrack2CLI.return_error (DTrack2CLI.set_dtrack2_parameter rest w)
  /\ DTrack2CLI.process_command ("dtrack2 set " ++ rest)%string w
     = DTrack2CLI.return_error (DTrack2CLI.set_dtrack2_parameter rest w).
Proof.
  unfold DTrack2CLI.process_command, DTrack2CLI.compare0, DTrack2CLI.erase0.
  cbn [append substring String.length Nat.sub].
  rewrite !substring_none, Nat.sub_0_r, substring_all.
  by repeat split.
Qed.

(** X17. The exit code of an action reports only what the controller
    recorded. Where the SDK call fails and the last error code of the
    controller is 0 afterwards, the action returns 0 and prints nothing,
    on cout or on cerr: for getParam and setParam returning false, and for
    sendDTrack2Command returning anything but 0. *)
Theorem failures_without_controller_error_are_silent
    (E : DTrack2CLI.Environment) w s :
  SDK.getLastDTrackError s = 0 ->
  (forall parameter,
      DTrack2CLI.getParam parameter (DTrack2CLI.dt w) = (None, s) ->
      DTrack2CLI.get_dtrack2_parameter parameter w
      = (0, DTrack2CLI.called (DTrack2CLI.CallGetParam parameter) s w))
  /\ (forall parameter,
         DTrack2CLI.setParam parameter (DTrack2CLI.dt w) = (false, s) ->
         DTrack2CLI.set_dtrack2_parameter parameter w
         = (0, DTrack2CLI.called (DTrack2CLI.CallSetParam parameter) s w))
  /\ (forall command result answer,
         DTrack2CLI.sendDTrack2Command command (DTrack2CLI.dt w)
         = (result, answer, s) ->
         result <> 0 ->
         DTrack2CLI.send_dtrack2_command command w
         = (0, DTrack2CLI.called (DTrack2CLI.CallCommand command) s w)).
Proof.
  intros Hs.
  assert (Hr : forall c, DTrack2CLI.report_error (DTrack2CLI.called c s w)
                         = (0, DTrack2CLI.called c s w)).
  { intros c. unfold DTrack2CLI.report_error, DTrack2CLI.dtrack2_error_to_console.
    cbn [DTrack2CLI.called DTrack2CLI.dt]. by rewrite Hs. }
  repeat split.
  - intros p Hp. unfold DTrack2CLI.get_dtrack2_parameter. rewrite Hp. apply Hr.
  - intros p Hp. unfold DTrack2CLI.set_dtrack2_parameter. rewrite Hp. apply Hr.
  - intros c r a Hc Hn. unfold DTrack2CLI.send_dtrack2_command. rewrite Hc.
    destruct (Z.eqb_spec r 0); [done | apply Hr].
Qed.

Lemma failures_without_controller_error_are_silent_witness :
  SDK.getLastDTrackError Scenario.sdk_timeout = 0
  /\ @DTrack2CLI.get_dtrack2_parameter Controller.atc "system slow"
       (@connected Controller.atc "atc-123456")
     = (0, DTrack2CLI.called (DTrack2CLI.CallGetParam "system slow")
             Scenario.sdk_timeout (@connected Controller.atc "atc-123456"))
  /\ @DTrack2CLI.set_dtrack2_parameter Controller.atc "system slow 1"
       (@connected Controller.atc "atc-123456")
     = (0, DTrack2CLI.called (DTrack2CLI.CallSetParam "system slow 1")
             Scenario.sdk_timeout (@connected Controller.atc "atc-123456"))
  /\ @DTrack2CLI.send_dtrack2_command Controller.atc "dtrack2 system slow"
       (@connected Controller.atc "atc-123456")
     = (0, DTrack2CLI.called (DTrack2CLI.CallCommand "dtrack2 system slow")
             Scenario.sdk_timeout (@connected Controller.atc "atc-123456")).
Proof.
  assert (Hs : SDK.getLastDTrackError Scenario.sdk_timeout = 0)
    by reflexivity.
  destruct (failures_without_controller_error_are_silent Controller.atc
              (@connected Controller.atc "atc-123456") Scenario.sdk_timeout Hs)
    as (Hget & Hset & Hsend).
  split; [exact Hs|].
  split; [exact (Hget "system slow"%string eq_refl)|].
  split; [exact (Hset "system slow 1"%string eq_refl)|].
  refine (Hsend "dtrack2 system slow"%string (-1) ""%string eq_refl _).
  discriminate.
Defined.

(** ** DTrack2CLI: exit codes *)

Section ExitCodes.
Context {E : DTrack2CLI.Environment}.

Lemma reports_later w0 c1 w1 c2 w2 c :
  reports w0 (c1, w1) -> reports w1 (c2, w2) ->
  c = c1 \/ c = c2 \/ c = 0 ->
  reports w0 (c, w2).
Proof.
  unfold reports. cbn [fst snd]. intros H1 H2 Hc [H|H].
  - apply H2. left. apply H1. by left.
  - destruct Hc as [-> | [-> | ->]]; [|by apply H2; right | done].
    apply H2. left. apply H1. by right.
Qed.

Lemma reports_unchanged w w' :
  DTrack2CLI.cerr w' = DTrack2CLI.cerr w -> reports w (0, w').
Proof. unfold reports. cbn. intros ->. by intros [H|H]. Qed.

Lemma reports_nothing w : reports w (0, w).
Proof. by apply reports_unchanged. Qed.

Lemma reports_from w w1 r :
  DTrack2CLI.cerr w1 = DTrack2CLI.cerr w -> reports w1 r -> reports w r.
Proof. unfold reports. by intros ->. Qed.

Lemma reports_line c l w : reports w (c, DTrack2CLI.print_cerr l w).
Proof. unfold reports. cbn. intros _. by destruct (DTrack2CLI.cerr w). Qed.

Lemma reports_error_to_console w :
  reports w (DTrack2CLI.dtrack2_error_to_console w).
Proof.
  unfold DTrack2CLI.dtrack2_error_to_console.
  destruct (DTrack2CLI.nonzero _) eqn:N.
  - unfold reports, DTrack2CLI.dtrack2_get_and_print_all_event_messages.
    cbn [DTrack2CLI.print_cerr DTrack2CLI.dt DTrack2CLI.cerr].
    destruct (DTrack2CLI.getMessages _) as [messages s]. cbn. intros _.
    by destruct (DTrack2CLI.cerr w).
  - rewrite (nonzero_false _ N). by apply reports_unchanged.
Qed.

Lemma reports_report_error w : reports w (DTrack2CLI.report_error w).
Proof.
  unfold DTrack2CLI.report_error.
  pose proof (reports_error_to_console w) as H.
  destruct (DTrack2CLI.dtrack2_error_to_console w) as [e w'].
  destruct (DTrack2CLI.nonzero e) eqn:N; [done|].
  by rewrite (nonzero_false _ N) in H.
Qed.

Lemma reports_start w : reports w (DTrack2CLI.start_measurement w).
Proof.
  unfold DTrack2CLI.start_measurement.
  destruct (DTrack2CLI.getParam _ _) as [[status|] s1].
  - destruct (_ && _); [|by apply reports_unchanged].
    destruct (DTrack2CLI.startMeasurement _) as [ok s2].
    destruct (negb ok); [by eapply reports_from; [|apply reports_report_error] | by apply reports_unchanged].
  - by eapply reports_from; [|apply reports_report_error].
Qed.

Lemma reports_stop w : reports w (DTrack2CLI.stop_measurement w).
Proof.
  unfold DTrack2CLI.stop_measurement.
  destruct (DTrack2CLI.getParam _ _) as [[status|] s1].
  - destruct (_ && _); [|by apply reports_unchanged].
    destruct (DTrack2CLI.stopMeasurement _) as [ok s2].
    destruct (negb ok); [by eapply reports_from; [|apply reports_report_error] | by apply reports_unchanged].
  - by eapply reports_from; [|apply reports_report_error].
Qed.

Lemma reports_get p w : reports w (DTrack2CLI.get_dtrack2_parameter p w).
Proof.
  unfold DTrack2CLI.get_dtrack2_parameter.
  destruct (DTrack2CLI.getParam _ _) as [[v|] s1];
    [by apply reports_unchanged | by eapply reports_from; [|apply reports_report_error]].
Qed.

Lemma reports_set p w : reports w (DTrack2CLI.set_dtrack2_parameter p w).
Proof.
  unfold DTrack2CLI.set_dtrack2_parameter.
  destruct (DTrack2CLI.setParam _ _) as [ok s1].
  destruct (negb ok); [by eapply reports_from; [|apply reports_report_error] | by apply reports_unchanged].
Qed.

Lemma reports_send c w : reports w (DTrack2CLI.send_dtrack2_command c w).
Proof.
  unfold DTrack2CLI.send_dtrack2_command.
  destruct (DTrack2CLI.sendDTrack2Command _ _) as [[r a] s1].
  destruct (r =? 0); [by apply reports_unchanged | by eapply reports_from; [|apply reports_report_error]].
Qed.

Lemma reports_return_error w r :
  reports w r -> reports w (DTrack2CLI.return_error r).
Proof.
  destruct r as [e w']. cbn [DTrack2CLI.return_error]. intros H.
  destruct (DTrack2CLI.nonzero e) eqn:N; [done|].
  by rewrite (nonzero_false _ N) in H.
Qed.

Lemma reports_process_command c w :
  reports w (DTrack2CLI.process_command c w).
Proof.
  unfold DTrack2CLI.process_command.
  repeat match goal with
         | |- context [if DTrack2CLI.compare0 ?n ?l c then _ else _] =>
             destruct (DTrack2CLI.compare0 n l c) eqn:?;
             [apply reports_return_error;
              first [apply reports_get | apply reports_set]|]
         end.
  apply reports_return_error, reports_send.
Qed.

Lemma reports_process_line w0 l acc :
  reports w0 acc -> reports w0 (DTrack2CLI.process_line l acc).
Proof.
  destruct acc as [first w]. intros Hacc. unfold DTrack2CLI.process_line.
  pose proof (reports_process_command l w) as H.
  destruct (DTrack2CLI.process_command l w) as [e w'].
  destruct (_ && _);
    [apply (reports_later w0 first w e w') | apply (reports_later w0 first w e w')];
    auto.
Qed.

Lemma reports_lines w0 (skip_empty : bool) lines : forall acc,
  reports w0 acc ->
  reports w0 (fold_left
                (fun acc readLine =>
                   if skip_empty && String.eqb readLine ""
                   then acc else DTrack2CLI.process_line readLine acc)
                lines acc).
Proof.
  induction lines as [|l lines IH]; intros acc Hacc; [done|].
  cbn [fold_left]. apply IH.
  destruct (skip_empty && String.eqb l ""); [done|].
  by apply reports_process_line.
Qed.

Lemma reports_open_file f w : reports w (DTrack2CLI.open_file f w).
Proof.
  unfold DTrack2CLI.open_file.
  destruct (DTrack2CLI.read_lines f) as [lines|]; [|apply reports_line].
  pose proof (reports_lines w true lines (0, w) (reports_nothing w)) as H.
  cbn [andb] in H.
  destruct (fold_left _ lines (0, w)) as [first w1].
  pose proof (reports_error_to_console w1) as H2.
  destruct (DTrack2CLI.dtrack2_error_to_console w1) as [e w2].
  destruct (DTrack2CLI.nonzero e);
    [|destruct (first =? 0)]; apply (reports_later w first w1 e w2); auto.
Qed.

Lemma reports_and_then w r k :
  reports w r -> (forall w', reports w' (k w')) -> reports w (and_then r k).
Proof.
  destruct r as [e w1]. cbn [and_then]. intros Hr Hk.
  destruct (DTrack2CLI.nonzero e) eqn:N; [done|].
  rewrite (nonzero_false _ N) in Hr.
  pose proof (Hk w1) as H. destruct (k w1) as [c w2].
  apply (reports_later w 0 w1 c w2); auto.
Qed.

Lemma reports_execute prog l :
  actions l -> forall w, reports w (execute prog l w).
Proof.
  induction 1 as [| c l P _ IH | c x l O _ IH | p v l _ IH]; intros w.
  - by apply reports_unchanged.
  - cbn [execute].
    destruct (DTrack2CLI.is_help c) eqn:Hh.
    { pose proof (IH (DTrack2CLI.show_help prog w)) as H.
      destruct (execute prog l _) as [e w'].
      apply (reports_later w 0 (DTrack2CLI.show_help prog w) e w'); auto.
      unfold reports. cbn. by intros [?|?]. }
    destruct (String.eqb c "-meastart") eqn:E1.
    { apply reports_and_then; [apply reports_start | done]. }
    destruct (String.eqb c "-meastop") eqn:E2.
    { apply reports_and_then; [apply reports_stop | done]. }
    destruct (String.eqb c "-shutdown") eqn:E3.
    { pose proof (reports_send "dtrack2 system shutdown" w) as H1.
      destruct (DTrack2CLI.send_dtrack2_command _ w) as [e w'].
      destruct (DTrack2CLI.nonzero e) eqn:N.
      - pose proof (reports_report_error w') as H2.
        destruct (DTrack2CLI.report_error w') as [e2 w2].
        apply (reports_later w e w' e2 w2); auto.
      - by rewrite (nonzero_false _ N) in H1. }
    unfold plain_action in P. by rewrite Hh, E1, E2, E3 in P.
  - unfold one_word_action in O.
    destruct (String.eqb_spec c "-get") as [Heq|].
    { subst c. apply reports_and_then; [apply reports_get | done]. }
    destruct (String.eqb_spec c "-f") as [Heq|].
    { subst c. apply reports_and_then; [apply reports_open_file | done]. }
    destruct (String.eqb_spec c "-cmd") as [Heq|]; [|done].
    subst c. apply reports_and_then; [apply reports_send | done].
  - rewrite execute_set. apply reports_and_then; [apply reports_set | done].
Qed.

End ExitCodes.

(** X18. A nonzero exit code of main never comes without a message:
    started with argc arguments in argv (argc at least 1), if main ends
    with a nonzero exit code, that code is ERR_WRONG_USAGE (returned after
    the help text) or at least one line has been printed on cerr. *)
Theorem nonzero_exit_code_is_explained (E : DTrack2CLI.Environment) before
    argv stdin code w :
  (1 <= length argv)%nat ->
  DTrack2CLI.main before (Z.of_nat (length argv)) argv stdin
  = DTrack2CLI.Returned (code, w) ->
  code <> 0 ->
  code = DTrack2CLI.ERR_WRONG_USAGE \/ DTrack2CLI.cerr w <> [].
Proof.
  intros Hl Hmain Hcode.
  destruct (lookup_lt_is_Some_2 argv 0) as [prog Hprog]; [lia|].
  destruct (le_lt_dec (length argv) 1) as [H1|H1].
  { unfold DTrack2CLI.main in Hmain.
    destruct (Z.leb_spec (Z.of_nat (length argv)) 1); [|lia].
    rewrite (argv_at_index argv 0 0 prog Hprog eq_refl) in Hmain.
    left. by injection Hmain as <- _. }
  right.
  destruct (lookup_lt_is_Some_2 argv 1) as [host Hhost]; [lia|].
  destruct (le_lt_dec (length argv) 2) as [H2|H2].
  { unfold DTrack2CLI.main in Hmain.
    destruct (Z.leb_spec (Z.of_nat (length argv)) 1); [lia|].
    rewrite (argv_at_index argv 1 1 host Hhost eq_refl) in Hmain.
    cbn [mbind DTrack2CLI.run_bind] in Hmain.
    destruct (DTrack2CLI.is_help host).
    { rewrite (argv_at_index argv 0 0 prog Hprog eq_refl) in Hmain.
      by injection Hmain as <- _. }
    cbn [DTrack2CLI.dt DTrack2CLI.cout DTrack2CLI.cerr DTrack2CLI.calls]
      in Hmain.
    destruct (negb _).
    { injection Hmain as _ <-. cbn. discriminate. }
    destruct (Z.eqb_spec (Z.of_nat (length argv)) 2); [|lia].
    pose proof (reports_lines
                  {| DTrack2CLI.dt := DTrack2CLI.new_DTrackSDK host;
                     DTrack2CLI.cout := []; DTrack2CLI.cerr := [];
                     DTrack2CLI.calls := [] |} false stdin (0, _)
                  (reports_nothing _)) as Hs.
    cbn [andb] in Hs.
    destruct (fold_left _ stdin _) as [first w'].
    destruct (DTrack2CLI.nonzero first);
      injection Hmain as <- <-; [|done].
    apply Hs. by right. }
  rewrite (main_with_arguments before argv prog host stdin) in Hmain by done.
  destruct (DTrack2CLI.is_help host); [by injection Hmain as <- _|].
  destruct (negb _); [injection Hmain as _ <-; cbn; discriminate|].
  destruct (actionsb (drop 2 argv)) eqn:B.
  - apply actionsb_actions in B.
    pose proof (reports_execute prog _ B (connected host)) as Hx.
    injection Hmain as Hmain. rewrite Hmain in Hx. apply Hx. by right.
  - injection Hmain as _ <-. cbn. discriminate.
Qed.

Lemma nonzero_exit_code_is_explained_witness :
  (1 <= length Controller.argv_refused)%nat
  /\ 3 <> 0
  /\ exists w,
       @DTrack2CLI.main Controller.atc Scenario.sdk_unbound
         (Z.of_nat (length Controller.argv_refused)) Controller.argv_refused []
       = DTrack2CLI.Returned (3, w)
       /\ (3 = DTrack2CLI.ERR_WRONG_USAGE \/ DTrack2CLI.cerr w <> []).
Proof.
  assert (Hl : (1 <= length Controller.argv_refused)%nat)
    by (vm_compute; lia).
  assert (Hc : 3 <> 0) by discriminate.
  split; [exact Hl|]. split; [exact Hc|].
  eexists. split; [vm_compute; reflexivity|].
  exact (nonzero_exit_code_is_explained Controller.atc Scenario.sdk_unbound
           Controller.argv_refused [] 3 _ Hl eq_refl Hc).
Defined.

(** ** DTrack2CLI: the SDK calls of a pipe or a file *)

Section Calls.
Context {E : DTrack2CLI.Environment}.

Lemma calls_error_to_console w :
  DTrack2CLI.calls (snd (DTrack2CLI.dtrack2_error_to_console w))
  = DTrack2CLI.calls w.
Proof.
  unfold DTrack2CLI.dtrack2_error_to_console.
  destruct (DTrack2CLI.nonzero _); [|done].
  unfold DTrack2CLI.dtrack2_get_and_print_all_event_messages.
  by destruct (DTrack2CLI.getMessages _).
Qed.

Lemma calls_report_error w :
  DTrack2CLI.calls (snd (DTrack2CLI.report_error w)) = DTrack2CLI.calls w.
Proof.
  unfold DTrack2CLI.report_error.
  pose proof (calls_error_to_console w) as H.
  destruct (DTrack2CLI.dtrack2_error_to_console w) as [e w'].
  by destruct (DTrack2CLI.nonzero e).
Qed.

Lemma calls_get p w :
  DTrack2CLI.calls (snd (DTrack2CLI.get_dtrack2_parameter p w))
  = DTrack2CLI.calls w ++ [DTrack2CLI.CallGetParam p].
Proof.
  unfold DTrack2CLI.get_dtrack2_parameter.
  destruct (DTrack2CLI.getParam _ _) as [[v|] s1]; [done|].
  by rewrite calls_report_error.
Qed.

Lemma calls_set p w :
  DTrack2CLI.calls (snd (DTrack2CLI.set_dtrack2_parameter p w))
  = DTrack2CLI.calls w ++ [DTrack2CLI.CallSetParam p].
Proof.
  unfold DTrack2CLI.set_dtrack2_parameter.
  destruct (DTrack2CLI.setParam _ _) as [ok s1].
  destruct (negb ok); [|done]. by rewrite calls_report_error.
Qed.

Lemma calls_send c w :
  DTrack2CLI.calls (snd (DTrack2CLI.send_dtrack2_command c w))
  = DTrack2CLI.calls w ++ [DTrack2CLI.CallCommand c].
Proof.
  unfold DTrack2CLI.send_dtrack2_command.
  destruct (DTrack2CLI.sendDTrack2Command _ _) as [[r a] s1].
  destruct (r =? 0); [done|]. by rewrite calls_report_error.
Qed.

Lemma calls_return_error r :
  DTrack2CLI.calls (snd (DTrack2CLI.return_error r))
  = DTrack2CLI.calls (snd r).
Proof. destruct r as [e w]. cbn. by destruct (DTrack2CLI.nonzero e). Qed.

Lemma calls_process_command l w :
  DTrack2CLI.calls (snd (DTrack2CLI.process_command l w))
  = DTrack2CLI.calls w ++ [call_of_line l].
Proof.
  unfold DTrack2CLI.process_command, call_of_line.
  repeat match goal with
         | |- context [if DTrack2CLI.compare0 ?n ?s l then _ else _] =>
             destruct (DTrack2CLI.compare0 n s l);
             [rewrite calls_return_error;
              first [apply calls_get | apply calls_set]|]
         end.
  rewrite calls_return_error. apply calls_send.
Qed.

Lemma calls_process_line l acc :
  DTrack2CLI.calls (snd (DTrack2CLI.process_line l acc))
  = DTrack2CLI.calls (snd acc) ++ [call_of_line l].
Proof.
  destruct acc as [first w]. unfold DTrack2CLI.process_line.
  pose proof (calls_process_command l w) as H.
  destruct (DTrack2CLI.process_command l w) as [e w'].
  by destruct (_ && _).
Qed.

Lemma calls_lines (skip_empty : bool) lines : forall acc,
  DTrack2CLI.calls
    (snd (fold_left
            (fun acc readLine =>
               if skip_empty && String.eqb readLine ""
               then acc else DTrack2CLI.process_line readLine acc)
            lines acc))
  = DTrack2CLI.calls (snd acc)
    ++ map call_of_line
         (List.filter (fun l => negb (skip_empty && String.eqb l "")) lines).
Proof.
  induction lines as [|l lines IH]; intros acc.
  { cbn. by rewrite app_nil_r. }
  cbn [fold_left List.filter]. rewrite IH.
  destruct (skip_empty && String.eqb l ""); cbn [negb]; [done|].
  rewrite calls_process_line. cbn [map]. by rewrite <- app_assoc.
Qed.

End Calls.

(** X19. Without actions on the command line (argc = 2) and with the
    controller connected, main executes every line of the standard input,
    whatever the lines before it returned: it returns, and the SDK calls
    it has made are, in order, exactly one call for each line (the empty
    line included, which is sent as the raw command "dtrack2 "). *)
Theorem pipe_executes_every_line (E : DTrack2CLI.Environment) before argv
    host stdin :
  length argv = 2%nat -> argv !! 1%nat = Some host ->
  DTrack2CLI.is_help host = false ->
  SDK.isCommandInterfaceValid (DTrack2CLI.new_DTrackSDK host) = true ->
  exists code w,
    DTrack2CLI.main before (Z.of_nat (length argv)) argv stdin
    = DTrack2CLI.Returned (code, w)
    /\ DTrack2CLI.calls w = map call_of_line stdin
    /\ call_of_line "" = DTrack2CLI.CallCommand "dtrack2 ".
Proof.
  intros Hl Hhost Hh Hv. unfold DTrack2CLI.main. rewrite Hl.
  change (Z.of_nat 2 <=? 1) with false. cbn iota.
  rewrite (argv_at_index argv 1 1 host Hhost eq_refl).
  cbn [mbind DTrack2CLI.run_bind]. rewrite Hh.
  cbn [DTrack2CLI.dt DTrack2CLI.cout DTrack2CLI.cerr DTrack2CLI.calls].
  rewrite Hv. cbn [negb]. change (Z.of_nat 2 =? 2) with true. cbn iota.
  pose proof (calls_lines false stdin
                (0, {| DTrack2CLI.dt := DTrack2CLI.new_DTrackSDK host;
                       DTrack2CLI.cout := []; DTrack2CLI.cerr := [];
                       DTrack2CLI.calls := [] |})) as Hs.
  cbn [andb negb snd DTrack2CLI.calls app] in Hs.
  assert (Hall : List.filter (fun _ : string => true) stdin = stdin).
  { clear. induction stdin as [|l ls IH]; [done|]. cbn. by rewrite IH. }
  rewrite Hall in Hs.
  destruct (fold_left _ stdin _) as [first w].
  destruct (DTrack2CLI.nonzero first); by eexists _, _.
Qed.

Lemma pipe_executes_every_line_witness :
  length ["DTrack2CLI"; "atc-123456"]%string = 2%nat
  /\ exists code w,
       @DTrack2CLI.main Controller.atc Scenario.sdk_unbound
         (Z.of_nat (length ["DTrack2CLI"; "atc-123456"]%string))
         ["DTrack2CLI"; "atc-123456"]%string
         ["get camera count"; ""; "dtrack2 set system slow 1"]%string
       = DTrack2CLI.Returned (code, w)
       /\ DTrack2CLI.calls w
          = map call_of_line
              ["get camera count"; ""; "dtrack2 set system slow 1"]%string
       /\ call_of_line "" = DTrack2CLI.CallCommand "dtrack2 ".
Proof.
  split; [reflexivity|].
  exact (pipe_executes_every_line Controller.atc Scenario.sdk_unbound
           ["DTrack2CLI"; "atc-123456"]%string "atc-123456"%string
           ["get camera count"; ""; "dtrack2 set system slow 1"]%string
           eq_refl eq_refl eq_refl eq_refl).
Defined.

(** X20. open_file executes every line of the file but the empty ones,
    whatever the lines before it returned: the SDK calls it adds are, in
    order, exactly one call for each line that is not empty. *)
Theorem open_file_executes_every_nonempty_line (E : DTrack2CLI.Environment)
    file_to_open lines w :
  DTrack2CLI.read_lines file_to_open = Some lines ->
  DTrack2CLI.calls (snd (DTrack2CLI.open_file file_to_open w))
  = DTrack2CLI.calls w ++ map call_of_line (List.filter nonempty lines).
Proof.
  intros Hf. unfold DTrack2CLI.open_file. rewrite Hf.
  pose proof (calls_lines true lines (0, w)) as H.
  cbn [andb snd] in H. fold nonempty in H.
  destruct (fold_left _ lines (0, w)) as [first w1]. cbn [snd] in H.
  pose proof (calls_error_to_console w1) as H2.
  destruct (DTrack2CLI.dtrack2_error_to_console w1) as [e w2].
  cbn [snd] in H2.
  destruct (DTrack2CLI.nonzero e); [|destruct (first =? 0)]; cbn [snd];
    by rewrite H2, H.
Qed.

Lemma open_file_executes_every_nonempty_line_witness :
  @DTrack2CLI.read_lines Controller.atc "commands.txt"
  = Some ["get status active"; ""; "tracking start"]%string
  /\ DTrack2CLI.calls
       (snd (@DTrack2CLI.open_file Controller.atc "commands.txt"
               (@connected Controller.atc "atc-123456")))
     = DTrack2CLI.calls (@connected Controller.atc "atc-123456")
       ++ map call_of_line
            (List.filter nonempty
               ["get status active"; ""; "tracking start"]%string).
Proof.
  split; [reflexivity|].
  exact (open_file_executes_every_nonempty_line Controller.atc
           "commands.txt"%string
           ["get status active"; ""; "tracking start"]%string
           (@connected Controller.atc "atc-123456") eq_refl).
Defined.
